(** * Trinetra: the background coordinator (src/background.js)

    A shallow embedding of the service worker's decision logic: the per-tab
    result store [tabAnalysisResults], the session override set
    [sessionProceededUrls], the whitelist test, the asynchronous
    [analyzeWithAI] with its two suspension points, the response validation
    and the message and tab listeners.  The listeners that never touch the
    store (notification buttons, downloads) follow the examples' data, with
    the lists of the payload, the link collection of content.js and the popup
    (src/popup.js); the web-request listeners only log and are left out, as
    are the regular expressions of [extractRelevantHtml] and the storage of
    the API key.

    JavaScript strings are modelled as [string] (sequences of 8-bit
    characters), numbers as binary64 [float], objects parsed from JSON as
    association lists.  What the engine provides (the URL parser, JSON.parse,
    String.prototype.toUpperCase and trim, number formatting, the text of
    engine errors) is a type class [Engine]; every theorem holds for every
    engine, and [ref_engine] is one instance to run closed examples with. *)

From Stdlib Require Import ZArith String Ascii List Floats Lia.
From stdpp Require Import gmap strings list.

Set Warnings "-register-all".
Local Open Scope Z_scope.
Local Open Scope string_scope.

(** ** JavaScript values *)

(** The values JSON.parse yields, and [undefined].  An object lists its own
    properties; JSON.parse keeps one binding per name, and [own_prop] reads the
    first. *)
Inductive JsValue : Type :=
| JUndefined
| JNull
| JBool (b : bool)
| JNum (x : float)
| JStr (s : string)
| JArr (items : list JsValue)
| JObj (props : list (string * JsValue)).

(** ToBoolean. *)
Definition truthy (v : JsValue) : bool :=
  match v with
  | JUndefined | JNull => false
  | JBool b => b
  | JNum x => negb (PrimFloat.eqb x 0%float || PrimFloat.is_nan x)
  | JStr s => negb (String.eqb s "")
  | JArr _ | JObj _ => true
  end.

(** Values thrown or rejected with.  [message] is what [error.message] reads. *)
Inductive JsError : Type :=
| NullishRead (key : string)      (* TypeError: property read on undefined or null *)
| NotAFunction (method : string)  (* TypeError: calling a property that is no function *)
| NotPrimitive                    (* TypeError: cannot convert object to primitive value *)
| Rejected (message : string).    (* a rejected promise carrying an Error with this message *)

Inductive Exc (A : Type) : Type :=
| Ok (a : A)
| Throw (e : JsError).
Arguments Ok {A} a.
Arguments Throw {A} e.

Definition exc_bind {A B} (m : Exc A) (k : A → Exc B) : Exc B :=
  match m with
  | Ok a => k a
  | Throw e => Throw e
  end.

Fixpoint own_prop (k : string) (ps : list (string * JsValue)) : JsValue :=
  match ps with
  | [] => JUndefined
  | (k', v) :: ps' => if String.eqb k k' then v else own_prop k ps'
  end.

(** [v.k] for the property names the coordinator reads (candidates, content,
    parts, text, status, ...): none of them is on a prototype, so only an
    object parsed from JSON can hold it. *)
Definition prop (v : JsValue) (k : string) : Exc JsValue :=
  match v with
  | JUndefined | JNull => Throw (NullishRead k)
  | JObj ps => Ok (own_prop k ps)
  | _ => Ok JUndefined
  end.

(** [v[0]]. *)
Definition index0 (v : JsValue) : Exc JsValue :=
  match v with
  | JUndefined | JNull => Throw (NullishRead "0")
  | JArr items => Ok (hd JUndefined items)
  | JStr (String c _) => Ok (JStr (String c ""))
  | JObj ps => Ok (own_prop "0" ps)
  | _ => Ok JUndefined
  end.

(** ** Strings *)

Definition startsWith (s p : string) : bool := String.prefix p s.

Definition endsWith (s suf : string) : bool :=
  let n := String.length s in
  let m := String.length suf in
  (m <=? n)%nat && String.eqb (String.substring (n - m) m s) suf.

(** [s.replace(/^www\./, '')] *)
Definition strip_www (s : string) : string :=
  if startsWith s "www." then String.substring 4 (String.length s - 4) s else s.

Definition nl : string := String (ascii_of_nat 10) "".

(** ** What the engine provides *)

Record Form := { action : string; method : string; inputs : nat }.

(** The message of content.js ([extractPageData]). *)
Record PageData := {
  pd_url : string;
  pd_title : string;
  pd_html : string;
  pd_visibleText : string;
  pd_scripts : list string;
  pd_forms : list Form;
  pd_iframes : list string;
  pd_links : list string
}.

Class Engine := {
  (** [new URL(u).hostname]; [None] when the constructor throws. *)
  URL_hostname : string → option string;
  toUpperCase : string → string;
  trim : string → string;
  (** [JSON.parse]; [None] when it throws a SyntaxError. *)
  JSON_parse : string → option JsValue;
  (** [String(v)] for a value that is not a string; converting an object or
      an array to a primitive can throw a TypeError. *)
  ToString : JsValue → Exc string;
  (** [(v * 100).toFixed(0)] *)
  percent_toFixed0 : JsValue → Exc string;
  (** [v > n] for a property value [v] and a number [n]. *)
  greater_than : JsValue → nat → Exc bool;
  (** [error.message] of the engine's own TypeErrors. *)
  typeError_message : JsError → string;
  (** Lines 132-186 of analyzeWithAI: the truncated payload and the prompt
      built around it.  Its regular expressions, URL resolution and
      JSON.stringify are the engine's; [new URL(f.action, url)] and
      [new URL(s, url)] throw on an unparsable form action or iframe source. *)
  build_prompt : PageData → Exc string
}.

(** ** The coordinator's state *)

Record VerdictRecord := {
  url : string;
  status : string;
  explanation : JsValue;
  timestamp : Z
}.

(** A slot of [tabAnalysisResults]: the navigation listener stores [null]. *)
Inductive Entry : Type :=
| Null
| Rec (r : VerdictRecord).

(** An activation of [analyzeWithAI] suspended at one of its awaits. *)
Inductive Task : Type :=
| AwaitApiKey (pageData : PageData) (tabId : Z)   (* await getApiKey() *)
| AwaitFetch (pageData : PageData) (tabId : Z).   (* await fetch(...) *)

Record World := {
  tabAnalysisResults : gmap Z Entry;
  sessionProceededUrls : gset string;
  tasks : list Task
}.

Definition initial : World :=
  {| tabAnalysisResults := ∅; sessionProceededUrls := ∅; tasks := [] |}.

(** What [GET_TAB_STATUS] answers with. *)
Inductive StatusView : Type :=
| Found (r : VerdictRecord)
| Placeholder (st : string) (expl : string).

Inductive Reply : Type :=
| ReplyStatus (text : string)                               (* { status: text } *)
| ReplyTabStatus (v : StatusView)
| ReplySuccess (newStatus : option Entry)                    (* { success: true, newStatus } *)
| ReplyDone                                                 (* { success: true } *)
| ReplyFailure.                                             (* { success: false } *)

(** Outbound calls, in the order they are made. *)
Inductive Effect : Type :=
| sendMessage_UPDATE_POPUP_DATA (data : VerdictRecord)
| notifications_create (tabId : Z) (suffix title message : string)
                       (priority : Z) (buttons : list string)
| fetch (apiKey : string) (prompt : string)
| tabs_goBack (tabId : Z)
| sendResponse (r : Reply).

(** ** A state, output and exception monad for the handlers *)

#[projections(primitive)] Record Out (A : Type) := mkOut {
  result : Exc A;
  world : World;
  emitted : list Effect
}.
Arguments mkOut {A} result world emitted.
Arguments result {A} o.
Arguments world {A} o.
Arguments emitted {A} o.

Definition M (A : Type) : Type := World → Out A.

Definition ret {A} (a : A) : M A := λ w, mkOut (Ok a) w [].

Definition bind {A B} (m : M A) (k : A → M B) : M B := λ w,
  let o := m w in
  match result o with
  | Ok a => let o' := k a (world o) in
            mkOut (result o') (world o') (emitted o ++ emitted o')
  | Throw e => mkOut (Throw e) (world o) (emitted o)
  end.

Definition try_catch {A} (m : M A) (handler : JsError → M A) : M A := λ w,
  let o := m w in
  match result o with
  | Ok a => o
  | Throw e => let o' := handler e (world o) in
               mkOut (result o') (world o') (emitted o ++ emitted o')
  end.

Definition lift {A} (x : Exc A) : M A := λ w, mkOut x w [].
Definition emit (e : Effect) : M unit := λ w, mkOut (Ok tt) w [e].
Definition modify (f : World → World) : M unit := λ w, mkOut (Ok tt) (f w) [].

#[global] Instance Exc_ret : MRet Exc := @Ok.
#[global] Instance Exc_bind : MBind Exc := λ A B k m, exc_bind m k.
#[global] Instance M_ret : MRet M := @ret.
#[global] Instance M_bind : MBind M := λ A B k m, bind m k.

Definition set_result (tabId : Z) (e : Entry) (w : World) : World :=
  {| tabAnalysisResults := <[tabId := e]> (tabAnalysisResults w);
     sessionProceededUrls := sessionProceededUrls w;
     tasks := tasks w |}.

Definition delete_result (tabId : Z) (w : World) : World :=
  {| tabAnalysisResults := delete tabId (tabAnalysisResults w);
     sessionProceededUrls := sessionProceededUrls w;
     tasks := tasks w |}.

Definition add_proceeded (u : string) (w : World) : World :=
  {| tabAnalysisResults := tabAnalysisResults w;
     sessionProceededUrls := {[u]} ∪ sessionProceededUrls w;
     tasks := tasks w |}.

Definition suspend (t : Task) (w : World) : World :=
  {| tabAnalysisResults := tabAnalysisResults w;
     sessionProceededUrls := sessionProceededUrls w;
     tasks := tasks w ++ [t] |}.

Definition resume (i : nat) (w : World) : World :=
  {| tabAnalysisResults := tabAnalysisResults w;
     sessionProceededUrls := sessionProceededUrls w;
     tasks := delete i (tasks w) |}.

(** ** The coordinator *)

Definition ANALYSIS_CACHE_DURATION_MS : Z := 3 * 60 * 1000.

Definition WHITELISTED_DOMAINS : list string :=
  [ "google.com"; "youtube.com"; "gmail.com";
    "github.com"; "stackoverflow.com";
    "developer.chrome.com"; "developer.mozilla.org";
    "wikipedia.org"; "medium.com" ].

Definition PENDING_PLACEHOLDER : StatusView :=
  Placeholder "PENDING" "Trinetra is analyzing or no data yet...".

(** What settles the [fetch] of analyzeWithAI, with the body reads that
    follow it.  From there to its call of [updateTabStatus] the function reads
    nothing of the shared state, so its awaits on the body are one step. *)
Inductive FetchOutcome : Type :=
| FetchRejected (e : JsError)
    (* fetch rejects *)
| HttpNotOk (statusText : string) (errorBody : Exc JsValue)
    (* !response.ok; errorBody: await response.json().catch(() => response.text()) *)
| HttpOk (resultText : Exc string).
    (* response.ok; resultText: await response.text() *)

Inductive Event : Type :=
| PAGE_DATA (senderTab : option Z) (data : PageData) (now : Z)
| GET_TAB_STATUS (tabId : Z)
| GO_BACK_TAB (tabId : Z)
| PROCEED_ANYWAY (tabId : Z) (now : Z)
| tabs_onUpdated (tabId : Z) (changeStatus : option string) (tabUrl : option string)
| tabs_onRemoved (tabId : Z)
| ApiKeyRead (task : nat) (apiKey : Exc JsValue) (now : Z)
| FetchSettled (task : nat) (outcome : FetchOutcome) (now : Z).

Section Coordinator.
Context `{Engine}.

(** [`${v}`] and [v + "..."]. *)
Definition js_string (v : JsValue) : Exc string :=
  match v with
  | JStr s => Ok s
  | _ => ToString v
  end.

(** [JSON.parse(v)] inside a [try]: [None] when the conversion of [v] to a
    string or the parse throws. *)
Definition JSON_parse_value (v : JsValue) : option JsValue :=
  match js_string v with
  | Ok s => JSON_parse s
  | Throw _ => None
  end.

Definition message (e : JsError) : string :=
  match e with
  | Rejected m => m
  | _ => typeError_message e
  end.

Definition getDomain (u : string) : option string :=
  strip_www <$> URL_hostname u.

Definition truncateText (text : JsValue) (maxLength : nat) : Exc JsValue :=
  if negb (truthy text) then Ok (JStr "")
  else match text with
       | JStr s =>
           if (maxLength <? String.length s)%nat
           then Ok (JStr (String.substring 0 (maxLength - 3) s +:+ "..."))
           else Ok text
       | JArr items =>
           if (maxLength <? length items)%nat
           then Throw (NotAFunction "substring") else Ok text
       | JObj ps =>
           match own_prop "length" ps with
           | JUndefined => Ok text
           | len =>
               longer ← greater_than len maxLength;
               if longer : bool then Throw (NotAFunction "substring") else Ok text
           end
       | _ => Ok text
       end.

(** [`${truncateText(text, maxLength)}`] *)
Definition truncated (text : JsValue) (maxLength : nat) : Exc string :=
  truncateText text maxLength ≫= js_string.

(** [domain && WHITELISTED_DOMAINS.some(w => domain.endsWith(w))] *)
Definition whitelisted (u : string) : bool :=
  match getDomain u with
  | Some domain =>
      negb (String.eqb domain "") && existsb (endsWith domain) WHITELISTED_DOMAINS
  | None => false
  end.

Definition updateTabStatus (tabId : Z) (u st : string) (expl : JsValue) (now : Z)
  : M unit :=
  let r := {| url := u; status := st; explanation := expl; timestamp := now |} in
  modify (set_result tabId (Rec r));;
  emit (sendMessage_UPDATE_POPUP_DATA r);;
  let domainName :=
    match getDomain u with
    | Some d => if String.eqb d "" then u else d
    | None => u
    end in
  if String.eqb st "DANGEROUS" then
    details ← lift (truncated expl 100);
    emit (notifications_create tabId "_trinetra_danger"
            "Trinetra Alert: DANGEROUS Site!"
            ("Page: " +:+ domainName +:+ nl
             +:+ "Trinetra AI flags this site as DANGEROUS." +:+ nl
             +:+ "Details: " +:+ details)
            2 ["Go Back"; "View Details"])
  else if String.eqb st "SUSPICIOUS" then
    details ← lift (truncated expl 100);
    emit (notifications_create tabId "_trinetra_suspicious"
            "Trinetra Warning: Suspicious Site"
            ("Page: " +:+ domainName +:+ nl
             +:+ "Trinetra AI flags this site as SUSPICIOUS." +:+ nl
             +:+ "Details: " +:+ details)
            1 [])
  else mret tt.

(** *** analyzeWithAI, from the resolution of [getApiKey] to the fetch *)

Definition analyzeWithAI_start (pageData : PageData) (tabId : Z) : M unit :=
  modify (suspend (AwaitApiKey pageData tabId)).

Definition analyzeWithAI_key (pageData : PageData) (tabId : Z) (apiKey : JsValue)
    (now : Z) : M unit := λ w,
  let u := pd_url pageData in
  if negb (truthy apiKey) then
    updateTabStatus tabId u "ERROR"
      (JStr "Gemini API key is missing. Please set it in the Trinetra popup.") now w
  else if whitelisted u then
    updateTabStatus tabId u "SAFE"
      (JStr "This domain is on Trinetra's trusted whitelist.") now w
  else if bool_decide (u ∈ sessionProceededUrls w) then
    updateTabStatus tabId u "SAFE"
      (JStr "You chose to proceed to this page earlier in this session.") now w
  else
    (prompt ← lift (build_prompt pageData);
     key ← lift (js_string apiKey);
     emit (fetch key prompt);;
     modify (suspend (AwaitFetch pageData tabId))) w.

(** *** analyzeWithAI, after the fetch settles *)

(** The value of [resultJson.candidates && resultJson.candidates[0].content &&
    resultJson.candidates[0].content.parts &&
    resultJson.candidates[0].content.parts[0].text]. *)
Definition candidate_text (resultJson : JsValue) : Exc JsValue :=
  candidates ← prop resultJson "candidates";
  if negb (truthy candidates) then Ok candidates else
  first ← index0 candidates;
  content ← prop first "content";
  if negb (truthy content) then Ok content else
  parts ← prop content "parts";
  if negb (truthy parts) then Ok parts else
  part ← index0 parts;
  prop part "text".

(** The value of [aiAnalysis && aiAnalysis.status && aiAnalysis.explanation],
    as a boolean. *)
Definition has_required_fields (aiAnalysis : JsValue) : Exc bool :=
  if negb (truthy aiAnalysis) then Ok false else
  st ← prop aiAnalysis "status";
  if negb (truthy st) then Ok false else
  expl ← prop aiAnalysis "explanation";
  Ok (truthy expl).

(** [aiAnalysis.status.toUpperCase().trim()] *)
Definition normalizedStatus (st : JsValue) : Exc string :=
  match st with
  | JStr s => Ok (trim (toUpperCase s))
  | JUndefined | JNull => Throw (NullishRead "toUpperCase")
  | _ => Throw (NotAFunction "toUpperCase")
  end.

Definition KNOWN_STATUSES : list string := ["SAFE"; "SUSPICIOUS"; "DANGEROUS"].

Definition includes (l : list string) (s : string) : bool := existsb (String.eqb s) l.

Definition with_confidence (aiAnalysis expl : JsValue) : Exc JsValue :=
  score ← prop aiAnalysis "confidence_score";
  if truthy score then
    percent ← percent_toFixed0 score;
    text ← js_string expl;
    Ok (JStr (text +:+ " (Confidence: " +:+ percent +:+ "%)"))
  else Ok expl.

Definition with_threat (aiAnalysis expl : JsValue) : Exc JsValue :=
  threat ← prop aiAnalysis "primary_threat_type";
  if truthy threat && negb (match threat with JStr s => String.eqb s "N/A" | _ => false end)
  then
    name ← js_string threat;
    text ← js_string expl;
    Ok (JStr (text +:+ " [Threat: " +:+ name +:+ "]"))
  else Ok expl.

Definition validate (tabId : Z) (u : string) (aiResponseText : JsValue) (now : Z)
  : M unit :=
  match JSON_parse_value aiResponseText with
  | None =>
      details ← lift (truncated aiResponseText 100);
      updateTabStatus tabId u "ERROR"
        (JStr ("Trinetra AI response content format error. Details: "
               +:+ details)) now
  | Some aiAnalysis =>
      present ← lift (has_required_fields aiAnalysis);
      if present : bool then
        st ← lift (prop aiAnalysis "status");
        normalized ← lift (normalizedStatus st);
        if includes KNOWN_STATUSES normalized then
          expl ← lift (prop aiAnalysis "explanation");
          expl ← lift (with_confidence aiAnalysis expl);
          expl ← lift (with_threat aiAnalysis expl);
          updateTabStatus tabId u normalized expl now
        else
          unknown ← lift (js_string st);
          expl ← lift (prop aiAnalysis "explanation");
          text ← lift (js_string expl);
          updateTabStatus tabId u "SUSPICIOUS"
            (JStr ("Trinetra AI provided an unknown status: " +:+ unknown
                   +:+ ". Explanation: " +:+ text)) now
      else
        updateTabStatus tabId u "ERROR"
          (JStr "Trinetra AI response structure incomplete.") now
  end.

Definition is_object (v : JsValue) : bool :=
  match v with
  | JNull | JArr _ | JObj _ => true
  | _ => false
  end.

(** What the [!response.ok] branch appends to its message. *)
Definition error_detail (errorBody : JsValue) : Exc string :=
  m ← (if is_object errorBody then
         err ← prop errorBody "error";
         if truthy err then prop err "message" else Ok err
       else Ok (JBool false));
  if truthy m then text ← js_string m; Ok (" - " +:+ text)
  else match errorBody with
       | JStr _ => text ← truncated errorBody 150; Ok (" - " +:+ text)
       | _ => Ok ""
       end.

Definition blocked_reason (resultJson : JsValue) : Exc JsValue :=
  feedback ← prop resultJson "promptFeedback";
  if truthy feedback then prop feedback "blockReason" else Ok feedback.

(** The body of the [try] block, from the point where the fetch settles. *)
Definition analyzeWithAI_try (tabId : Z) (u : string) (outcome : FetchOutcome)
    (now : Z) : M unit :=
  match outcome with
  | FetchRejected e => lift (Throw e)
  | HttpNotOk statusText errorBody =>
      body ← lift errorBody;
      detail ← lift (error_detail body);
      updateTabStatus tabId u "ERROR"
        (JStr ("Gemini API request failed: " +:+ statusText +:+ detail)) now
  | HttpOk resultText =>
      text ← lift resultText;
      match JSON_parse text with
      | None =>
          updateTabStatus tabId u "ERROR"
            (JStr "Trinetra AI response was not valid JSON.") now
      | Some resultJson =>
          aiResponseText ← lift (candidate_text resultJson);
          if truthy aiResponseText then validate tabId u aiResponseText now
          else
            reason ← lift (blocked_reason resultJson);
            if truthy reason then
              text ← lift (js_string reason);
              updateTabStatus tabId u "ERROR"
                (JStr ("Trinetra AI analysis blocked by content safety filter: "
                       +:+ text)) now
            else
              updateTabStatus tabId u "ERROR"
                (JStr "Could not extract content from Trinetra AI response (unexpected structure).")
                now
      end
  end.

Definition analyzeWithAI_settled (pageData : PageData) (tabId : Z)
    (outcome : FetchOutcome) (now : Z) : M unit :=
  let u := pd_url pageData in
  try_catch (analyzeWithAI_try tabId u outcome now)
    (λ error,
       updateTabStatus tabId u "ERROR"
         (JStr ("Network error or issue calling Trinetra AI backend: "
                +:+ message error)) now).

(** *** The listeners *)

Definition read {A} (f : World → A) : M A := λ w, mkOut (Ok (f w)) w [].

(** The record the PAGE_DATA listener reuses, if any:
    [existingResult && existingResult.url === request.data.url &&
     (sessionProceededUrls.has(request.data.url) ||
      (Date.now() - existingResult.timestamp < ANALYSIS_CACHE_DURATION_MS))] *)
Definition cached (w : World) (tabId : Z) (u : string) (now : Z)
  : option VerdictRecord :=
  match tabAnalysisResults w !! tabId with
  | Some (Rec existingResult) =>
      if String.eqb (url existingResult) u
         && (bool_decide (u ∈ sessionProceededUrls w)
             || (now - timestamp existingResult <? ANALYSIS_CACHE_DURATION_MS)%Z)
      then Some existingResult
      else None
  | _ => None
  end.

(** The spec's handlePageData. *)
Definition on_PAGE_DATA (senderTab : option Z) (data : PageData) (now : Z)
  : M unit := λ w,
  match senderTab with
  | Some tabId =>
      if bool_decide (tabId ≠ 0) then
        match cached w tabId (pd_url data) now with
        | Some existingResult =>
            (emit (sendMessage_UPDATE_POPUP_DATA existingResult);;
             emit (sendResponse (ReplyStatus "Using cached/proceeded Trinetra result.")))
              w
        | None =>
            (analyzeWithAI_start data tabId;;
             emit (sendResponse
                     (ReplyStatus "Trinetra analysis initiated with Gemini 1.5 Flash.")))
              w
        end
      else ret tt w
  | None => ret tt w
  end.

(** [tabAnalysisResults[tabId] || { status: "PENDING", ... }] *)
Definition getStatus (w : World) (tabId : Z) : StatusView :=
  match tabAnalysisResults w !! tabId with
  | Some (Rec r) => Found r
  | Some Null | None => PENDING_PLACEHOLDER
  end.

Definition on_GET_TAB_STATUS (tabId : Z) : M unit :=
  v ← read (λ w, getStatus w tabId);
  emit (sendResponse (ReplyTabStatus v)).

Definition on_GO_BACK_TAB (tabId : Z) : M unit :=
  if bool_decide (tabId ≠ 0) then
    emit (tabs_goBack tabId);;
    emit (sendResponse ReplyDone)
  else mret tt.

(** The spec's proceedAnyway. *)
Definition on_PROCEED_ANYWAY (tabId : Z) (now : Z) : M unit := λ w,
  match (if bool_decide (tabId ≠ 0) then tabAnalysisResults w !! tabId else None) with
  | Some (Rec existing) =>
      let urlToProceed := url existing in
      (modify (add_proceeded urlToProceed);;
       updateTabStatus tabId urlToProceed "SAFE"
         (JStr "You chose to proceed. Trinetra will trust this page for this session.")
         now;;
       newStatus ← read (λ w', tabAnalysisResults w' !! tabId);
       emit (sendResponse (ReplySuccess newStatus))) w
  | _ => emit (sendResponse ReplyFailure) w
  end.

(** The spec's onNavigationCompleted. *)
Definition on_tabs_onUpdated (tabId : Z) (changeStatus tabUrl : option string)
  : M unit := λ w,
  match changeStatus, tabUrl with
  | Some st, Some u =>
      if String.eqb st "complete"
         && negb (String.eqb u "")
         && (startsWith u "http://" || startsWith u "https://")
      then
        match tabAnalysisResults w !! tabId with
        | Some (Rec r) =>
            if bool_decide (getDomain (url r) ≠ getDomain u)
            then modify (set_result tabId Null) w
            else ret tt w
        | _ => ret tt w
        end
      else ret tt w
  | _, _ => ret tt w
  end.

(** The spec's onTabClosed. *)
Definition on_tabs_onRemoved (tabId : Z) : M unit :=
  modify (delete_result tabId).

Definition on_ApiKeyRead (i : nat) (apiKey : Exc JsValue) (now : Z) : M unit := λ w,
  match tasks w !! i with
  | Some (AwaitApiKey pageData tabId) =>
      (modify (resume i);;
       key ← lift apiKey;
       analyzeWithAI_key pageData tabId key now) w
  | _ => ret tt w
  end.

Definition on_FetchSettled (i : nat) (outcome : FetchOutcome) (now : Z)
  : M unit := λ w,
  match tasks w !! i with
  | Some (AwaitFetch pageData tabId) =>
      (modify (resume i);; analyzeWithAI_settled pageData tabId outcome now) w
  | _ => ret tt w
  end.

Definition handle (ev : Event) : M unit :=
  match ev with
  | PAGE_DATA senderTab data now => on_PAGE_DATA senderTab data now
  | GET_TAB_STATUS tabId => on_GET_TAB_STATUS tabId
  | GO_BACK_TAB tabId => on_GO_BACK_TAB tabId
  | PROCEED_ANYWAY tabId now => on_PROCEED_ANYWAY tabId now
  | tabs_onUpdated tabId changeStatus tabUrl => on_tabs_onUpdated tabId changeStatus tabUrl
  | tabs_onRemoved tabId => on_tabs_onRemoved tabId
  | ApiKeyRead i apiKey now => on_ApiKeyRead i apiKey now
  | FetchSettled i outcome now => on_FetchSettled i outcome now
  end.

(** One turn of the event loop: an exception that leaves a handler (a rejected
    [analyzeWithAI]) is dropped, what it wrote before stays. *)
Definition step (ev : Event) (w : World) : World := world (handle ev w).

Definition effects_of (ev : Event) (w : World) : list Effect := emitted (handle ev w).

Definition run (evs : list Event) (w : World) : World := foldl (λ w ev, step ev w) w evs.

Inductive reachable : World → Prop :=
| reachable_initial : reachable initial
| reachable_step w ev : reachable w → reachable (step ev w).

Definition is_fetch (e : Effect) : bool :=
  match e with
  | fetch _ _ => true
  | _ => false
  end.

(** No call of the classifier among the effects. *)
Definition no_fetch (es : list Effect) : Prop := forallb (λ e, negb (is_fetch e)) es = true.

End Coordinator.

Arguments updateTabStatus : simpl never.

(** ** A reference engine

    One engine to run closed examples with.  It is exact on the fragment the
    examples use: 8-bit strings with ASCII letters, absolute URLs of the shape
    scheme://host/path, JSON texts whose numbers are decimal literals of at
    most fifteen digits without exponent.  Outside that fragment it is total
    but makes no claim to agree with a browser. *)

Module Ref.

Definition dquote : ascii := ascii_of_nat 34.
Definition backslash : ascii := ascii_of_nat 92.

Definition is_ws (c : ascii) : bool :=
  let n := nat_of_ascii c in
  (n =? 32)%nat || (n =? 9)%nat || (n =? 10)%nat || (n =? 13)%nat.

Definition is_digit (c : ascii) : bool :=
  let n := nat_of_ascii c in (48 <=? n)%nat && (n <=? 57)%nat.

Definition upper (c : ascii) : ascii :=
  let n := nat_of_ascii c in
  if (97 <=? n)%nat && (n <=? 122)%nat then ascii_of_nat (n - 32) else c.

Definition lower (c : ascii) : ascii :=
  let n := nat_of_ascii c in
  if (65 <=? n)%nat && (n <=? 90)%nat then ascii_of_nat (n + 32) else c.

Fixpoint takewhile {A} (p : A → bool) (l : list A) : list A :=
  match l with
  | x :: l' => if p x then x :: takewhile p l' else []
  | [] => []
  end.

Fixpoint dropwhile {A} (p : A → bool) (l : list A) : list A :=
  match l with
  | x :: l' => if p x then dropwhile p l' else l
  | [] => []
  end.

Definition chars (s : string) : list ascii := list_ascii_of_string s.
Definition text (l : list ascii) : string := string_of_list_ascii l.

Definition toUpperCase (s : string) : string := text (map upper (chars s)).

Definition trim (s : string) : string :=
  text (rev (dropwhile is_ws (rev (dropwhile is_ws (chars s))))).

(** *** URLs *)

Fixpoint after_scheme (l : list ascii) : option (list ascii) :=
  match l with
  | ":"%char :: "/"%char :: "/"%char :: rest => Some rest
  | c :: rest => if Ascii.eqb c "/"%char then None else after_scheme rest
  | [] => None
  end.

Definition ends_host (c : ascii) : bool :=
  Ascii.eqb c "/"%char || Ascii.eqb c "?"%char || Ascii.eqb c "#"%char
  || Ascii.eqb c ":"%char.

Definition hostname (u : string) : option string :=
  match after_scheme (chars u) with
  | Some rest =>
      let host := takewhile (λ c, negb (ends_host c)) rest in
      if bool_decide (host = []) || existsb (λ c, Ascii.eqb c "@"%char) host
      then None
      else Some (text (map lower host))
  | None => None
  end.

(** *** Numbers *)

Definition number_of_Z (z : Z) : float := PrimFloat.of_uint63 (Uint63.of_Z z).

(** The magnitude of a finite number as a fraction of integers. *)
Definition fraction_of (m : positive) (e : Z) : Z * Z :=
  if (0 <=? e)%Z then (Z.pos m * 2 ^ e, 1)%Z else (Z.pos m, 2 ^ (- e))%Z.

(** The nearest integer, the larger one of two (as toFixed has it). *)
Definition round_half_up (num den : Z) : Z := ((2 * num + den) / (2 * den))%Z.

Fixpoint digits_value (acc : Z) (l : list ascii) : Z :=
  match l with
  | [] => acc
  | c :: l' => digits_value (10 * acc + Z.of_nat (nat_of_ascii c - 48)) l'
  end.

(** A decimal literal at the head of the input: with at most fifteen digits
    the quotient of the two integers, rounded once, is the number it denotes. *)
Definition parse_number (l : list ascii) : option (JsValue * list ascii) :=
  let '(neg, l1) :=
    match l with
    | "-"%char :: r => (true, r)
    | _ => (false, l)
    end in
  let whole := takewhile is_digit l1 in
  let '(frac, rest) :=
    match dropwhile is_digit l1 with
    | "."%char :: r => (takewhile is_digit r, dropwhile is_digit r)
    | r => ([], r)
    end in
  let plain :=
    match whole with
    | [] => false
    | "0"%char :: _ :: _ => false
    | _ => (length whole + length frac <=? 15)%nat
    end in
  let dangling :=
    match dropwhile is_digit l1 with
    | "."%char :: _ => bool_decide (frac = [])
    | _ => false
    end in
  let continues :=
    match rest with
    | c :: _ => Ascii.eqb c "e"%char || Ascii.eqb c "E"%char || Ascii.eqb c "."%char
    | [] => false
    end in
  if plain && negb dangling && negb continues then
    let x := PrimFloat.div (number_of_Z (digits_value 0 (whole ++ frac)))
               (number_of_Z (10 ^ Z.of_nat (length frac))) in
    Some (JNum (if neg then PrimFloat.opp x else x), rest)
  else None.

Definition print_Z (z : Z) : string := pretty.pretty z.

Fixpoint zeros (n : nat) : string :=
  match n with
  | O => ""
  | S n' => "0" +:+ zeros n'
  end.

(** [q / 10^k] in decimal. *)
Definition print_scaled (q : Z) (k : nat) : string :=
  match k with
  | O => print_Z q
  | _ =>
      let frac := print_Z (q mod 10 ^ Z.of_nat k) in
      print_Z (q / 10 ^ Z.of_nat k) +:+ "."
      +:+ zeros (k - String.length frac) +:+ frac
  end.

(** The shortest decimal that reads back as the number, looked for among
    those with [k], [k + 1], ... decimals. *)
Fixpoint shortest (fuel : nat) (k : nat) (x : float) (num den : Z) : string :=
  let q := round_half_up (num * 10 ^ Z.of_nat k) den in
  let back := PrimFloat.div (number_of_Z q) (number_of_Z (10 ^ Z.of_nat k)) in
  match fuel with
  | O => print_scaled q k
  | S fuel' =>
      if PrimFloat.eqb back x then print_scaled q k
      else shortest fuel' (S k) x num den
  end.

Definition print_number (x : float) : string :=
  match Prim2SF x with
  | S754_zero _ => "0"
  | S754_infinity neg => if neg then "-Infinity" else "Infinity"
  | S754_nan => "NaN"
  | S754_finite neg m e =>
      let '(num, den) := fraction_of m e in
      (if neg then "-" else "") +:+ shortest 17 0 (PrimFloat.abs x) num den
  end.

(** [x.toFixed(0)] *)
Definition print_rounded (x : float) : string :=
  match Prim2SF x with
  | S754_zero _ => "0"
  | S754_infinity neg => if neg then "-Infinity" else "Infinity"
  | S754_nan => "NaN"
  | S754_finite neg m e =>
      let '(num, den) := fraction_of m e in
      (if neg then "-" else "") +:+ print_Z (round_half_up num den)
  end.

(** *** JSON.parse *)

Definition unescape (c : ascii) : option ascii :=
  if Ascii.eqb c dquote then Some dquote
  else if Ascii.eqb c backslash then Some backslash
  else if Ascii.eqb c "/"%char then Some "/"%char
  else if Ascii.eqb c "n"%char then Some (ascii_of_nat 10)
  else if Ascii.eqb c "t"%char then Some (ascii_of_nat 9)
  else if Ascii.eqb c "r"%char then Some (ascii_of_nat 13)
  else if Ascii.eqb c "b"%char then Some (ascii_of_nat 8)
  else if Ascii.eqb c "f"%char then Some (ascii_of_nat 12)
  else None.

(** The characters of a string literal, after its opening quote. *)
Fixpoint parse_string (l : list ascii) (acc : list ascii)
  : option (string * list ascii) :=
  match l with
  | [] => None
  | c :: r =>
      if Ascii.eqb c dquote then Some (text (rev acc), r)
      else if Ascii.eqb c backslash then
        match r with
        | e :: r' =>
            match unescape e with
            | Some x => parse_string r' (x :: acc)
            | None => None
            end
        | [] => None
        end
      else if (nat_of_ascii c <? 32)%nat then None
      else parse_string r (c :: acc)
  end.

Definition expect (c : ascii) (l : list ascii) : option (list ascii) :=
  match dropwhile is_ws l with
  | c' :: r => if Ascii.eqb c c' then Some r else None
  | [] => None
  end.

Definition starts (p : string) (l : list ascii) : option (list ascii) :=
  let pl := chars p in
  if bool_decide (take (length pl) l = pl) then Some (drop (length pl) l) else None.

(** A later member replaces an earlier one of the same name. *)
Definition define (k : string) (v : JsValue) (ps : list (string * JsValue))
  : list (string * JsValue) :=
  filter (λ kv, kv.1 ≠ k) ps ++ [(k, v)].

Fixpoint parse_value (fuel : nat) (l : list ascii) : option (JsValue * list ascii) :=
  match fuel with
  | O => None
  | S fuel' =>
      match dropwhile is_ws l with
      | [] => None
      | c :: r =>
          if Ascii.eqb c dquote then
            '(s, r') ← parse_string r []; Some (JStr s, r')
          else if Ascii.eqb c "["%char then
            match expect "]"%char r with
            | Some r' => Some (JArr [], r')
            | None => parse_items fuel' r []
            end
          else if Ascii.eqb c "{"%char then
            match expect "}"%char r with
            | Some r' => Some (JObj [], r')
            | None => parse_members fuel' r []
            end
          else if Ascii.eqb c "t"%char then r' ← starts "rue" r; Some (JBool true, r')
          else if Ascii.eqb c "f"%char then r' ← starts "alse" r; Some (JBool false, r')
          else if Ascii.eqb c "n"%char then r' ← starts "ull" r; Some (JNull, r')
          else parse_number (c :: r)
      end
  end
with parse_items (fuel : nat) (l : list ascii) (acc : list JsValue)
  : option (JsValue * list ascii) :=
  match fuel with
  | O => None
  | S fuel' =>
      '(v, r) ← parse_value fuel' l;
      match expect ","%char r with
      | Some r' => parse_items fuel' r' (acc ++ [v])
      | None => r' ← expect "]"%char r; Some (JArr (acc ++ [v]), r')
      end
  end
with parse_members (fuel : nat) (l : list ascii) (acc : list (string * JsValue))
  : option (JsValue * list ascii) :=
  match fuel with
  | O => None
  | S fuel' =>
      r0 ← expect dquote l;
      '(k, r1) ← parse_string r0 [];
      r2 ← expect ":"%char r1;
      '(v, r3) ← parse_value fuel' r2;
      match expect ","%char r3 with
      | Some r' => parse_members fuel' r' (define k v acc)
      | None => r' ← expect "}"%char r3; Some (JObj (define k v acc), r')
      end
  end.

Definition JSON_parse (s : string) : option JsValue :=
  '(v, rest) ← parse_value (S (String.length s)) (chars s);
  if bool_decide (dropwhile is_ws rest = []) then Some v else None.

(** *** Conversions *)

Definition has_own (k : string) (ps : list (string * JsValue)) : bool :=
  existsb (λ kv, String.eqb k kv.1) ps.

(** An object parsed from JSON that has a member named toString cannot be
    converted: the member hides Object.prototype.toString and is no function. *)
Fixpoint ToString (v : JsValue) : Exc string :=
  match v with
  | JUndefined => Ok "undefined"
  | JNull => Ok "null"
  | JBool b => Ok (if b then "true" else "false")
  | JNum x => Ok (print_number x)
  | JStr s => Ok s
  | JArr items =>
      let element x :=
        match x with
        | JUndefined | JNull => Ok ""
        | _ => ToString x
        end in
      (fix join (l : list JsValue) : Exc string :=
         match l with
         | [] => Ok ""
         | [x] => element x
         | x :: l' =>
             match element x, join l' with
             | Ok a, Ok b => Ok (a +:+ "," +:+ b)
             | Throw e, _ | _, Throw e => Throw e
             end
         end) items
  | JObj ps => if has_own "toString" ps then Throw NotPrimitive else Ok "[object Object]"
  end.

(** StringToNumber, on the literals [parse_number] reads. *)
Definition number_of_string (s : string) : float :=
  match dropwhile is_ws (chars (trim s)) with
  | [] => 0%float
  | l => match parse_number l with
         | Some (JNum x, []) => x
         | _ => PrimFloat.nan
         end
  end.

Definition ToNumber (v : JsValue) : Exc float :=
  match v with
  | JUndefined => Ok PrimFloat.nan
  | JNull => Ok 0%float
  | JBool b => Ok (if b then 1%float else 0%float)
  | JNum x => Ok x
  | JStr s => Ok (number_of_string s)
  | _ => s ← ToString v; Ok (number_of_string s)
  end.

Definition percent_toFixed0 (v : JsValue) : Exc string :=
  x ← ToNumber v; Ok (print_rounded (PrimFloat.mul x 100%float)).

Definition greater_than (v : JsValue) (n : nat) : Exc bool :=
  x ← ToNumber v; Ok (PrimFloat.ltb (number_of_Z (Z.of_nat n)) x).

Definition typeError_message (e : JsError) : string :=
  match e with
  | NullishRead k => "Cannot read properties of undefined (reading '" +:+ k +:+ "')"
  | NotAFunction m => m +:+ " is not a function"
  | NotPrimitive => "Cannot convert object to primitive value"
  | Rejected m => m
  end.

(** The prompt is cut down to its last line and the page's address. *)
Definition build_prompt (pageData : PageData) : Exc string :=
  Ok ("Website Data:" +:+ nl +:+ pd_url pageData).

End Ref.

#[global] Instance ref_engine : Engine := {|
  URL_hostname := Ref.hostname;
  toUpperCase := Ref.toUpperCase;
  trim := Ref.trim;
  JSON_parse := Ref.JSON_parse;
  ToString := Ref.ToString;
  percent_toFixed0 := Ref.percent_toFixed0;
  greater_than := Ref.greater_than;
  typeError_message := Ref.typeError_message;
  build_prompt := Ref.build_prompt
|}.

(** JSON texts of the examples are written with apostrophes for the double
    quotes. *)
Definition quoted (s : string) : string :=
  Ref.text (map (λ c, if Ascii.eqb c "'"%char then Ref.dquote else c) (Ref.chars s)).

(** * Vocabulary of the specification *)

Section Vocabulary.
Context `{Engine}.

(** The object [updateTabStatus] stores. *)
Definition record (u st : string) (expl : JsValue) (now : Z) : VerdictRecord :=
  {| url := u; status := st; explanation := expl; timestamp := now |}.

(** The statuses a stored record can have. *)
Definition VERDICTS : list string := ["SAFE"; "SUSPICIOUS"; "DANGEROUS"; "ERROR"].

(** A record has its four fields by its type; it is complete when its status
    is one of the four verdicts and its explanation is not empty. *)
Definition complete (r : VerdictRecord) : Prop :=
  In (status r) VERDICTS ∧ truthy (explanation r) = true.

(** What the [try] block of analyzeWithAI comes to: an exception, or one call
    of [updateTabStatus]. *)
Inductive Decision : Type :=
| Thrown (e : JsError)
| Verdict (st : string) (expl : JsValue).

Definition enact (tabId : Z) (u : string) (now : Z) (d : Decision) : M unit :=
  match d with
  | Thrown e => lift (Throw e)
  | Verdict st expl => updateTabStatus tabId u st expl now
  end.

Definition sound (d : Decision) : Prop :=
  match d with
  | Thrown _ => True
  | Verdict st expl => In st VERDICTS ∧ truthy expl = true
  end.

Definition task_tab (t : Task) : Z :=
  match t with
  | AwaitApiKey _ tabId | AwaitFetch _ tabId => tabId
  end.

(** No slot and no suspended analysis belongs to the tab id 0, which the
    listeners treat as no tab; every record in a slot is complete. *)
Record consistent (w : World) : Prop := {
  tabs_nonzero : ∀ T e, tabAnalysisResults w !! T = Some e → T ≠ 0;
  records_complete : ∀ T r, tabAnalysisResults w !! T = Some (Rec r) → complete r;
  tasks_nonzero : ∀ t, t ∈ tasks w → task_tab t ≠ 0
}.

(** The record PROCEED_ANYWAY stores. *)
Definition override_record (u : string) (now : Z) : VerdictRecord :=
  record u "SAFE"
    (JStr "You chose to proceed. Trinetra will trust this page for this session.") now.




End Vocabulary.

(** * Data of the closed examples *)

Definition page (u : string) : PageData :=
  {| pd_url := u; pd_title := ""; pd_html := ""; pd_visibleText := "";
     pd_scripts := []; pd_forms := []; pd_iframes := []; pd_links := [] |}.

Definition bank_url : string := "https://example-bank-support.co/".
Definition github_url : string := "https://github.com/foo".
Definition evil_url : string := "https://evilgoogle.com/".

(** Response bodies of the classifier: one candidate, one part, whose text is
    the classifier's output. *)
Definition body_dangerous : string :=
  quoted "{'candidates':[{'content':{'parts':[{'text':'{\'status\':\'dangerous\',\'explanation\':\'mimics bank login\',\'confidence_score\':0.9}'}]}}]}".

Definition body_weird : string :=
  quoted "{'candidates':[{'content':{'parts':[{'text':'{\'status\':\' Weird \',\'explanation\':\'odd page\'}'}]}}]}".


Definition body_empty_explanation : string :=
  quoted "{'candidates':[{'content':{'parts':[{'text':'{\'status\':\'weird\',\'explanation\':\'\'}'}]}}]}".

(** Tab 1 has sent its page data and [getApiKey] is pending. *)
Definition awaiting_key (u : string) : World :=
  run [PAGE_DATA (Some 1) (page u) 1000] initial.

(** Tab 1 has sent its page data, the key was read, the fetch is in flight. *)
Definition awaiting_fetch (u : string) : World :=
  run [PAGE_DATA (Some 1) (page u) 1000; ApiKeyRead 0 (Ok (JStr "key")) 1001] initial.

(** Tab 1 shows the bank page with a DANGEROUS verdict. *)
Definition flagged : World :=
  run [FetchSettled 0 (HttpOk (Ok body_dangerous)) 1002] (awaiting_fetch bank_url).

(** The user has chosen to proceed on tab 1. *)
Definition proceeded : World := run [PROCEED_ANYWAY 1 2000] flagged.

(** Tab 1 went from the bank page, whose analysis is still in flight, to
    github.com, which is on the whitelist. *)
Definition navigated : World :=
  run [ tabs_onUpdated 1 (Some "complete") (Some github_url);
        PAGE_DATA (Some 1) (page github_url) 2000;
        ApiKeyRead 1 (Ok (JStr "key")) 2001 ]
      (awaiting_fetch bank_url).

Definition weird_output : JsValue :=
  JObj [("status", JStr " Weird "); ("explanation", JStr "odd page")].

Definition weird_output_text : string :=
  quoted "{'status':' Weird ','explanation':'odd page'}".

(** * The payload, the other listeners, the page script and the popup *)

(** ** Strings and numbers of the remaining code *)

Fixpoint all_chars (p : ascii → bool) (s : string) : bool :=
  match s with
  | "" => true
  | String c s' => p c && all_chars p s'
  end.

Definition is_decimal_digit (c : ascii) : bool :=
  let n := nat_of_ascii c in (48 <=? n)%nat && (n <=? 57)%nat.

(** [s.lastIndexOf(c)]: -1 when [c] does not occur. *)
Fixpoint lastIndexOf_from (c : ascii) (s : string) (i found : Z) : Z :=
  match s with
  | "" => found
  | String a s' => lastIndexOf_from c s' (i + 1)%Z (if Ascii.eqb a c then i else found)
  end.

Definition lastIndexOf (c : ascii) (s : string) : Z := lastIndexOf_from c s 0 (-1).

(** [s.substring(start)]: a negative start counts as 0. *)
Definition substring_from (s : string) (start : Z) : string :=
  let i := Z.to_nat (Z.max 0 start) in
  String.substring i (String.length s - i) s.

(** [s.split(sep)[0]]: the text before the first separator, all of [s] when
    there is none. *)
Fixpoint before_separator (sep : ascii) (s : string) : string :=
  match s with
  | "" => ""
  | String c s' => if Ascii.eqb c sep then "" else String c (before_separator sep s')
  end.

(** The white space [parseInt] skips, among 8-bit characters. *)
Definition is_StrWhiteSpaceChar (c : ascii) : bool :=
  let n := nat_of_ascii c in
  (n =? 9)%nat || (n =? 10)%nat || (n =? 11)%nat || (n =? 12)%nat || (n =? 13)%nat
  || (n =? 32)%nat || (n =? 160)%nat.

Fixpoint skip_white_space (s : string) : string :=
  match s with
  | String c s' => if is_StrWhiteSpaceChar c then skip_white_space s' else s
  | "" => ""
  end.

Definition digit_value (radix : Z) (c : ascii) : option Z :=
  let n := Z.of_nat (nat_of_ascii c) in
  let v := if (48 <=? n)%Z && (n <=? 57)%Z then Some (n - 48)%Z
           else if (97 <=? n)%Z && (n <=? 122)%Z then Some (n - 87)%Z
           else if (65 <=? n)%Z && (n <=? 90)%Z then Some (n - 55)%Z
           else None in
  match v with
  | Some d => if (d <? radix)%Z then Some d else None
  | None => None
  end.

(** The value of the longest prefix of digits; [None] when there is none. *)
Fixpoint parse_digits (radix : Z) (acc : option Z) (s : string) : option Z :=
  match s with
  | String c s' =>
      match digit_value radix c with
      | Some d => parse_digits radix (Some (radix * default 0 acc + d)%Z) s'
      | None => acc
      end
  | "" => acc
  end.

(** [parseInt(s)] with no radix given; [None] stands for NaN.  The value is
    the mathematical one, which is what the engine returns up to 2^53. *)
Definition parseInt (s : string) : option Z :=
  let s1 := skip_white_space s in
  let '(sign, s2) :=
    match s1 with
    | String "-"%char r => (-1, r)
    | String "+"%char r => (1, r)
    | _ => (1, s1)
    end in
  let '(radix, s3) :=
    if startsWith s2 "0x" || startsWith s2 "0X"
    then (16, String.substring 2 (String.length s2 - 2) s2)
    else (10, s2) in
  (λ v, (sign * v)%Z) <$> parse_digits radix None s3.

(** ** The lists of the payload (src/background.js, lines 137-144) *)

(** An element of [form_details]. *)
Record FormDetail := {
  action_url : string;
  form_method : string;
  number_of_inputs : nat
}.

(** [s => s && !s.startsWith(pageData.url.origin)].  The message of
    content.js carries the address of the page as a string
    ([window.location.href]); a string has no property [origin], and
    [startsWith(undefined)] looks for the text undefined. *)
Definition not_from_origin (s : string) : bool :=
  negb (String.eqb s "") && negb (startsWith s "undefined").

Definition external_script_urls (pageData : PageData) : list string :=
  take 15 (List.filter not_from_origin (pd_scripts pageData)).

Definition external_links_sample (pageData : PageData) : list string :=
  take 15 (List.filter not_from_origin (pd_links pageData)).

Section Payload.
(** [new URL(rel, base).href]; [None] when the constructor throws. *)
Variable URL_href : string → string → option string.

Definition form_detail (base : string) (f : Form) : option FormDetail :=
  resolved ← (if String.eqb (action f) "" then Some "N/A" else URL_href (action f) base);
  Some {| action_url := resolved; form_method := method f;
          number_of_inputs := inputs f |}.

(** [pageData.forms.map(...).slice(0, 7)]: every form is mapped, then seven
    are kept; [None] when a [new URL] throws. *)
Definition form_details (pageData : PageData) : option (list FormDetail) :=
  take 7 <$> mapM (form_detail (pd_url pageData)) (pd_forms pageData).

(** [pageData.iframes.filter(s => s).slice(0, 7).map(...)]: seven are kept,
    then mapped. *)
Definition iframe_sources (pageData : PageData) : option (list string) :=
  mapM (λ s, URL_href s (pd_url pageData))
    (take 7 (List.filter (λ s, negb (String.eqb s "")) (pd_iframes pageData))).

End Payload.

(** ** The links content.js collects (src/content.js, lines 61-65) *)

(** The test of the loop on [a[href]] elements, without its bound. *)
Definition external_link (origin href : string) : bool :=
  negb (String.eqb href "")
  && (startsWith href "http:" || startsWith href "https://")
  && negb (startsWith href origin).

(** [data.links] after the loop: [hrefs] are the [href] properties of the
    anchors in document order, [origin] is [window.location.origin]. *)
Definition extract_links (origin : string) (hrefs : list string) : list string :=
  fold_left
    (λ (links : list string) href,
       if (List.length links <? 20)%nat && external_link origin href
       then (links ++ [href])%list else links)
    hrefs [].

(** ** Notification buttons and downloads (src/background.js, lines 324-349
       and 415-429) *)

Record DownloadItem := { di_id : Z; di_filename : string; di_url : string }.

(** A notification of type basic without buttons. *)
Record Notification := {
  n_id : string;
  n_title : string;
  n_message : string;
  n_priority : Z
}.

Inductive ButtonEffect : Type :=
| goBack (tabId : Z)
    (* chrome.tabs.goBack(tabId) *)
| activate (tabId : Z)
    (* chrome.tabs.update(tabId, { active: true }); its callback focuses the
       window of the tab when there is one *)
| notifications_clear (id : string)
| notifications_create_basic (n : Notification).
    (* chrome.notifications.create(n_id, { type: "basic", ... }) *)

Definition suspiciousExtensions : list string :=
  [ ".exe"; ".bat"; ".msi"; ".apk"; ".dmg"; ".cmd"; ".scr"; ".js"; ".vbs";
    ".jar"; ".ps1"; ".docm"; ".xlsm"; ".pptm"; ".iso"; ".com" ].

Section Ids.
(** [n.toString()] and [`${n}`] outside the safe integers: from 2^53 on the
    digits are those of the shortest numeral that reads back as the number,
    and from 10^21 on the notation is exponential (1e+21). *)
Variable toString_unsafe : Z → string.

(** [n.toString()] and [`${n}`] for a number that is an integer (tab and
    download ids are): below 2^53 in magnitude, its decimal digits. *)
Definition Z_toString (n : Z) : string :=
  if (Z.abs n <? 2 ^ 53)%Z then pretty.pretty n else toString_unsafe n.

(** The id [updateTabStatus] gives a notification. *)
Definition notificationId (tabId : Z) (suffix : string) : string :=
  Z_toString tabId +:+ suffix.

(** The notification the View Details button raises. *)
Definition popup_info (tabId : Z) : Notification :=
  {| n_id := Z_toString tabId +:+ "_trinetra_popup_info";
     n_title := "Trinetra Web Guardian";
     n_message :=
       "Please click the Trinetra icon in your toolbar to see full details and options for this page.";
     n_priority := 0 |}.

(** The listener of chrome.notifications.onButtonClicked: its calls in the
    order they are made (the callback of tabs.update runs after the listener
    has returned). *)
Definition onButtonClicked (id : string) (buttonIndex : Z) : list ButtonEffect :=
  match parseInt (before_separator "_" id) with
  | Some tabId =>
      if (buttonIndex =? 0)%Z then [goBack tabId; notifications_clear id]
      else if (buttonIndex =? 1)%Z then
        [ activate tabId; notifications_clear id;
          notifications_create_basic (popup_info tabId) ]
      else [notifications_clear id]
  | None => [notifications_clear id]
  end.

(** [String.prototype.toLowerCase] *)
Variable toLowerCase : string → string.

(** The listener of chrome.downloads.onCreated: the notification it raises,
    if any. *)
Definition downloads_onCreated (downloadItem : DownloadItem) : option Notification :=
  let filename := toLowerCase (di_filename downloadItem) in
  if existsb (endsWith filename) suspiciousExtensions then
    Some {| n_id := "trinetra_download_alert_" +:+ Z_toString (di_id downloadItem);
            n_title := "Trinetra: Suspicious Download!";
            n_message :=
              "File: " +:+ di_filename downloadItem +:+ nl
              +:+ "This file type ("
              +:+ substring_from filename (lastIndexOf "." filename)
              +:+ ") can be dangerous. Verify the source before opening.";
            n_priority := 2 |}
  else None.

End Ids.

(** ** The popup (src/popup.js) *)

Inductive Icon : Type :=
| icon_check | icon_warning | icon_cross | icon_exclamation | icon_dots | icon_info.

(** The variables of the popup and the parts of its page the functions below
    write; [None] is what popup.html has before any of them ran.  The
    explanation is the value assigned to [textContent], which the page shows
    as a string. *)
Record Popup := {
  currentTabId : option Z;
  currentTabUrl : option string;
  statusClass : option string;
  statusIcon : option Icon;
  statusLine : option string;
  explanationText : option JsValue;
  actionsDisplay : option string
}.

Definition popup_loaded : Popup :=
  {| currentTabId := None; currentTabUrl := None; statusClass := None;
     statusIcon := None; statusLine := None; explanationText := None;
     actionsDisplay := None |}.

Definition data_status (data : StatusView) : string :=
  match data with
  | Found r => status r
  | Placeholder st _ => st
  end.

(** [data.url]: the placeholder has none. *)
Definition data_url (data : StatusView) : option string :=
  match data with
  | Found r => Some (url r)
  | Placeholder _ _ => None
  end.

Definition data_explanation (data : StatusView) : JsValue :=
  match data with
  | Found r => explanation r
  | Placeholder _ expl => JStr expl
  end.

Definition render (p : Popup) (class : string) (icon : Icon) (line : string)
    (expl : JsValue) (display : string) (tabUrl : option string) : Popup :=
  {| currentTabId := currentTabId p; currentTabUrl := tabUrl;
     statusClass := Some class; statusIcon := Some icon; statusLine := Some line;
     explanationText := Some expl; actionsDisplay := Some display |}.

Definition updatePopupUI (data : option StatusView) (p : Popup) : Popup :=
  match data with
  | Some d =>
      if String.eqb (data_status d) "" then
        render p "status-pending" icon_dots " Awaiting analysis..."
          (JStr "Trinetra is assessing this page or awaiting data from the background service.")
          "none" (currentTabUrl p)
      else
        let expl :=
          if truthy (data_explanation d) then data_explanation d
          else JStr "No detailed explanation available." in
        let st := data_status d in
        if String.eqb st "SAFE" then
          render p "status-safe" icon_check " Status: Safe" expl "none" (data_url d)
        else if String.eqb st "SUSPICIOUS" then
          render p "status-suspicious" icon_warning " Status: Suspicious" expl "flex"
            (data_url d)
        else if String.eqb st "DANGEROUS" then
          render p "status-dangerous" icon_cross " Status: Dangerous" expl "flex"
            (data_url d)
        else if String.eqb st "ERROR" then
          render p "status-error" icon_exclamation " Status: Error" expl "none"
            (data_url d)
        else
          render p "status-pending" icon_dots " Status: Pending Analysis..." expl "none"
            (data_url d)
  | None =>
      render p "status-pending" icon_dots " Awaiting analysis..."
        (JStr "Trinetra is assessing this page or awaiting data from the background service.")
        "none" (currentTabUrl p)
  end.

(** [!currentTabUrl] *)
Definition no_url (tabUrl : option string) : bool :=
  match tabUrl with
  | Some u => String.eqb u ""
  | None => true
  end.

(** The popup's listener for UPDATE_POPUP_DATA. *)
Definition on_UPDATE_POPUP_DATA (data : VerdictRecord) (p : Popup) : Popup :=
  if bool_decide (currentTabUrl p = Some (url data)) then updatePopupUI (Some (Found data)) p
  else if no_url (currentTabUrl p) then updatePopupUI (Some (Found data)) p
  else p.

(** Initialization, after [chrome.tabs.query] has answered with the active
    tab: the popup and whether it goes on to ask for the tab's status. *)
Definition on_tabs_query (tabId : Z) (tabUrl : option string) (p : Popup)
  : Popup * bool :=
  let p' := {| currentTabId := Some tabId; currentTabUrl := tabUrl;
               statusClass := statusClass p; statusIcon := statusIcon p;
               statusLine := statusLine p; explanationText := explanationText p;
               actionsDisplay := actionsDisplay p |} in
  if no_url tabUrl
     || negb (startsWith (default "" tabUrl) "http:")
        && negb (startsWith (default "" tabUrl) "https://")
  then ({| currentTabId := Some tabId; currentTabUrl := tabUrl;
           statusClass := statusClass p; statusIcon := Some icon_info;
           statusLine := Some "Cannot analyze this page.";
           explanationText := Some (JStr "Trinetra analyzes http/https web pages.");
           actionsDisplay := actionsDisplay p |}, false)
  else (p', true).

(** The answer to GET_TAB_STATUS arrives. *)
Definition on_status_response (response : StatusView) (p : Popup) : Popup :=
  updatePopupUI (Some response) p.

(** [if (currentTabId)]: the tab the two buttons act on. *)
Definition button_tab (p : Popup) : option Z :=
  match currentTabId p with
  | Some tabId => if bool_decide (tabId ≠ 0) then Some tabId else None
  | None => None
  end.

(** The message the Proceed Anyway button sends; [now] is the time at which
    the coordinator handles it. *)
Definition proceedAnywayButton_click (p : Popup) (now : Z) : option Event :=
  (λ tabId, PROCEED_ANYWAY tabId now) <$> button_tab p.

(** [if (response && response.success && response.newStatus)
       updatePopupUI(response.newStatus)] *)
Definition on_proceed_response (response : Reply) (p : Popup) : Popup :=
  match response with
  | ReplySuccess (Some (Rec r)) => updatePopupUI (Some (Found r)) p
  | _ => p
  end.

(** ** Vocabulary of the further properties *)

Section Vocabulary2.
Context `{Engine}.

(** The fetch, or the read of the body that follows it, fails. *)
Definition transport_error (outcome : FetchOutcome) : option JsError :=
  match outcome with
  | FetchRejected e => Some e
  | HttpNotOk _ (Throw e) => Some e
  | HttpOk (Throw e) => Some e
  | _ => None
  end.

(** The response body [resultText] carries a classifier output that has the
    two required fields and whose status, upper-cased and trimmed, is [st]. *)
Definition classifier_says (resultText st : string) : Prop :=
  ∃ resultJson output aiAnalysis s,
    JSON_parse resultText = Some resultJson
    ∧ candidate_text resultJson = Ok output ∧ truthy output = true
    ∧ JSON_parse_value output = Some aiAnalysis
    ∧ has_required_fields aiAnalysis = Ok true
    ∧ prop aiAnalysis "status" = Ok (JStr s)
    ∧ trim (toUpperCase s) = st.

(** Where a decision of the [try] block comes from: a failure, or the status
    the classifier gave. *)
Definition origin (outcome : FetchOutcome) (d : Decision) : Prop :=
  match d with
  | Thrown _ => True
  | Verdict st _ =>
      st = "ERROR"
      ∨ ∃ resultText n,
          outcome = HttpOk (Ok resultText) ∧ classifier_says resultText n
          ∧ st = if includes KNOWN_STATUSES n then n else "SUSPICIOUS"
  end.

(** The explanation the [catch] clause of analyzeWithAI records. *)
Definition network_error (e : JsError) : string :=
  "Network error or issue calling Trinetra AI backend: " +:+ message e.

(** A call of [updateTabStatus] that raises no notification. *)
Definition recorded (tabId : Z) (r : VerdictRecord) (w : World) : Out unit :=
  mkOut (Ok tt) (set_result tabId (Rec r) w) [sendMessage_UPDATE_POPUP_DATA r].

(** The message of the notification [updateTabStatus] raises for a page at
    [u] with status [st]; [details] is the truncated explanation. *)
Definition alert_message (u st details : string) : string :=
  "Page: "
  +:+ match getDomain u with
      | Some d => if String.eqb d "" then u else d
      | None => u
      end
  +:+ nl +:+ "Trinetra AI flags this site as " +:+ st +:+ "." +:+ nl
  +:+ "Details: " +:+ details.

Definition is_notification (e : Effect) : bool :=
  match e with
  | notifications_create _ _ _ _ _ _ => true
  | _ => false
  end.

End Vocabulary2.

(** ** Data of the further examples *)

(** [new URL(rel, base).href] on the addresses the DOM gives for form actions
    and iframe sources: absolute and in normal form, or without a host, which
    the constructor rejects. *)
Definition ref_href (rel base : string) : option string :=
  (λ _, rel) <$> Ref.hostname rel.

(** The reference engine with a prompt that fails as the payload does. *)
Definition payload_engine : Engine := {|
  URL_hostname := Ref.hostname;
  toUpperCase := Ref.toUpperCase;
  trim := Ref.trim;
  JSON_parse := Ref.JSON_parse;
  ToString := Ref.ToString;
  percent_toFixed0 := Ref.percent_toFixed0;
  greater_than := Ref.greater_than;
  typeError_message := Ref.typeError_message;
  build_prompt := λ pageData,
    match form_details ref_href pageData, iframe_sources ref_href pageData with
    | Some _, Some _ => Ref.build_prompt pageData
    | _, _ => Throw (Rejected "Invalid URL")
    end
|}.

(** The bank page with a form whose action has no host. *)
Definition page_with_form : PageData :=
  {| pd_url := bank_url; pd_title := ""; pd_html := ""; pd_visibleText := "";
     pd_scripts := ["https://example-bank-support.co/app.js"; "https://cdn.example/x.js"];
     pd_forms := [{| action := "http://"; method := "post"; inputs := 2 |}];
     pd_iframes := [];
     pd_links := extract_links "https://example-bank-support.co"
                   [ "https://example-bank-support.co/help";
                     "https://other.example/";
                     "mailto:support@example-bank-support.co" ] |}.

Definition body_blocked : string :=
  quoted "{'promptFeedback':{'blockReason':'SAFETY'}}".

Definition www_url : string := "https://www.example.com/a".
Definition bare_url : string := "https://example.com/b".

(** Tab 1 shows a page of www.example.com with a DANGEROUS verdict. *)
Definition flagged_www : World :=
  run [ PAGE_DATA (Some 1) (page www_url) 1000;
        ApiKeyRead 0 (Ok (JStr "key")) 1001;
        FetchSettled 0 (HttpOk (Ok body_dangerous)) 1002 ] initial.

(** After the user has proceeded on tab 1, tab 2 loads the bank page. *)
Definition revisit : World :=
  run [PAGE_DATA (Some 2) (page bank_url) 5000] proceeded.

(** What [toString] gives at 10^21; the ids of the examples stay within the
    safe integers. *)
Definition exponent_1e21 : Z → string := λ _, "1e+21".

(** The popup, opened on tab 1. *)
Definition popup_on_tab (tabUrl : string) : Popup :=
  fst (on_tabs_query 1 (Some tabUrl) popup_loaded).

(** * Properties *)

Section Properties.
Context `{Engine}.

(** ** Equations of the monad *)

Lemma lift_Ok_bind {A B} (a : A) (k : A → M B) : (lift (Ok a) ≫= k) = k a.
Proof. reflexivity. Qed.

Lemma bind_modify {B} (f : World → World) (k : unit → M B) (w : World) :
  (modify f ≫= k) w = k tt (f w).
Proof. reflexivity. Qed.

Lemma bind_emit {B} (e : Effect) (k : unit → M B) (w : World) :
  (emit e ≫= k) w =
  mkOut (result (k tt w)) (world (k tt w)) (e :: emitted (k tt w)).
Proof. reflexivity. Qed.

(** ** updateTabStatus *)

(** Whatever happens next, the slot of the tab holds the new record. *)
Lemma updateTabStatus_world tabId u st expl now w :
  world (updateTabStatus tabId u st expl now w)
  = set_result tabId (Rec (record u st expl now)) w.
Proof.
  unfold updateTabStatus. rewrite bind_modify, bind_emit. simpl.
  destruct (String.eqb st "DANGEROUS"); [|destruct (String.eqb st "SUSPICIOUS")];
    try reflexivity;
    destruct (truncated expl 100); reflexivity.
Qed.

Lemma updateTabStatus_no_fetch tabId u st expl now w :
  no_fetch (emitted (updateTabStatus tabId u st expl now w)).
Proof.
  unfold updateTabStatus, no_fetch. rewrite bind_modify, bind_emit. simpl.
  destruct (String.eqb st "DANGEROUS"); [|destruct (String.eqb st "SUSPICIOUS")];
    try reflexivity;
    destruct (truncated expl 100); reflexivity.
Qed.

(** A status other than DANGEROUS and SUSPICIOUS: one popup message, no
    notification, no exception. *)
Lemma updateTabStatus_quiet tabId u st expl now w :
  String.eqb st "DANGEROUS" = false →
  String.eqb st "SUSPICIOUS" = false →
  updateTabStatus tabId u st expl now w
  = mkOut (Ok tt) (set_result tabId (Rec (record u st expl now)) w)
      [sendMessage_UPDATE_POPUP_DATA (record u st expl now)].
Proof.
  intros Hd Hs. unfold updateTabStatus.
  rewrite bind_modify, bind_emit, Hd, Hs. reflexivity.
Qed.

(** A string never makes [truncateText] throw. *)
Lemma truncated_string s n : ∃ s', truncated (JStr s) n = Ok s'.
Proof.
  unfold truncated, truncateText. destruct (negb (truthy (JStr s))); [by eexists|].
  destruct (n <? String.length s)%nat; by eexists.
Qed.

(** ** The [try] block makes one decision

    Between the settling of the fetch and the end of the [try] block there is
    at most one call of [updateTabStatus], with a status among the four the
    popup knows and an explanation that is not empty; or an exception, which
    the [catch] clause turns into an ERROR record. *)

Lemma includes_In l s : includes l s = true → In s l.
Proof.
  unfold includes. rewrite existsb_exists. intros (x & Hin & Heq).
  apply String.eqb_eq in Heq. by subst.
Qed.

Lemma truthy_append s1 c s2 : truthy (JStr (s1 +:+ String c s2)) = true.
Proof. induction s1; reflexivity. Qed.

Ltac thrown e := exists (Thrown e); split; [exact I | reflexivity].

Ltac error_verdict :=
  eexists (Verdict _ _); (split; [|reflexivity]);
  split; [right; right; right; left; reflexivity | reflexivity].

Lemma has_required_fields_true aiAnalysis :
  has_required_fields aiAnalysis = Ok true →
  ∃ st expl,
    prop aiAnalysis "status" = Ok st ∧ truthy st = true ∧
    prop aiAnalysis "explanation" = Ok expl ∧ truthy expl = true.
Proof.
  unfold has_required_fields.
  destruct (truthy aiAnalysis); simpl; [|discriminate].
  destruct (prop aiAnalysis "status") as [st|]; simpl; [|discriminate].
  destruct (truthy st) eqn:Hst; simpl; [|discriminate].
  destruct (prop aiAnalysis "explanation") as [expl|]; simpl; [|discriminate].
  intros [= Hexpl]. eauto 10.
Qed.

Lemma with_confidence_truthy aiAnalysis expl expl' :
  with_confidence aiAnalysis expl = Ok expl' →
  truthy expl = true → truthy expl' = true.
Proof.
  unfold with_confidence.
  destruct (prop aiAnalysis "confidence_score") as [score|]; simpl; [|discriminate].
  destruct (truthy score); [|by intros [= <-]].
  destruct (percent_toFixed0 score); simpl; [|discriminate].
  destruct (js_string expl); simpl; [|discriminate].
  intros [= <-] _. apply truthy_append.
Qed.

Lemma with_threat_truthy aiAnalysis expl expl' :
  with_threat aiAnalysis expl = Ok expl' →
  truthy expl = true → truthy expl' = true.
Proof.
  unfold with_threat.
  destruct (prop aiAnalysis "primary_threat_type") as [threat|]; simpl; [|discriminate].
  destruct (truthy threat && _); [|by intros [= <-]].
  destruct (js_string threat); simpl; [|discriminate].
  destruct (js_string expl); simpl; [|discriminate].
  intros [= <-] _. apply truthy_append.
Qed.

Lemma validate_decides tabId u aiResponseText now :
  ∃ d, sound d ∧ validate tabId u aiResponseText now = enact tabId u now d.
Proof.
  unfold validate.
  destruct (JSON_parse_value aiResponseText) as [aiAnalysis|].
  - destruct (has_required_fields aiAnalysis) as [[|]|e] eqn:Hreq;
      [ | eexists (Verdict _ _); (split; [|reflexivity]);
          split; [right; right; right; left; reflexivity | reflexivity]
        | thrown e ].
    apply has_required_fields_true in Hreq as (st & expl & -> & _ & -> & Hexpl).
    rewrite !lift_Ok_bind.
    destruct (normalizedStatus st) as [n|e]; [|thrown e].
    rewrite ?lift_Ok_bind.
    destruct (includes KNOWN_STATUSES n) eqn:Hn; rewrite ?lift_Ok_bind.
    + destruct (with_confidence aiAnalysis expl) as [expl1|e] eqn:H1;
        [|thrown e].
      rewrite lift_Ok_bind.
      destruct (with_threat aiAnalysis expl1) as [expl2|e] eqn:H2;
        [|thrown e].
      exists (Verdict n expl2). repeat split.
      * apply includes_In in Hn. unfold KNOWN_STATUSES, VERDICTS in *.
        simpl in *. tauto.
      * eauto using with_confidence_truthy, with_threat_truthy.
    + destruct (js_string st) as [unknown|e]; [|thrown e].
      rewrite !lift_Ok_bind.
      destruct (js_string expl) as [text|e]; [|thrown e].
      rewrite lift_Ok_bind.
      eexists (Verdict _ _).
      split; [|reflexivity]. split; [right; left; reflexivity | reflexivity].
  - destruct (truncated aiResponseText 100) as [t|e];
      [|thrown e].
    eexists (Verdict _ _).
    split; [|reflexivity]. split; [right; right; right; left; reflexivity | reflexivity].
Qed.

Lemma analyzeWithAI_try_decides tabId u outcome now :
  ∃ d, sound d ∧ analyzeWithAI_try tabId u outcome now = enact tabId u now d.
Proof.
  unfold analyzeWithAI_try. destruct outcome as [e|statusText [body|e]|[text|e]].
  - thrown e.
  - rewrite lift_Ok_bind.
    destruct (error_detail body) as [detail|e]; [|thrown e].
    error_verdict.
  - thrown e.
  - rewrite lift_Ok_bind.
    destruct (JSON_parse text) as [resultJson|]; [|error_verdict].
    destruct (candidate_text resultJson) as [aiResponseText|e];
      [|thrown e].
    rewrite lift_Ok_bind.
    destruct (truthy aiResponseText); [apply validate_decides|].
    destruct (blocked_reason resultJson) as [reason|e]; [|thrown e].
    rewrite lift_Ok_bind.
    destruct (truthy reason); [|error_verdict].
    destruct (js_string reason) as [why|e]; [|thrown e].
    error_verdict.
  - thrown e.
Qed.

Lemma set_result_twice tabId e e' w :
  set_result tabId e (set_result tabId e' w) = set_result tabId e w.
Proof. unfold set_result; simpl. by rewrite insert_insert_eq. Qed.

(** Every settling of the fetch ends with a record for the page the request
    was made for, written at the slot of the tab it was made for, and the
    coordinator survives it. *)
Lemma analyzeWithAI_settled_spec pageData tabId outcome now w :
  let o := analyzeWithAI_settled pageData tabId outcome now w in
  result o = Ok tt ∧ no_fetch (emitted o) ∧
  ∃ st expl, In st VERDICTS ∧ truthy expl = true ∧
    world o = set_result tabId (Rec (record (pd_url pageData) st expl now)) w.
Proof.
  unfold analyzeWithAI_settled.
  destruct (analyzeWithAI_try_decides tabId (pd_url pageData) outcome now)
    as (d & Hsound & ->).
  destruct d as [e|st expl]; unfold enact; cbv zeta.
  - change (try_catch (lift (Throw e)) ?h w) with (h e w). cbv beta.
    rewrite updateTabStatus_quiet by reflexivity. simpl.
    split; [done|]. split; [done|].
    eexists _, _. split; [|split; [|reflexivity]]; [|reflexivity].
    right; right; right; left; reflexivity.
  - destruct Hsound as [Hst Hexpl].
    unfold try_catch.
    pose proof (updateTabStatus_world tabId (pd_url pageData) st expl now w) as Hw.
    pose proof (updateTabStatus_no_fetch tabId (pd_url pageData) st expl now w) as Hf.
    destruct (updateTabStatus tabId (pd_url pageData) st expl now w)
      as [[[]|e] w1 es1]; simpl in *.
    + split; [done|]. split; [done|]. by exists st, expl.
    + subst w1. split; [done|]. split.
      { unfold no_fetch in *. rewrite forallb_app, Hf. reflexivity. }
      eexists _, _. split; [|split; [|apply set_result_twice]]; [|reflexivity].
      right; right; right; left; reflexivity.
Qed.

(** ** The invariant of the store *)

Lemma consistent_initial : consistent initial.
Proof.
  split; simpl.
  - intros T e. by rewrite lookup_empty.
  - intros T r. by rewrite lookup_empty.
  - intros t Ht. by apply not_elem_of_nil in Ht.
Qed.

Lemma consistent_set_result tabId r w :
  consistent w → tabId ≠ 0 → complete r →
  consistent (set_result tabId (Rec r) w).
Proof.
  intros [Hz Hc Ht] Hne Hr. split; simpl.
  - intros T e. rewrite lookup_insert. case_decide; [by subst | apply Hz].
  - intros T r'. rewrite lookup_insert. case_decide; [by intros [= <-] | apply Hc].
  - done.
Qed.

Lemma consistent_set_null tabId w :
  consistent w → is_Some (tabAnalysisResults w !! tabId) →
  consistent (set_result tabId Null w).
Proof.
  intros [Hz Hc Ht] [e He]. split; simpl.
  - intros T e'. rewrite lookup_insert. case_decide; [subst; eauto | apply Hz].
  - intros T r'. rewrite lookup_insert. case_decide; [done | apply Hc].
  - done.
Qed.

Lemma consistent_delete_result tabId w :
  consistent w → consistent (delete_result tabId w).
Proof.
  intros [Hz Hc Ht]. split; simpl.
  - intros T e. rewrite lookup_delete. case_decide; [done | apply Hz].
  - intros T r. rewrite lookup_delete. case_decide; [done | apply Hc].
  - done.
Qed.

Lemma consistent_add_proceeded u w :
  consistent w → consistent (add_proceeded u w).
Proof. intros [Hz Hc Ht]. by split. Qed.

Lemma consistent_suspend t w :
  consistent w → task_tab t ≠ 0 → consistent (suspend t w).
Proof.
  intros [Hz Hc Ht] Hne. split; simpl; [done..|].
  intros t'. rewrite elem_of_app, list_elem_of_singleton.
  intros [?| ->]; eauto.
Qed.

Lemma consistent_resume i w :
  consistent w → consistent (resume i w).
Proof.
  intros [Hz Hc Ht]. split; simpl; [done..|].
  intros t Hin. apply Ht. by eapply list_elem_of_delete_inv.
Qed.

Lemma analyzeWithAI_key_consistent pageData tabId apiKey now w :
  consistent w → tabId ≠ 0 →
  consistent (world (analyzeWithAI_key pageData tabId apiKey now w)).
Proof.
  intros Hw Hne. unfold analyzeWithAI_key.
  destruct (negb (truthy apiKey));
    [|destruct (whitelisted (pd_url pageData));
      [|destruct (bool_decide (pd_url pageData ∈ sessionProceededUrls w))]].
  1-3: rewrite updateTabStatus_world; apply consistent_set_result; [done..|];
       split; [|reflexivity]; simpl; unfold VERDICTS; simpl; tauto.
  destruct (build_prompt pageData) as [prompt|e]; [|done].
  rewrite lift_Ok_bind.
  destruct (js_string apiKey) as [key|e]; [|done].
  by apply consistent_suspend.
Qed.

Lemma on_PROCEED_ANYWAY_found tabId now w existing :
  tabId ≠ 0 →
  tabAnalysisResults w !! tabId = Some (Rec existing) →
  on_PROCEED_ANYWAY tabId now w
  = mkOut (Ok tt)
      (set_result tabId (Rec (override_record (url existing) now))
         (add_proceeded (url existing) w))
      [ sendMessage_UPDATE_POPUP_DATA (override_record (url existing) now);
        sendResponse (ReplySuccess (Some (Rec (override_record (url existing) now)))) ].
Proof.
  intros Hne Hrec. unfold on_PROCEED_ANYWAY.
  rewrite bool_decide_eq_true_2, Hrec by done.
  unfold mbind, M_bind, bind. simpl.
  by rewrite lookup_insert_eq.
Qed.

Lemma on_PROCEED_ANYWAY_not_found tabId now w :
  tabId = 0 ∨ tabAnalysisResults w !! tabId = None
  ∨ tabAnalysisResults w !! tabId = Some Null →
  on_PROCEED_ANYWAY tabId now w = mkOut (Ok tt) w [sendResponse ReplyFailure].
Proof.
  unfold on_PROCEED_ANYWAY. intros [->|[Hrec|Hrec]].
  - reflexivity.
  - rewrite Hrec. by case_bool_decide.
  - rewrite Hrec. by case_bool_decide.
Qed.

Lemma step_consistent ev w : consistent w → consistent (step ev w).
Proof.
  intros Hw. unfold step. destruct ev as
    [[tabId|] data now|tabId|tabId|tabId now|tabId st tabUrl|tabId|i apiKey now
    |i outcome now]; simpl.
  - unfold on_PAGE_DATA. case_bool_decide; [|done].
    destruct (cached w tabId (pd_url data) now); simpl; [done|].
    by apply consistent_suspend.
  - done.
  - done.
  - unfold on_GO_BACK_TAB. by case_bool_decide.
  - destruct (decide (tabId = 0)) as [->|Hne];
      [by rewrite on_PROCEED_ANYWAY_not_found by auto|].
    destruct (tabAnalysisResults w !! tabId) as [[|existing]|] eqn:Hrec;
      [by rewrite on_PROCEED_ANYWAY_not_found by auto| |
       by rewrite on_PROCEED_ANYWAY_not_found by auto].
    rewrite (on_PROCEED_ANYWAY_found _ _ _ existing) by done. simpl.
    apply consistent_set_result; [by apply consistent_add_proceeded|done|].
    split; [|reflexivity]. left; reflexivity.
  - unfold on_tabs_onUpdated. destruct st as [st|], tabUrl as [u|]; try done.
    destruct (_ && _ && _); [|done].
    destruct (tabAnalysisResults w !! tabId) as [[|r]|] eqn:Hr; try done.
    case_bool_decide; [|done]. simpl.
    apply consistent_set_null; [done|]. by rewrite Hr.
  - by apply consistent_delete_result.
  - unfold on_ApiKeyRead.
    destruct (tasks w !! i) as [[pageData tabId|pageData tabId]|] eqn:Hi; try done.
    rewrite bind_modify.
    destruct apiKey as [key|e]; [|by apply consistent_resume].
    rewrite lift_Ok_bind.
    apply analyzeWithAI_key_consistent; [by apply consistent_resume|].
    apply (tasks_nonzero w Hw (AwaitApiKey pageData tabId)).
    by eapply list_elem_of_lookup_2.
  - unfold on_FetchSettled.
    destruct (tasks w !! i) as [[pageData tabId|pageData tabId]|] eqn:Hi; try done.
    rewrite bind_modify.
    destruct (analyzeWithAI_settled_spec pageData tabId outcome now (resume i w))
      as (_ & _ & st & expl & Hst & Hexpl & ->).
    apply consistent_set_result; [by apply consistent_resume| |by split].
    apply (tasks_nonzero w Hw (AwaitFetch pageData tabId)).
    by eapply list_elem_of_lookup_2.
Qed.

(** How one turn of the event loop changes a slot: not at all, or to a
    record, or by the deletion of tabs.onRemoved for that tab, or to null by
    tabs.onUpdated for that tab. *)
Lemma step_slot ev w T :
  tabAnalysisResults (step ev w) !! T = tabAnalysisResults w !! T
  ∨ (∃ r, tabAnalysisResults (step ev w) !! T = Some (Rec r))
  ∨ (tabAnalysisResults (step ev w) !! T = None ∧ ev = tabs_onRemoved T)
  ∨ (tabAnalysisResults (step ev w) !! T = Some Null
     ∧ ∃ changeStatus tabUrl, ev = tabs_onUpdated T changeStatus tabUrl).
Proof.
  assert (∀ tabId e w0,
    tabAnalysisResults (set_result tabId e w0) !! T
    = if decide (tabId = T) then Some e else tabAnalysisResults w0 !! T) as Hset.
  { intros tabId e w0. simpl. rewrite lookup_insert. by case_decide. }
  unfold step. destruct ev as
    [[tabId|] data now|tabId|tabId|tabId now|tabId st tabUrl|tabId|i apiKey now
    |i outcome now]; simpl.
  - left. unfold on_PAGE_DATA. case_bool_decide; [|done].
    by destruct (cached w tabId (pd_url data) now).
  - by left.
  - by left.
  - left. unfold on_GO_BACK_TAB. by case_bool_decide.
  - destruct (decide (tabId = 0)) as [->|Hne];
      [left; by rewrite on_PROCEED_ANYWAY_not_found by auto|].
    destruct (tabAnalysisResults w !! tabId) as [[|existing]|] eqn:Hrec;
      [left; by rewrite on_PROCEED_ANYWAY_not_found by auto| |
       left; by rewrite on_PROCEED_ANYWAY_not_found by auto].
    rewrite (on_PROCEED_ANYWAY_found _ _ _ existing) by done.
    cbn [world]. rewrite Hset. case_decide; [right; left; by eexists | by left].
  - unfold on_tabs_onUpdated. destruct st as [st|], tabUrl as [u|]; try by left.
    destruct (_ && _ && _); [|by left].
    destruct (tabAnalysisResults w !! tabId) as [[|r]|] eqn:Hr; try by left.
    case_bool_decide; [|by left]. cbn [modify world]. rewrite Hset.
    case_decide as HT; [subst; right; right; right; eauto | by left].
  - rewrite lookup_delete. case_decide as HT; [subst; by right; right; left | by left].
  - unfold on_ApiKeyRead.
    destruct (tasks w !! i) as [[pageData tabId|pageData tabId]|]; try by left.
    rewrite bind_modify. destruct apiKey as [key|e]; [|by left].
    rewrite lift_Ok_bind. unfold analyzeWithAI_key.
    destruct (negb (truthy key));
      [|destruct (whitelisted (pd_url pageData));
        [|destruct (bool_decide (pd_url pageData ∈ sessionProceededUrls (resume i w)))]].
    1-3: rewrite updateTabStatus_world, Hset;
         case_decide; [right; left; by eexists | by left].
    destruct (build_prompt pageData) as [prompt|e]; [|by left].
    rewrite lift_Ok_bind. by destruct (js_string key); left.
  - unfold on_FetchSettled.
    destruct (tasks w !! i) as [[pageData tabId|pageData tabId]|]; try by left.
    rewrite bind_modify.
    destruct (analyzeWithAI_settled_spec pageData tabId outcome now (resume i w))
      as (_ & _ & st & expl & _ & _ & ->).
    rewrite Hset. case_decide; [right; left; by eexists | by left].
Qed.

Lemma reachable_consistent w : reachable w → consistent w.
Proof.
  induction 1 as [|w ev _ IH]; [apply consistent_initial | by apply step_consistent].
Qed.

Lemma reachable_run evs w : reachable w → reachable (run evs w).
Proof.
  revert w. induction evs as [|ev evs IH]; intros w Hw; simpl; [done|].
  apply IH. by constructor.
Qed.

End Properties.

(** * The claims *)

Section Claims.
Context `{Engine}.

(** What a PAGE_DATA message does when no record is reused: it starts
    [analyzeWithAI], which suspends at [await getApiKey()]. *)
Lemma PAGE_DATA_starts_analysis w T data now :
  T ≠ 0 →
  cached w T (pd_url data) now = None →
  handle (PAGE_DATA (Some T) data now) w
  = mkOut (Ok tt) (suspend (AwaitApiKey data T) w)
      [sendResponse (ReplyStatus "Trinetra analysis initiated with Gemini 1.5 Flash.")].
Proof.
  intros HT Hc. simpl. unfold on_PAGE_DATA.
  by rewrite bool_decide_eq_true_2, Hc.
Qed.

Lemma PAGE_DATA_reuses w T data now existingResult :
  T ≠ 0 →
  cached w T (pd_url data) now = Some existingResult →
  handle (PAGE_DATA (Some T) data now) w
  = mkOut (Ok tt) w
      [ sendMessage_UPDATE_POPUP_DATA existingResult;
        sendResponse (ReplyStatus "Using cached/proceeded Trinetra result.") ].
Proof.
  intros HT Hc. simpl. unfold on_PAGE_DATA.
  by rewrite bool_decide_eq_true_2, Hc.
Qed.

(** Every entry of the whitelist is a non-empty string, so a domain that ends
    with one is not empty. *)
Lemma endsWith_whitelist_nonempty domain entry :
  In entry WHITELISTED_DOMAINS → endsWith domain entry = true →
  String.eqb domain "" = false.
Proof.
  intros Hin Hends. destruct domain; [|reflexivity].
  unfold WHITELISTED_DOMAINS in Hin. simpl in Hin.
  repeat (destruct Hin as [<-|Hin]; [discriminate Hends|]). done.
Qed.

Lemma whitelisted_intro u domain entry :
  getDomain u = Some domain →
  In entry WHITELISTED_DOMAINS → endsWith domain entry = true →
  whitelisted u = true.
Proof.
  intros Hd Hin Hends. unfold whitelisted. rewrite Hd.
  rewrite (endsWith_whitelist_nonempty domain entry) by done.
  rewrite andb_true_l. apply existsb_exists. eauto.
Qed.

(** C8: getStatus (the GET_TAB_STATUS listener) is a read that never fails and
    leaves the state as it is; it answers with the tab's record when the slot
    holds one and with the PENDING placeholder otherwise; after onTabClosed(T)
    (tabs.onRemoved), getStatus(T) is the PENDING placeholder. *)
Theorem getStatus_is_pure_read (w : World) (T : Z) :
  let o := handle (GET_TAB_STATUS T) w in
  (result o = Ok tt ∧ world o = w
   ∧ emitted o = [sendResponse (ReplyTabStatus (getStatus w T))])
  ∧ (∀ r, tabAnalysisResults w !! T = Some (Rec r) → getStatus w T = Found r)
  ∧ (tabAnalysisResults w !! T = None ∨ tabAnalysisResults w !! T = Some Null →
     getStatus w T = PENDING_PLACEHOLDER)
  ∧ getStatus (step (tabs_onRemoved T) w) T = PENDING_PLACEHOLDER.
Proof.
  repeat split.
  - intros r Hr. unfold getStatus. by rewrite Hr.
  - intros [Hr|Hr]; unfold getStatus; by rewrite Hr.
  - unfold getStatus, step. simpl. by rewrite lookup_delete_eq.
Qed.

(** C10: the store starts consistent and every listener and every resumption
    of analyzeWithAI keeps it so: a tab id maps to nothing, to null, or to a
    record with url, status (one of SAFE, SUSPICIOUS, DANGEROUS, ERROR),
    explanation (never empty) and timestamp.  A slot becomes null only by the
    navigation listener for its tab.  getStatus answers with the PENDING
    placeholder for a missing slot and for null, with the whole record
    otherwise.  The navigation listener writes null over the record of another
    domain; it does not delete the slot. *)
Theorem store_invariant :
  consistent initial
  ∧ (∀ w ev, consistent w → consistent (step ev w))
  ∧ (∀ w ev T,
       tabAnalysisResults (step ev w) !! T = Some Null →
       tabAnalysisResults w !! T = Some Null
       ∨ ∃ changeStatus tabUrl, ev = tabs_onUpdated T changeStatus tabUrl)
  ∧ (∀ w T, consistent w →
       (tabAnalysisResults w !! T = None ∧ getStatus w T = PENDING_PLACEHOLDER)
       ∨ (tabAnalysisResults w !! T = Some Null ∧ getStatus w T = PENDING_PLACEHOLDER)
       ∨ (∃ r, tabAnalysisResults w !! T = Some (Rec r) ∧ complete r
               ∧ getStatus w T = Found r))
  ∧ (∀ w T r u,
       tabAnalysisResults w !! T = Some (Rec r) →
       startsWith u "http://" = true ∨ startsWith u "https://" = true →
       getDomain (url r) ≠ getDomain u →
       tabAnalysisResults (step (tabs_onUpdated T (Some "complete") (Some u)) w) !! T
       = Some Null).
Proof.
  split; [apply consistent_initial|].
  split; [intros w ev; apply step_consistent|].
  split.
  { intros w ev T Hnull.
    destruct (step_slot ev w T) as [Hsame|[[r Hr]|[[Hnone _]|[_ Hev]]]];
      [left|..|by right]; congruence. }
  split.
  - intros w T Hw. unfold getStatus.
    destruct (tabAnalysisResults w !! T) as [[|r]|] eqn:Hr; [by right; left| |by left].
    right; right. exists r. split; [done|]. split; [|done].
    by apply (records_complete w Hw T).
  - intros w T r u Hr Hhttp Hdom. unfold step. simpl. unfold on_tabs_onUpdated.
    assert (String.eqb u "" = false) as ->.
    { destruct u; [|done]. by destruct Hhttp. }
    assert (startsWith u "http://" || startsWith u "https://" = true) as ->.
    { destruct Hhttp as [-> | ->]; [done|by rewrite orb_true_r]. }
    simpl. rewrite Hr, bool_decide_eq_true_2 by done. simpl.
    by rewrite lookup_insert_eq.
Qed.

(** C4: proceedAnyway (the PROCEED_ANYWAY listener), in every state the
    coordinator can reach.  With no record in the tab's slot (nothing there, or
    null) it answers success: false and changes nothing.  With a record it adds
    the record's url to sessionProceededUrls, overwrites the slot with a SAFE
    record that carries the user-override explanation, tells the popup, and
    answers with the new record. *)
Theorem proceedAnyway_spec (w : World) (T now : Z) :
  reachable w →
  let o := handle (PROCEED_ANYWAY T now) w in
  result o = Ok tt
  ∧ (tabAnalysisResults w !! T = None ∨ tabAnalysisResults w !! T = Some Null →
     world o = w ∧ emitted o = [sendResponse ReplyFailure])
  ∧ (∀ existing, tabAnalysisResults w !! T = Some (Rec existing) →
       let r := record (url existing) "SAFE"
                  (JStr "You chose to proceed. Trinetra will trust this page for this session.")
                  now in
       sessionProceededUrls (world o) = {[url existing]} ∪ sessionProceededUrls w
       ∧ tabAnalysisResults (world o) = <[T := Rec r]> (tabAnalysisResults w)
       ∧ tasks (world o) = tasks w
       ∧ emitted o = [ sendMessage_UPDATE_POPUP_DATA r;
                       sendResponse (ReplySuccess (Some (Rec r))) ]).
Proof.
  intros Hreach. apply reachable_consistent in Hreach. simpl.
  destruct (tabAnalysisResults w !! T) as [[|existing]|] eqn:Hrec.
  - rewrite on_PROCEED_ANYWAY_not_found by auto. simpl.
    split; [done|]. split; [done|]. intros ? [=].
  - assert (T ≠ 0) as HT by (by eapply (tabs_nonzero w Hreach)).
    rewrite (on_PROCEED_ANYWAY_found T now w existing) by done. simpl.
    split; [done|]. split; [by intros [[=]|[=]]|].
    by intros ? [= <-].
  - rewrite on_PROCEED_ANYWAY_not_found by auto. simpl.
    split; [done|]. split; [done|]. intros ? [=].
Qed.

Lemma ApiKeyRead_resumes w i pageData tabId apiKey now :
  tasks w !! i = Some (AwaitApiKey pageData tabId) →
  handle (ApiKeyRead i (Ok apiKey) now) w
  = analyzeWithAI_key pageData tabId apiKey now (resume i w).
Proof. intros Hi. simpl. unfold on_ApiKeyRead. by rewrite Hi. Qed.

Lemma FetchSettled_resumes w i pageData tabId outcome now :
  tasks w !! i = Some (AwaitFetch pageData tabId) →
  handle (FetchSettled i outcome now) w
  = analyzeWithAI_settled pageData tabId outcome now (resume i w).
Proof. intros Hi. simpl. unfold on_FetchSettled. by rewrite Hi. Qed.

(** When getApiKey resolves to no credential (undefined, or any falsy value),
    analyzeWithAI records ERROR with the explanation that the Gemini API key
    is missing, makes no fetch and ends. *)
Lemma missing_credential_at_key_read w i pageData tabId apiKey now :
  tasks w !! i = Some (AwaitApiKey pageData tabId) →
  truthy apiKey = false →
  let o := handle (ApiKeyRead i (Ok apiKey) now) w in
  result o = Ok tt
  ∧ tabAnalysisResults (world o) !! tabId
    = Some (Rec (record (pd_url pageData) "ERROR"
                   (JStr "Gemini API key is missing. Please set it in the Trinetra popup.")
                   now))
  ∧ no_fetch (emitted o)
  ∧ tasks (world o) = delete i (tasks w).
Proof.
  intros Hi Hkey. rewrite (ApiKeyRead_resumes w i pageData tabId) by done.
  unfold analyzeWithAI_key. rewrite Hkey. cbn [negb].
  rewrite updateTabStatus_quiet by reflexivity. simpl.
  by rewrite lookup_insert_eq.
Qed.

(** C7, as the code has it: the PAGE_DATA listener (handlePageData) answers
    from the tab's record when it has one for the same URL that is younger
    than the cache duration or whose page was proceeded to; getApiKey is then
    not read and nothing is recorded, whether a credential is stored or not.
    Otherwise it starts analyzeWithAI, and when getApiKey resolves to no
    credential (undefined, or any falsy value) the page is recorded as ERROR
    with the explanation that the Gemini API key is missing and the analysis
    ends.  No classifier call is made either way. *)
Theorem missing_credential_is_error w T data now now' apiKey :
  T ≠ 0 →
  truthy apiKey = false →
  let ev := PAGE_DATA (Some T) data now in
  (∀ existingResult,
     cached w T (pd_url data) now = Some existingResult →
     step ev w = w
     ∧ effects_of ev w
       = [ sendMessage_UPDATE_POPUP_DATA existingResult;
           sendResponse (ReplyStatus "Using cached/proceeded Trinetra result.") ])
  ∧ (cached w T (pd_url data) now = None →
     step ev w = suspend (AwaitApiKey data T) w
     ∧ no_fetch (effects_of ev w)
     ∧ let o := handle (ApiKeyRead (List.length (tasks w)) (Ok apiKey) now') (step ev w) in
       result o = Ok tt
       ∧ tabAnalysisResults (world o) !! T
         = Some (Rec (record (pd_url data) "ERROR"
                        (JStr "Gemini API key is missing. Please set it in the Trinetra popup.")
                        now'))
       ∧ no_fetch (emitted o)
       ∧ tasks (world o) = tasks w).
Proof.
  intros HT Hkey. cbv zeta. unfold step, effects_of. split.
  - intros existingResult Hc. by rewrite (PAGE_DATA_reuses w T data now existingResult).
  - intros Hc. rewrite PAGE_DATA_starts_analysis by done. cbn [world emitted].
    split; [done|]. split; [reflexivity|].
    assert (tasks (suspend (AwaitApiKey data T) w) !! List.length (tasks w)
            = Some (AwaitApiKey data T)) as Hi by (by apply list_lookup_middle).
    destruct (missing_credential_at_key_read _ _ _ _ _ now' Hi Hkey)
      as (Hres & Hrec & Hf & Htasks).
    do 3 (split; [done|]). rewrite Htasks. cbn [tasks suspend].
    by rewrite delete_middle, app_nil_r.
Qed.

(** C1, as the code has it: for a page whose domain (the hostname without a
    leading www.) ends with an entry of WHITELISTED_DOMAINS, analyzeWithAI
    never calls the classifier, whatever getApiKey resolves to; it records SAFE
    with the trusted-whitelist explanation when the credential is present, and
    ERROR with the missing-key explanation when it is not. *)
Theorem whitelisted_domain_skips_classifier w i pageData tabId apiKey now domain entry :
  tasks w !! i = Some (AwaitApiKey pageData tabId) →
  getDomain (pd_url pageData) = Some domain →
  In entry WHITELISTED_DOMAINS →
  endsWith domain entry = true →
  let o := handle (ApiKeyRead i (Ok apiKey) now) w in
  result o = Ok tt
  ∧ no_fetch (emitted o)
  ∧ tasks (world o) = delete i (tasks w)
  ∧ (truthy apiKey = true →
     tabAnalysisResults (world o) !! tabId
     = Some (Rec (record (pd_url pageData) "SAFE"
                    (JStr "This domain is on Trinetra's trusted whitelist.") now)))
  ∧ (truthy apiKey = false →
     tabAnalysisResults (world o) !! tabId
     = Some (Rec (record (pd_url pageData) "ERROR"
                    (JStr "Gemini API key is missing. Please set it in the Trinetra popup.")
                    now))).
Proof.
  intros Hi Hdom Hin Hends.
  rewrite (ApiKeyRead_resumes w i pageData tabId) by done.
  unfold analyzeWithAI_key.
  rewrite (whitelisted_intro _ domain entry) by done.
  destruct (truthy apiKey); cbn [negb];
    rewrite updateTabStatus_quiet by reflexivity; simpl;
    rewrite lookup_insert_eq; by repeat split.
Qed.

(** C9: the whitelist test is a suffix test on characters.  The hostname
    evilgoogle.com equals no entry of the whitelist and is a subdomain of none,
    yet it ends with the characters of google.com: with a credential present,
    analyzeWithAI records SAFE with the trusted-whitelist explanation for the
    page and makes no classifier call. *)
Theorem suffix_match_ignores_label_boundary w i pageData tabId apiKey now :
  URL_hostname (pd_url pageData) = Some "evilgoogle.com" →
  tasks w !! i = Some (AwaitApiKey pageData tabId) →
  truthy apiKey = true →
  let o := handle (ApiKeyRead i (Ok apiKey) now) w in
  forallb (λ entry, negb (String.eqb "evilgoogle.com" entry)
                    && negb (endsWith "evilgoogle.com" ("." +:+ entry)))
    WHITELISTED_DOMAINS = true
  ∧ endsWith "evilgoogle.com" "google.com" = true
  ∧ tabAnalysisResults (world o) !! tabId
    = Some (Rec (record (pd_url pageData) "SAFE"
                   (JStr "This domain is on Trinetra's trusted whitelist.") now))
  ∧ no_fetch (emitted o)
  ∧ tasks (world o) = delete i (tasks w).
Proof.
  intros Hhost Hi Hkey.
  split; [reflexivity|]. split; [reflexivity|].
  assert (getDomain (pd_url pageData) = Some "evilgoogle.com") as Hdom.
  { unfold getDomain. by rewrite Hhost. }
  rewrite (ApiKeyRead_resumes w i pageData tabId) by done.
  unfold analyzeWithAI_key. rewrite Hkey. cbn [negb].
  rewrite (whitelisted_intro _ "evilgoogle.com" "google.com");
    [|done|by left|reflexivity].
  rewrite updateTabStatus_quiet by reflexivity. simpl.
  by rewrite lookup_insert_eq.
Qed.

(** C3, as the code has it: tab T holds a record for URL u timestamped t, and
    a PAGE_DATA message for the same u arrives on T at time t + Δ.  With
    Δ < ANALYSIS_CACHE_DURATION_MS (3 minutes) the record is reused: the popup
    is sent the record, the state stays as it is, no analysis starts.  With
    Δ at or above the limit a new analysis (analyzeWithAI) starts, unless u is
    in sessionProceededUrls: then the record is reused whatever its age. *)
Theorem cache_reuse_window w T r data Δ :
  reachable w →
  tabAnalysisResults w !! T = Some (Rec r) →
  url r = pd_url data →
  let ev := PAGE_DATA (Some T) data (timestamp r + Δ) in
  ((Δ < ANALYSIS_CACHE_DURATION_MS)%Z ∨ pd_url data ∈ sessionProceededUrls w →
   step ev w = w
   ∧ effects_of ev w
     = [ sendMessage_UPDATE_POPUP_DATA r;
         sendResponse (ReplyStatus "Using cached/proceeded Trinetra result.") ])
  ∧ ((ANALYSIS_CACHE_DURATION_MS ≤ Δ)%Z → pd_url data ∉ sessionProceededUrls w →
     step ev w = suspend (AwaitApiKey data T) w
     ∧ effects_of ev w
       = [ sendResponse
             (ReplyStatus "Trinetra analysis initiated with Gemini 1.5 Flash.") ]).
Proof.
  intros Hreach Hrec Hurl ev.
  assert (T ≠ 0) as HT.
  { apply reachable_consistent in Hreach. by eapply (tabs_nonzero w Hreach). }
  assert (cached w T (pd_url data) (timestamp r + Δ)
          = if bool_decide (pd_url data ∈ sessionProceededUrls w)
               || (Δ <? ANALYSIS_CACHE_DURATION_MS)%Z
            then Some r else None) as Hcached.
  { unfold cached. rewrite Hrec, Hurl, String.eqb_refl. simpl.
    by replace (timestamp r + Δ - timestamp r) with Δ by lia. }
  unfold step, effects_of, ev. split.
  - intros Hreuse.
    rewrite (PAGE_DATA_reuses w T data _ r); [done..|].
    rewrite Hcached. destruct Hreuse as [Hlt|Hin].
    + apply Z.ltb_lt in Hlt. by rewrite Hlt, orb_true_r.
    + by rewrite bool_decide_eq_true_2.
  - intros Hge Hnotin.
    rewrite PAGE_DATA_starts_analysis; [done..|].
    rewrite Hcached, bool_decide_eq_false_2 by done.
    apply Z.ltb_ge in Hge. by rewrite Hge.
Qed.

(** C2, as the code has it: no check is made.  When the fetch of an analysis
    settles, with whatever outcome, updateTabStatus writes a record for the
    page the request was made for into the slot of the tab it was made for,
    whatever that slot holds by then; the other slots stay as they are. *)
Theorem late_response_is_applied w i pageData tabId outcome now :
  tasks w !! i = Some (AwaitFetch pageData tabId) →
  let o := handle (FetchSettled i outcome now) w in
  result o = Ok tt
  ∧ (∃ st expl, In st VERDICTS ∧
       tabAnalysisResults (world o) !! tabId
       = Some (Rec (record (pd_url pageData) st expl now)))
  ∧ (∀ T, T ≠ tabId →
       tabAnalysisResults (world o) !! T = tabAnalysisResults w !! T).
Proof.
  intros Hi. rewrite (FetchSettled_resumes w i pageData tabId) by done.
  destruct (analyzeWithAI_settled_spec pageData tabId outcome now (resume i w))
    as (Hres & _ & st & expl & Hst & _ & Hw).
  cbv zeta. rewrite Hres, Hw. simpl. split; [done|]. split.
  - exists st, expl. by rewrite lookup_insert_eq.
  - intros T HT. by rewrite lookup_insert_ne.
Qed.

(** *** Responses the coordinator cannot use *)



Lemma settled_of_error pageData tabId outcome now s w :
  analyzeWithAI_try tabId (pd_url pageData) outcome now
  = updateTabStatus tabId (pd_url pageData) "ERROR" (JStr s) now →
  analyzeWithAI_settled pageData tabId outcome now w
  = mkOut (Ok tt)
      (set_result tabId (Rec (record (pd_url pageData) "ERROR" (JStr s) now)) w)
      [sendMessage_UPDATE_POPUP_DATA (record (pd_url pageData) "ERROR" (JStr s) now)].
Proof.
  intros Htry. unfold analyzeWithAI_settled, try_catch. rewrite Htry.
  by rewrite updateTabStatus_quiet by reflexivity.
Qed.

Lemma settled_of_throw pageData tabId outcome now e w :
  analyzeWithAI_try tabId (pd_url pageData) outcome now = lift (Throw e) →
  let s := "Network error or issue calling Trinetra AI backend: " +:+ message e in
  analyzeWithAI_settled pageData tabId outcome now w
  = mkOut (Ok tt)
      (set_result tabId (Rec (record (pd_url pageData) "ERROR" (JStr s) now)) w)
      [sendMessage_UPDATE_POPUP_DATA (record (pd_url pageData) "ERROR" (JStr s) now)].
Proof.
  intros Htry. unfold analyzeWithAI_settled, try_catch. rewrite Htry.
  cbn [lift result world emitted].
  by rewrite updateTabStatus_quiet by reflexivity.
Qed.



Lemma prop_truthy v k x : prop v k = Ok x → truthy x = true → truthy v = true.
Proof. destruct v; simpl; intros [= <-]; done. Qed.

Lemma try_catch_ok (m : M unit) handler w :
  result (m w) = Ok tt → try_catch m handler w = m w.
Proof. intros Hres. unfold try_catch. by rewrite Hres. Qed.

(** C6, as the code has it: a classifier output whose status is a non-empty
    string and whose explanation is truthy and converts to a string (as every
    string does) has its status upper-cased and trimmed.  When the result is
    none of SAFE, SUSPICIOUS, DANGEROUS the record is SUSPICIOUS, with an
    explanation that quotes the status as received and the explanation, and
    the SUSPICIOUS notification is raised. *)
Theorem unknown_status_is_suspicious
    w i pageData tabId resultText now resultJson output aiAnalysis s expl text :
  tasks w !! i = Some (AwaitFetch pageData tabId) →
  JSON_parse resultText = Some resultJson →
  candidate_text resultJson = Ok output → truthy output = true →
  JSON_parse_value output = Some aiAnalysis →
  prop aiAnalysis "status" = Ok (JStr s) → truthy (JStr s) = true →
  prop aiAnalysis "explanation" = Ok expl → truthy expl = true →
  js_string expl = Ok text →
  includes KNOWN_STATUSES (trim (toUpperCase s)) = false →
  let o := handle (FetchSettled i (HttpOk (Ok resultText)) now) w in
  let r := record (pd_url pageData) "SUSPICIOUS"
             (JStr ("Trinetra AI provided an unknown status: " +:+ s
                    +:+ ". Explanation: " +:+ text)) now in
  result o = Ok tt
  ∧ tabAnalysisResults (world o) !! tabId = Some (Rec r)
  ∧ ∃ body, emitted o
      = [ sendMessage_UPDATE_POPUP_DATA r;
          notifications_create tabId "_trinetra_suspicious"
            "Trinetra Warning: Suspicious Site" body 1 [] ].
Proof.
  intros Hi Hbody Hout Htruthy Hparse Hst Hs Hexpl He Htext Hunknown.
  rewrite (FetchSettled_resumes w i pageData tabId) by done.
  assert (truthy aiAnalysis = true) as Hai by (by eapply prop_truthy).
  assert (has_required_fields aiAnalysis = Ok true) as Hreq.
  { unfold has_required_fields. rewrite Hai, Hst. simpl in *.
    rewrite Hs, Hexpl. simpl. by rewrite He. }
  cbv zeta. unfold analyzeWithAI_settled, analyzeWithAI_try.
  rewrite lift_Ok_bind, Hbody, Hout, lift_Ok_bind, Htruthy.
  unfold validate.
  rewrite Hparse, Hreq, lift_Ok_bind, Hst, lift_Ok_bind.
  cbn [normalizedStatus]. rewrite lift_Ok_bind, Hunknown.
  cbn [js_string]. rewrite lift_Ok_bind, Hexpl, lift_Ok_bind, Htext, lift_Ok_bind.
  set (msg := "Trinetra AI provided an unknown status: " +:+ s
              +:+ ". Explanation: " +:+ text).
  destruct (truncated_string msg 100) as [details Hd].
  assert (∀ w0, updateTabStatus tabId (pd_url pageData) "SUSPICIOUS" (JStr msg) now w0
            = mkOut (Ok tt)
                (set_result tabId
                   (Rec (record (pd_url pageData) "SUSPICIOUS" (JStr msg) now)) w0)
                [ sendMessage_UPDATE_POPUP_DATA
                    (record (pd_url pageData) "SUSPICIOUS" (JStr msg) now);
                  notifications_create tabId "_trinetra_suspicious"
                    "Trinetra Warning: Suspicious Site"
                    ("Page: "
                     +:+ match getDomain (pd_url pageData) with
                         | Some d => if String.eqb d "" then pd_url pageData else d
                         | None => pd_url pageData
                         end
                     +:+ nl +:+ "Trinetra AI flags this site as SUSPICIOUS." +:+ nl
                     +:+ "Details: " +:+ details) 1 [] ]) as Hupd.
  { intros w0. unfold updateTabStatus.
    rewrite bind_modify, bind_emit. cbn [String.eqb Ascii.eqb Bool.eqb].
    by rewrite Hd. }
  rewrite try_catch_ok by (by rewrite Hupd).
  rewrite Hupd. simpl. rewrite lookup_insert_eq. eauto.
Qed.

End Claims.

(** * Closed examples on the reference engine *)

Lemma reachable_awaiting_fetch u : reachable (awaiting_fetch u).
Proof. apply reachable_run, reachable_initial. Qed.

Lemma reachable_flagged : reachable flagged.
Proof. apply reachable_run, reachable_awaiting_fetch. Qed.

Lemma proceedAnyway_witness :
  reachable flagged
  ∧ tabAnalysisResults (step (PROCEED_ANYWAY 1 2000) flagged) !! 1
    = Some (Rec (record bank_url "SAFE"
                   (JStr "You chose to proceed. Trinetra will trust this page for this session.")
                   2000))
  ∧ bank_url ∈ sessionProceededUrls (step (PROCEED_ANYWAY 1 2000) flagged).
Proof.
  pose proof (proceedAnyway_spec flagged 1 2000 reachable_flagged) as (_ & _ & Hfound).
  specialize (Hfound (record bank_url "DANGEROUS"
                        (JStr "mimics bank login (Confidence: 90%)") 1002)).
  destruct Hfound as (Hset & Hstore & _); [reflexivity|].
  split; [exact reachable_flagged|]. split.
  - unfold step. rewrite Hstore. apply lookup_insert_eq.
  - unfold step. rewrite Hset. set_solver.
Defined.

Lemma missing_credential_witness :
  truthy JUndefined = false
  ∧ cached initial 1 (pd_url (page bank_url)) 1000 = None
  ∧ step (PAGE_DATA (Some 1) (page bank_url) 1000) initial = awaiting_key bank_url
  ∧ tabAnalysisResults (step (ApiKeyRead 0 (Ok JUndefined) 1001) (awaiting_key bank_url)) !! 1
    = Some (Rec (record bank_url "ERROR"
                   (JStr "Gemini API key is missing. Please set it in the Trinetra popup.")
                   1001))
  ∧ no_fetch (effects_of (ApiKeyRead 0 (Ok JUndefined) 1001) (awaiting_key bank_url)).
Proof.
  assert ((1 : Z) ≠ 0) as Hne by done.
  assert (truthy JUndefined = false) as Hkey by reflexivity.
  assert (cached initial 1 (pd_url (page bank_url)) 1000 = None) as Hcached
    by reflexivity.
  pose proof (missing_credential_is_error initial 1 (page bank_url) 1000 1001
                JUndefined Hne Hkey) as [_ Hfresh].
  destruct (Hfresh Hcached) as (Hstep & _ & _ & Hrec & Hfetch & _).
  exact (conj Hkey (conj Hcached (conj eq_refl (conj Hrec Hfetch)))).
Defined.

(** C7 as stated fails: tab 1 holds a record for the bank page; the page sends
    its data again within the cache duration while no credential is stored
    (the popup can clear it).  The listener answers from the record: getApiKey
    is not read, and the record stays as it is, not ERROR. *)
Lemma cached_page_without_key :
  tabAnalysisResults flagged !! 1
  = Some (Rec (record bank_url "DANGEROUS"
                 (JStr "mimics bank login (Confidence: 90%)") 1002))
  ∧ tasks (step (PAGE_DATA (Some 1) (page bank_url) 1005) flagged) = []
  ∧ effects_of (PAGE_DATA (Some 1) (page bank_url) 1005) flagged
    = [ sendMessage_UPDATE_POPUP_DATA
          (record bank_url "DANGEROUS" (JStr "mimics bank login (Confidence: 90%)") 1002);
        sendResponse (ReplyStatus "Using cached/proceeded Trinetra result.") ]
  ∧ tabAnalysisResults
      (run [PAGE_DATA (Some 1) (page bank_url) 1005; ApiKeyRead 0 (Ok JUndefined) 1006]
         flagged) !! 1
    = Some (Rec (record bank_url "DANGEROUS"
                   (JStr "mimics bank login (Confidence: 90%)") 1002)).
Proof. repeat split; reflexivity. Qed.

Lemma whitelisted_domain_witness :
  tasks (awaiting_key github_url) !! 0%nat = Some (AwaitApiKey (page github_url) 1)
  ∧ getDomain github_url = Some "github.com"
  ∧ In "github.com" WHITELISTED_DOMAINS
  ∧ endsWith "github.com" "github.com" = true
  ∧ tabAnalysisResults (step (ApiKeyRead 0 (Ok (JStr "key")) 1001) (awaiting_key github_url)) !! 1
    = Some (Rec (record github_url "SAFE"
                   (JStr "This domain is on Trinetra's trusted whitelist.") 1001))
  ∧ no_fetch (effects_of (ApiKeyRead 0 (Ok (JStr "key")) 1001) (awaiting_key github_url)).
Proof.
  assert (tasks (awaiting_key github_url) !! 0%nat
          = Some (AwaitApiKey (page github_url) 1)) as Htask by reflexivity.
  assert (getDomain github_url = Some "github.com") as Hdom by reflexivity.
  assert (In "github.com" WHITELISTED_DOMAINS) as Hin
    by (right; right; right; left; reflexivity).
  assert (endsWith "github.com" "github.com" = true) as Hends by reflexivity.
  pose proof (whitelisted_domain_skips_classifier (awaiting_key github_url) 0
                (page github_url) 1 (JStr "key") 1001 "github.com" "github.com"
                Htask Hdom Hin Hends) as (_ & Hfetch & _ & Hsafe & _).
  exact (conj Htask (conj Hdom (conj Hin (conj Hends (conj (Hsafe eq_refl) Hfetch))))).
Defined.

(** C1 as stated fails: github.com is on the whitelist, yet with no credential
    stored the page is recorded as ERROR, not SAFE. *)
Lemma whitelisted_page_without_key :
  getDomain github_url = Some "github.com"
  ∧ In "github.com" WHITELISTED_DOMAINS
  ∧ endsWith "github.com" "github.com" = true
  ∧ tabAnalysisResults
      (run [PAGE_DATA (Some 1) (page github_url) 1000; ApiKeyRead 0 (Ok JUndefined) 1001]
         initial) !! 1
    = Some (Rec (record github_url "ERROR"
                   (JStr "Gemini API key is missing. Please set it in the Trinetra popup.")
                   1001)).
Proof.
  split; [reflexivity|]. split; [right; right; right; left; reflexivity|].
  split; reflexivity.
Qed.

Lemma suffix_match_witness :
  URL_hostname (pd_url (page evil_url)) = Some "evilgoogle.com"
  ∧ tasks (awaiting_key evil_url) !! 0%nat = Some (AwaitApiKey (page evil_url) 1)
  ∧ truthy (JStr "key") = true
  ∧ tabAnalysisResults (step (ApiKeyRead 0 (Ok (JStr "key")) 1001) (awaiting_key evil_url)) !! 1
    = Some (Rec (record evil_url "SAFE"
                   (JStr "This domain is on Trinetra's trusted whitelist.") 1001))
  ∧ no_fetch (effects_of (ApiKeyRead 0 (Ok (JStr "key")) 1001) (awaiting_key evil_url)).
Proof.
  assert (URL_hostname (pd_url (page evil_url)) = Some "evilgoogle.com")
    as Hhost by reflexivity.
  assert (tasks (awaiting_key evil_url) !! 0%nat = Some (AwaitApiKey (page evil_url) 1))
    as Htask by reflexivity.
  assert (truthy (JStr "key") = true) as Hkey by reflexivity.
  pose proof (suffix_match_ignores_label_boundary (awaiting_key evil_url) 0
                (page evil_url) 1 (JStr "key") 1001 Hhost Htask Hkey)
    as (_ & _ & Hrec & Hfetch & _).
  exact (conj Hhost (conj Htask (conj Hkey (conj Hrec Hfetch)))).
Defined.

Lemma cache_reuse_witness :
  reachable flagged
  ∧ tabAnalysisResults flagged !! 1
    = Some (Rec (record bank_url "DANGEROUS"
                   (JStr "mimics bank login (Confidence: 90%)") 1002))
  ∧ step (PAGE_DATA (Some 1) (page bank_url) (1002 + 5)) flagged = flagged
  ∧ tasks (step (PAGE_DATA (Some 1) (page bank_url) (1002 + ANALYSIS_CACHE_DURATION_MS))
             flagged)
    = [AwaitApiKey (page bank_url) 1].
Proof.
  assert (tabAnalysisResults flagged !! 1
          = Some (Rec (record bank_url "DANGEROUS"
                         (JStr "mimics bank login (Confidence: 90%)") 1002)))
    as Hrec by reflexivity.
  pose proof (λ Δ, cache_reuse_window flagged 1 _ (page bank_url) Δ
                     reachable_flagged Hrec eq_refl) as Hwindow.
  split; [exact reachable_flagged|]. split; [exact Hrec|]. split.
  - destruct (Hwindow 5) as [Hreuse _]. apply Hreuse. left. reflexivity.
  - destruct (Hwindow ANALYSIS_CACHE_DURATION_MS) as [_ Hfresh].
    assert (ANALYSIS_CACHE_DURATION_MS ≤ ANALYSIS_CACHE_DURATION_MS)%Z as Hge by lia.
    assert (pd_url (page bank_url) ∉ sessionProceededUrls flagged) as Hnotin.
    { change (sessionProceededUrls flagged) with (∅ : gset string). set_solver. }
    destruct (Hfresh Hge Hnotin) as [Hstep _].
    simpl in Hstep. rewrite Hstep. reflexivity.
Defined.

(** C3 as stated fails: once the user has proceeded, the record of the page is
    reused at any age; at 3 minutes and beyond no analysis starts. *)
Lemma overridden_record_never_expires :
  tabAnalysisResults proceeded !! 1
  = Some (Rec (record bank_url "SAFE"
                 (JStr "You chose to proceed. Trinetra will trust this page for this session.")
                 2000))
  ∧ step (PAGE_DATA (Some 1) (page bank_url) (2000 + ANALYSIS_CACHE_DURATION_MS)) proceeded
    = proceeded
  ∧ tasks proceeded = []
  ∧ effects_of (PAGE_DATA (Some 1) (page bank_url) (2000 + 10 * ANALYSIS_CACHE_DURATION_MS))
      proceeded
    = [ sendMessage_UPDATE_POPUP_DATA
          (record bank_url "SAFE"
             (JStr "You chose to proceed. Trinetra will trust this page for this session.")
             2000);
        sendResponse (ReplyStatus "Using cached/proceeded Trinetra result.") ].
Proof. repeat split; reflexivity. Qed.

Lemma late_response_witness :
  tasks (awaiting_fetch bank_url) !! 0%nat = Some (AwaitFetch (page bank_url) 1)
  ∧ ∃ st expl,
      In st VERDICTS
      ∧ tabAnalysisResults
          (step (FetchSettled 0 (HttpOk (Ok body_dangerous)) 1002) (awaiting_fetch bank_url))
          !! 1
        = Some (Rec (record bank_url st expl 1002)).
Proof.
  assert (tasks (awaiting_fetch bank_url) !! 0%nat = Some (AwaitFetch (page bank_url) 1))
    as Htask by reflexivity.
  pose proof (late_response_is_applied (awaiting_fetch bank_url) 0 (page bank_url) 1
                (HttpOk (Ok body_dangerous)) 1002 Htask) as (_ & Hrec & _).
  exact (conj Htask Hrec).
Defined.

(** C2 as stated fails: tab 1 has left the bank page for github.com and holds
    the record of github.com when the response for the bank page arrives; the
    response is applied, and the slot of tab 1 then holds the bank page's
    DANGEROUS record. *)
Lemma late_response_overwrites_newer_page :
  tabAnalysisResults navigated !! 1
  = Some (Rec (record github_url "SAFE"
                 (JStr "This domain is on Trinetra's trusted whitelist.") 2001))
  ∧ tasks navigated = [AwaitFetch (page bank_url) 1]
  ∧ String.eqb bank_url github_url = false
  ∧ tabAnalysisResults
      (step (FetchSettled 0 (HttpOk (Ok body_dangerous)) 3000) navigated) !! 1
    = Some (Rec (record bank_url "DANGEROUS"
                   (JStr "mimics bank login (Confidence: 90%)") 3000)).
Proof. repeat split; reflexivity. Qed.


Lemma unknown_status_witness :
  tasks (awaiting_fetch bank_url) !! 0%nat = Some (AwaitFetch (page bank_url) 1)
  ∧ (∃ resultJson,
       JSON_parse body_weird = Some resultJson
       ∧ candidate_text resultJson = Ok (JStr weird_output_text))
  ∧ JSON_parse_value (JStr weird_output_text) = Some weird_output
  ∧ includes KNOWN_STATUSES (trim (toUpperCase " Weird ")) = false
  ∧ tabAnalysisResults
      (step (FetchSettled 0 (HttpOk (Ok body_weird)) 1002) (awaiting_fetch bank_url)) !! 1
    = Some (Rec (record bank_url "SUSPICIOUS"
                   (JStr "Trinetra AI provided an unknown status:  Weird . Explanation: odd page")
                   1002)).
Proof.
  assert (tasks (awaiting_fetch bank_url) !! 0%nat = Some (AwaitFetch (page bank_url) 1))
    as Htask by reflexivity.
  destruct (JSON_parse body_weird) as [resultJson|] eqn:Hbody; [|discriminate Hbody].
  assert (candidate_text resultJson = Ok (JStr weird_output_text)) as Hout.
  { injection Hbody as <-. reflexivity. }
  assert (JSON_parse_value (JStr weird_output_text) = Some weird_output)
    as Hparse by reflexivity.
  assert (includes KNOWN_STATUSES (trim (toUpperCase " Weird ")) = false)
    as Hunknown by reflexivity.
  pose proof (unknown_status_is_suspicious (awaiting_fetch bank_url) 0 (page bank_url) 1
                body_weird 1002 resultJson (JStr weird_output_text) weird_output
                " Weird " (JStr "odd page") "odd page"
                Htask Hbody Hout eq_refl Hparse eq_refl eq_refl eq_refl eq_refl eq_refl
                Hunknown)
    as (_ & Hrec & _).
  exact (conj Htask (conj (ex_intro _ resultJson (conj eq_refl Hout))
           (conj Hparse (conj Hunknown Hrec)))).
Defined.

(** C6 as stated fails: the classifier's output has a status and an
    explanation, the status is none of the three known ones, and the
    explanation is the empty string: the record is ERROR, not SUSPICIOUS. *)
Lemma empty_explanation_is_error :
  (∃ resultJson,
     JSON_parse body_empty_explanation = Some resultJson
     ∧ candidate_text resultJson
       = Ok (JStr (quoted "{'status':'weird','explanation':''}")))
  ∧ JSON_parse (quoted "{'status':'weird','explanation':''}")
    = Some (JObj [("status", JStr "weird"); ("explanation", JStr "")])
  ∧ includes KNOWN_STATUSES (trim (toUpperCase "weird")) = false
  ∧ tabAnalysisResults
      (step (FetchSettled 0 (HttpOk (Ok body_empty_explanation)) 1002)
         (awaiting_fetch bank_url)) !! 1
    = Some (Rec (record bank_url "ERROR"
                   (JStr "Trinetra AI response structure incomplete.") 1002)).
Proof.
  split; [|repeat split; reflexivity].
  eexists. split; reflexivity.
Qed.

(** * Further properties of the coordinator *)

Section Further.
Context `{Engine}.

(** ** What [updateTabStatus] emits *)

Lemma updateTabStatus_cases tabId u st expl now w :
  let r := record u st expl now in
  let w' := set_result tabId (Rec r) w in
  let o := updateTabStatus tabId u st expl now w in
  (st ≠ "DANGEROUS" ∧ st ≠ "SUSPICIOUS" ∧ o = recorded tabId r w)
  ∨ (∃ e, (st = "DANGEROUS" ∨ st = "SUSPICIOUS") ∧ truncated expl 100 = Throw e
          ∧ o = mkOut (Throw e) w' [sendMessage_UPDATE_POPUP_DATA r])
  ∨ (∃ details, st = "DANGEROUS" ∧ truncated expl 100 = Ok details
       ∧ o = mkOut (Ok tt) w'
               [ sendMessage_UPDATE_POPUP_DATA r;
                 notifications_create tabId "_trinetra_danger"
                   "Trinetra Alert: DANGEROUS Site!" (alert_message u st details)
                   2 ["Go Back"; "View Details"] ])
  ∨ (∃ details, st = "SUSPICIOUS" ∧ truncated expl 100 = Ok details
       ∧ o = mkOut (Ok tt) w'
               [ sendMessage_UPDATE_POPUP_DATA r;
                 notifications_create tabId "_trinetra_suspicious"
                   "Trinetra Warning: Suspicious Site" (alert_message u st details)
                   1 [] ]).
Proof.
  cbv zeta. unfold updateTabStatus. rewrite bind_modify, bind_emit.
  destruct (String.eqb_spec st "DANGEROUS") as [->|Hd].
  - destruct (truncated expl 100) as [details|e] eqn:Ht.
    + right; right; left. exists details. by repeat split.
    + right; left. exists e. by repeat split; [left|..].
  - destruct (String.eqb_spec st "SUSPICIOUS") as [->|Hs].
    + destruct (truncated expl 100) as [details|e] eqn:Ht.
      * right; right; right. exists details. by repeat split.
      * right; left. exists e. by repeat split; [right|..].
    + left. by repeat split.
Qed.

Lemma updateTabStatus_recorded tabId u st expl now w :
  st ≠ "DANGEROUS" → st ≠ "SUSPICIOUS" →
  updateTabStatus tabId u st expl now w = recorded tabId (record u st expl now) w.
Proof.
  intros Hd Hs. apply updateTabStatus_quiet; by apply String.eqb_neq.
Qed.

(** ** The resumption of [analyzeWithAI] after [getApiKey] *)

Lemma analyzeWithAI_key_cases pageData tabId key now w :
  let u := pd_url pageData in
  let o := analyzeWithAI_key pageData tabId key now w in
  (truthy key = false
   ∧ o = recorded tabId
           (record u "ERROR"
              (JStr "Gemini API key is missing. Please set it in the Trinetra popup.") now)
           w)
  ∨ (truthy key = true ∧ whitelisted u = true
     ∧ o = recorded tabId
             (record u "SAFE" (JStr "This domain is on Trinetra's trusted whitelist.") now)
             w)
  ∨ (truthy key = true ∧ whitelisted u = false ∧ u ∈ sessionProceededUrls w
     ∧ o = recorded tabId
             (record u "SAFE"
                (JStr "You chose to proceed to this page earlier in this session.") now)
             w)
  ∨ (truthy key = true ∧ whitelisted u = false ∧ (u ∉ sessionProceededUrls w)
     ∧ ((∃ e, build_prompt pageData = Throw e ∧ o = mkOut (Throw e) w [])
        ∨ (∃ prompt e, build_prompt pageData = Ok prompt ∧ js_string key = Throw e
                       ∧ o = mkOut (Throw e) w [])
        ∨ (∃ prompt text, build_prompt pageData = Ok prompt ∧ js_string key = Ok text
                          ∧ o = mkOut (Ok tt) (suspend (AwaitFetch pageData tabId) w)
                                  [fetch text prompt]))).
Proof.
  cbv zeta. unfold analyzeWithAI_key.
  destruct (truthy key); cbn [negb].
  2: { left. split; [done|]. by apply updateTabStatus_recorded. }
  right. destruct (whitelisted (pd_url pageData)).
  { left. do 2 (split; [done|]). by apply updateTabStatus_recorded. }
  right. case_bool_decide as Hin.
  { left. do 3 (split; [done|]). by apply updateTabStatus_recorded. }
  right. do 3 (split; [done|]).
  destruct (build_prompt pageData) as [prompt|e]; [|left; by exists e].
  right. rewrite lift_Ok_bind.
  destruct (js_string key) as [text|e]; [right|left]; by eexists _, _.
Qed.

(** ** The resumption of [analyzeWithAI] after the fetch *)

Lemma normalizedStatus_Ok st n :
  normalizedStatus st = Ok n → ∃ s, st = JStr s ∧ n = trim (toUpperCase s).
Proof. destruct st; simpl; intros [= <-]. by eexists. Qed.

Lemma validate_origin tabId u output now :
  ∃ d, sound d ∧ validate tabId u output now = enact tabId u now d
       ∧ match d with
         | Thrown _ => True
         | Verdict st _ =>
             st = "ERROR"
             ∨ ∃ aiAnalysis s,
                 JSON_parse_value output = Some aiAnalysis
                 ∧ has_required_fields aiAnalysis = Ok true
                 ∧ prop aiAnalysis "status" = Ok (JStr s)
                 ∧ st = if includes KNOWN_STATUSES (trim (toUpperCase s))
                        then trim (toUpperCase s) else "SUSPICIOUS"
         end.
Proof.
  unfold validate.
  destruct (JSON_parse_value output) as [aiAnalysis|] eqn:Hparse.
  - destruct (has_required_fields aiAnalysis) as [[|]|e] eqn:Hreq.
    3: { exists (Thrown e). by repeat split. }
    2: { eexists (Verdict _ _). split; [|split; [reflexivity|by left]].
         split; [right; right; right; left; reflexivity | reflexivity]. }
    pose proof Hreq as Hreq'.
    apply has_required_fields_true in Hreq' as (st & expl & Hst & _ & Hexpl & Htruthy).
    rewrite lift_Ok_bind, Hst, lift_Ok_bind.
    destruct (normalizedStatus st) as [n|e] eqn:Hn;
      [|exists (Thrown e); by repeat split].
    apply normalizedStatus_Ok in Hn as (s & -> & ->).
    rewrite lift_Ok_bind.
    destruct (includes KNOWN_STATUSES (trim (toUpperCase s))) eqn:Hknown.
    + rewrite Hexpl, lift_Ok_bind.
      destruct (with_confidence aiAnalysis expl) as [expl1|e] eqn:H1;
        [|exists (Thrown e); by repeat split].
      rewrite lift_Ok_bind.
      destruct (with_threat aiAnalysis expl1) as [expl2|e] eqn:H2;
        [|exists (Thrown e); by repeat split].
      rewrite lift_Ok_bind.
      exists (Verdict (trim (toUpperCase s)) expl2). split; [|split; [reflexivity|]].
      * split; [|eauto using with_confidence_truthy, with_threat_truthy].
        apply includes_In in Hknown. unfold KNOWN_STATUSES, VERDICTS in *.
        simpl in *. tauto.
      * right. exists aiAnalysis, s. by rewrite Hknown.
    + cbn [js_string]. rewrite lift_Ok_bind, Hexpl, lift_Ok_bind.
      destruct (js_string expl) as [text|e]; [|exists (Thrown e); by repeat split].
      rewrite lift_Ok_bind.
      eexists (Verdict _ _). split; [|split; [reflexivity|]].
      * split; [right; left; reflexivity | reflexivity].
      * right. exists aiAnalysis, s. by rewrite Hknown.
  - destruct (truncated output 100) as [t|e]; [|exists (Thrown e); by repeat split].
    eexists (Verdict _ _). split; [|split; [reflexivity|by left]].
    split; [right; right; right; left; reflexivity | reflexivity].
Qed.

Lemma analyzeWithAI_try_origin tabId u outcome now :
  ∃ d, sound d ∧ origin outcome d
       ∧ analyzeWithAI_try tabId u outcome now = enact tabId u now d.
Proof.
  assert (∀ s, sound (Verdict "ERROR" (JStr (String "T" s)))) as Herr.
  { intros s. split; [right; right; right; left; reflexivity | reflexivity]. }
  unfold analyzeWithAI_try. destruct outcome as [e|statusText [body|e]|[text|e]].
  - by exists (Thrown e).
  - rewrite lift_Ok_bind.
    destruct (error_detail body) as [detail|e]; [|by exists (Thrown e)].
    eexists (Verdict _ _). split; [|split; [by left|reflexivity]].
    split; [right; right; right; left; reflexivity | reflexivity].
  - by exists (Thrown e).
  - rewrite lift_Ok_bind.
    destruct (JSON_parse text) as [resultJson|] eqn:Hbody.
    2: { eexists (Verdict _ _). split; [|split; [by left|reflexivity]]. apply Herr. }
    destruct (candidate_text resultJson) as [output|e] eqn:Hout;
      [|by exists (Thrown e)].
    rewrite lift_Ok_bind.
    destruct (truthy output) eqn:Htruthy.
    + destruct (validate_origin tabId u output now) as (d & Hsound & -> & Horigin).
      exists d. split; [done|]. split; [|done].
      destruct d as [e|st expl]; [done|].
      destruct Horigin as [->|(aiAnalysis & s & Hparse & Hreq & Hst & ->)]; [by left|].
      right. exists text, (trim (toUpperCase s)). split; [done|]. split; [|done].
      by exists resultJson, output, aiAnalysis, s.
    + destruct (blocked_reason resultJson) as [reason|e]; [|by exists (Thrown e)].
      rewrite lift_Ok_bind.
      destruct (truthy reason).
      * destruct (js_string reason) as [why|e]; [|by exists (Thrown e)].
        eexists (Verdict _ _). split; [|split; [by left|reflexivity]]. apply Herr.
      * eexists (Verdict _ _). split; [|split; [by left|reflexivity]].
        split; [right; right; right; left; reflexivity | reflexivity].
  - by exists (Thrown e).
Qed.

(** Every settling of the fetch comes to one decision of the [try] block:
    an exception, which the [catch] clause records as ERROR; or one call of
    [updateTabStatus], which either completes or, when the explanation of a
    DANGEROUS or SUSPICIOUS verdict cannot be converted to a string, throws
    after it has told the popup, and is then recorded as ERROR too. *)
Lemma analyzeWithAI_settled_cases pageData tabId outcome now w :
  let u := pd_url pageData in
  let o := analyzeWithAI_settled pageData tabId outcome now w in
  ∃ d, sound d ∧ origin outcome d
    ∧ analyzeWithAI_try tabId u outcome now = enact tabId u now d
    ∧ match d with
      | Thrown e =>
          o = recorded tabId (record u "ERROR" (JStr (network_error e)) now) w
      | Verdict st expl =>
          (o = updateTabStatus tabId u st expl now w ∧ result o = Ok tt)
          ∨ ∃ e, (st = "DANGEROUS" ∨ st = "SUSPICIOUS")
                 ∧ truncated expl 100 = Throw e
                 ∧ o = mkOut (Ok tt)
                         (set_result tabId
                            (Rec (record u "ERROR" (JStr (network_error e)) now)) w)
                         [ sendMessage_UPDATE_POPUP_DATA (record u st expl now);
                           sendMessage_UPDATE_POPUP_DATA
                             (record u "ERROR" (JStr (network_error e)) now) ]
      end.
Proof.
  cbv zeta.
  destruct (analyzeWithAI_try_origin tabId (pd_url pageData) outcome now)
    as (d & Hsound & Horigin & Htry).
  exists d. do 3 (split; [done|]).
  unfold analyzeWithAI_settled. rewrite Htry.
  destruct d as [e|st expl]; unfold enact.
  - change (try_catch (lift (Throw e)) ?h w) with (h e w). cbv beta.
    by rewrite updateTabStatus_recorded.
  - unfold try_catch.
    destruct (updateTabStatus_cases tabId (pd_url pageData) st expl now w)
      as [(_ & _ & Hu)|[(e & Hst & Ht & Hu)|[(details & _ & _ & Hu)|(details & _ & _ & Hu)]]];
      cbv zeta in Hu; rewrite Hu; cbn [result world emitted recorded]; [by left| |by left..].
    right. exists e. do 2 (split; [done|]).
    rewrite updateTabStatus_recorded by done.
    cbn [result world emitted recorded]. by rewrite set_result_twice.
Qed.

(** ** The session override *)

(** X1: A page the user has proceeded to is recorded SAFE without a call of the
    classifier, on whatever tab it is analyzed again; the whitelist, which is
    tested first, gives its own explanation. *)
Theorem proceeded_url_skips_classifier w i pageData tabId apiKey now :
  tasks w !! i = Some (AwaitApiKey pageData tabId) →
  truthy apiKey = true →
  pd_url pageData ∈ sessionProceededUrls w →
  let o := handle (ApiKeyRead i (Ok apiKey) now) w in
  let r := record (pd_url pageData) "SAFE"
             (JStr (if whitelisted (pd_url pageData)
                    then "This domain is on Trinetra's trusted whitelist."
                    else "You chose to proceed to this page earlier in this session."))
             now in
  result o = Ok tt
  ∧ tabAnalysisResults (world o) !! tabId = Some (Rec r)
  ∧ emitted o = [sendMessage_UPDATE_POPUP_DATA r]
  ∧ tasks (world o) = delete i (tasks w).
Proof.
  intros Hi Hkey Hin. rewrite (ApiKeyRead_resumes w i pageData tabId) by done.
  cbv zeta.
  destruct (analyzeWithAI_key_cases pageData tabId apiKey now (resume i w))
    as [[Hk _]|[(_ & Hw & ->)|[(_ & Hw & _ & ->)|(_ & _ & Hnotin & _)]]];
    [congruence| | |done]; rewrite Hw; simpl; by rewrite lookup_insert_eq.
Qed.

Lemma step_proceeded ev w :
  sessionProceededUrls (step ev w) = sessionProceededUrls w
  ∨ ∃ T now r, ev = PROCEED_ANYWAY T now ∧ T ≠ 0
      ∧ tabAnalysisResults w !! T = Some (Rec r)
      ∧ sessionProceededUrls (step ev w) = {[url r]} ∪ sessionProceededUrls w.
Proof.
  unfold step. destruct ev as
    [[tabId|] data now|tabId|tabId|tabId now|tabId st tabUrl|tabId|i apiKey now
    |i outcome now]; simpl.
  - left. unfold on_PAGE_DATA. case_bool_decide; [|done].
    by destruct (cached w tabId (pd_url data) now).
  - by left.
  - by left.
  - left. unfold on_GO_BACK_TAB. by case_bool_decide.
  - destruct (decide (tabId = 0)) as [->|Hne];
      [left; by rewrite on_PROCEED_ANYWAY_not_found by auto|].
    destruct (tabAnalysisResults w !! tabId) as [[|existing]|] eqn:Hrec;
      [left; by rewrite on_PROCEED_ANYWAY_not_found by auto| |
       left; by rewrite on_PROCEED_ANYWAY_not_found by auto].
    right. exists tabId, now, existing.
    by rewrite (on_PROCEED_ANYWAY_found _ _ _ existing) by done.
  - left. unfold on_tabs_onUpdated. destruct st as [st|], tabUrl as [u|]; try done.
    destruct (_ && _ && _); [|done].
    destruct (tabAnalysisResults w !! tabId) as [[|r]|]; try done.
    by case_bool_decide.
  - by left.
  - left. unfold on_ApiKeyRead.
    destruct (tasks w !! i) as [[pageData tabId|pageData tabId]|]; try done.
    rewrite bind_modify. destruct apiKey as [key|e]; [|done].
    rewrite lift_Ok_bind.
    destruct (analyzeWithAI_key_cases pageData tabId key now (resume i w))
      as [[_ ->]|[(_ & _ & ->)|[(_ & _ & _ & ->)
          |(_ & _ & _ & [(e & _ & ->)|[(p & e & _ & _ & ->)|(p & t & _ & _ & ->)]])]]];
      done.
  - left. unfold on_FetchSettled.
    destruct (tasks w !! i) as [[pageData tabId|pageData tabId]|]; try done.
    rewrite bind_modify.
    by destruct (analyzeWithAI_settled_spec pageData tabId outcome now (resume i w))
      as (_ & _ & st & expl & _ & _ & ->).
Qed.

(** X2: The set of proceeded pages only grows during a session, and only by a
    PROCEED_ANYWAY message for a tab that holds a record, whose page is the
    one added. *)
Theorem sessionProceededUrls_only_grows :
  (∀ w evs, sessionProceededUrls w ⊆ sessionProceededUrls (run evs w))
  ∧ (∀ w ev u,
       u ∈ sessionProceededUrls (step ev w) →
       u ∈ sessionProceededUrls w
       ∨ ∃ T now r, ev = PROCEED_ANYWAY T now
           ∧ tabAnalysisResults w !! T = Some (Rec r) ∧ url r = u).
Proof.
  split.
  - intros w evs. revert w. induction evs as [|ev evs IH]; intros w; simpl; [done|].
    etrans; [|apply IH].
    destruct (step_proceeded ev w) as [->|(T & now & r & _ & _ & _ & ->)]; set_solver.
  - intros w ev u Hin.
    destruct (step_proceeded ev w) as [Heq|(T & now & r & -> & _ & Hr & Heq)];
      rewrite Heq in Hin; [by left|].
    apply elem_of_union in Hin as [Hin|Hin]; [|by left].
    right. exists T, now, r. apply elem_of_singleton in Hin. by subst.
Qed.

(** ** Calls of the classifier *)

(** X3: An event makes no call of the classifier, unless it is the resolution of
    [getApiKey] to a credential for a page that is neither whitelisted nor
    proceeded to and whose prompt can be built: then there is exactly one
    call, with that credential and that prompt, and one activation suspended
    at the fetch. *)
Theorem classifier_call_conditions ev w :
  no_fetch (effects_of ev w)
  ∨ ∃ i pageData tabId apiKey key prompt now,
      ev = ApiKeyRead i (Ok apiKey) now
      ∧ tasks w !! i = Some (AwaitApiKey pageData tabId)
      ∧ truthy apiKey = true ∧ js_string apiKey = Ok key
      ∧ whitelisted (pd_url pageData) = false
      ∧ (pd_url pageData ∉ sessionProceededUrls w)
      ∧ build_prompt pageData = Ok prompt
      ∧ effects_of ev w = [fetch key prompt]
      ∧ tasks (step ev w) = (delete i (tasks w) ++ [AwaitFetch pageData tabId])%list
      ∧ tabAnalysisResults (step ev w) = tabAnalysisResults w.
Proof.
  unfold step, effects_of. destruct ev as
    [[tabId|] data now|tabId|tabId|tabId now|tabId st tabUrl|tabId|i apiKey now
    |i outcome now]; simpl.
  - left. unfold on_PAGE_DATA. case_bool_decide; [|done].
    by destruct (cached w tabId (pd_url data) now).
  - by left.
  - by left.
  - left. unfold on_GO_BACK_TAB. by case_bool_decide.
  - left. destruct (decide (tabId = 0)) as [->|Hne];
      [by rewrite on_PROCEED_ANYWAY_not_found by auto|].
    destruct (tabAnalysisResults w !! tabId) as [[|existing]|] eqn:Hrec;
      [by rewrite on_PROCEED_ANYWAY_not_found by auto| |
       by rewrite on_PROCEED_ANYWAY_not_found by auto].
    by rewrite (on_PROCEED_ANYWAY_found _ _ _ existing) by done.
  - left. unfold on_tabs_onUpdated. destruct st as [st|], tabUrl as [u|]; try done.
    destruct (_ && _ && _); [|done].
    destruct (tabAnalysisResults w !! tabId) as [[|r]|]; try done.
    by case_bool_decide.
  - by left.
  - unfold on_ApiKeyRead.
    destruct (tasks w !! i) as [[pageData tabId|pageData tabId]|] eqn:Hi; try by left.
    rewrite bind_modify. destruct apiKey as [key|e]; [|by left].
    rewrite lift_Ok_bind.
    destruct (analyzeWithAI_key_cases pageData tabId key now (resume i w))
      as [[_ ->]|[(_ & _ & ->)|[(_ & _ & _ & ->)
          |(Hk & Hw & Hp & [(e & _ & ->)|[(p & e & _ & _ & ->)|(p & t & Hb & Hs & ->)]])]]];
      try by left.
    right. by exists i, pageData, tabId, key, t, p, now.
  - left. unfold on_FetchSettled.
    destruct (tasks w !! i) as [[pageData tabId|pageData tabId]|]; try done.
    rewrite bind_modify.
    by destruct (analyzeWithAI_settled_spec pageData tabId outcome now (resume i w))
      as (_ & Hf & _).
Qed.

(** X4: When the payload cannot be built (a form action or an iframe source that
    [new URL] rejects), the analysis ends there: no record is written, the
    popup is told nothing, no call is made, and the tab keeps the status it
    had. *)
Theorem payload_failure_leaves_no_trace w i pageData tabId apiKey now e :
  tasks w !! i = Some (AwaitApiKey pageData tabId) →
  truthy apiKey = true →
  whitelisted (pd_url pageData) = false →
  pd_url pageData ∉ sessionProceededUrls w →
  build_prompt pageData = Throw e →
  let o := handle (ApiKeyRead i (Ok apiKey) now) w in
  result o = Throw e
  ∧ emitted o = []
  ∧ tabAnalysisResults (world o) = tabAnalysisResults w
  ∧ getStatus (world o) tabId = getStatus w tabId
  ∧ tasks (world o) = delete i (tasks w).
Proof.
  intros Hi Hkey Hw Hp Hb. rewrite (ApiKeyRead_resumes w i pageData tabId) by done.
  cbv zeta. unfold analyzeWithAI_key. rewrite Hkey, Hw, Hb. cbn [negb].
  by rewrite bool_decide_eq_false_2.
Qed.

End Further.

Section Responses.
Context `{Engine}.

(** ** Failures of the classifier call *)

(** X5: When the fetch rejects, or the read of the response body does, the page
    is recorded as ERROR with the message of the error; the popup is told and
    no notification is raised. *)
Theorem transport_failure_is_error w i pageData tabId outcome now e :
  tasks w !! i = Some (AwaitFetch pageData tabId) →
  transport_error outcome = Some e →
  let o := handle (FetchSettled i outcome now) w in
  let r := record (pd_url pageData) "ERROR" (JStr (network_error e)) now in
  result o = Ok tt
  ∧ tabAnalysisResults (world o) !! tabId = Some (Rec r)
  ∧ emitted o = [sendMessage_UPDATE_POPUP_DATA r]
  ∧ tasks (world o) = delete i (tasks w).
Proof.
  intros Hi He. rewrite (FetchSettled_resumes w i pageData tabId) by done.
  cbv zeta. rewrite (settled_of_throw _ _ _ _ e).
  - simpl. by rewrite lookup_insert_eq.
  - by destruct outcome as [e'|statusText [body|e']|[text|e']]; simplify_eq/=.
Qed.

(** X6: A response whose HTTP status is not ok is recorded as ERROR.  The
    explanation carries the status text and, when the body is an object with
    a truthy error.message, that message; when the body is text, its first
    150 characters.  A body that makes the reads throw (null, for one) takes
    the [catch] clause. *)
Theorem http_failure_is_error w i pageData tabId statusText body now :
  tasks w !! i = Some (AwaitFetch pageData tabId) →
  let o := handle (FetchSettled i (HttpNotOk statusText (Ok body)) now) w in
  let r := record (pd_url pageData) "ERROR"
             (JStr match error_detail body with
                   | Ok detail => "Gemini API request failed: " +:+ statusText +:+ detail
                   | Throw e => network_error e
                   end) now in
  (result o = Ok tt
   ∧ tabAnalysisResults (world o) !! tabId = Some (Rec r)
   ∧ emitted o = [sendMessage_UPDATE_POPUP_DATA r])
  ∧ (∀ err m text,
       is_object body = true → prop body "error" = Ok err → truthy err = true →
       prop err "message" = Ok m → truthy m = true → js_string m = Ok text →
       error_detail body = Ok (" - " +:+ text))
  ∧ (∀ s, body = JStr s →
       ∃ t, truncated (JStr s) 150 = Ok t ∧ error_detail body = Ok (" - " +:+ t))
  ∧ (body = JNull → error_detail body = Throw (NullishRead "error")).
Proof.
  intros Hi. rewrite (FetchSettled_resumes w i pageData tabId) by done.
  cbv zeta. split; [|split; [|split]].
  - destruct (error_detail body) as [detail|e] eqn:Hd.
    + rewrite (settled_of_error _ _ _ _
                 ("Gemini API request failed: " +:+ statusText +:+ detail)).
      * simpl. by rewrite lookup_insert_eq.
      * unfold analyzeWithAI_try. by rewrite lift_Ok_bind, Hd, lift_Ok_bind.
    + rewrite (settled_of_throw _ _ _ _ e).
      * simpl. by rewrite lookup_insert_eq.
      * unfold analyzeWithAI_try. by rewrite lift_Ok_bind, Hd.
  - intros err m text Hobj Herr Hte Hm Htm Htext. unfold error_detail.
    rewrite Hobj, Herr. simpl. rewrite Hte, Hm. simpl. by rewrite Htm, Htext.
  - intros s ->. destruct (truncated_string s 150) as [t Ht]. exists t.
    split; [done|]. unfold error_detail. simpl. by rewrite Ht.
  - by intros ->.
Qed.

(** X7: A response without classifier output is recorded as ERROR: with the
    block reason when the prompt was blocked, with the unexpected-structure
    explanation otherwise. *)
Theorem response_without_output_is_error
    w i pageData tabId resultText resultJson output reason now :
  tasks w !! i = Some (AwaitFetch pageData tabId) →
  JSON_parse resultText = Some resultJson →
  candidate_text resultJson = Ok output → truthy output = false →
  blocked_reason resultJson = Ok reason →
  let o := handle (FetchSettled i (HttpOk (Ok resultText)) now) w in
  let r := record (pd_url pageData) "ERROR"
             (JStr (if truthy reason then
                      match js_string reason with
                      | Ok text =>
                          "Trinetra AI analysis blocked by content safety filter: "
                          +:+ text
                      | Throw e => network_error e
                      end
                    else "Could not extract content from Trinetra AI response (unexpected structure)."))
             now in
  result o = Ok tt
  ∧ tabAnalysisResults (world o) !! tabId = Some (Rec r)
  ∧ emitted o = [sendMessage_UPDATE_POPUP_DATA r].
Proof.
  intros Hi Hbody Hout Hfalsy Hreason.
  rewrite (FetchSettled_resumes w i pageData tabId) by done. cbv zeta.
  assert (analyzeWithAI_try tabId (pd_url pageData) (HttpOk (Ok resultText)) now
          = if truthy reason then
              text ← lift (js_string reason);
              updateTabStatus tabId (pd_url pageData) "ERROR"
                (JStr ("Trinetra AI analysis blocked by content safety filter: "
                       +:+ text)) now
            else
              updateTabStatus tabId (pd_url pageData) "ERROR"
                (JStr "Could not extract content from Trinetra AI response (unexpected structure).")
                now) as Htry.
  { unfold analyzeWithAI_try.
    by rewrite lift_Ok_bind, Hbody, Hout, lift_Ok_bind, Hfalsy, Hreason, lift_Ok_bind. }
  destruct (truthy reason); [destruct (js_string reason) as [text|e]|].
  - rewrite (settled_of_error _ _ _ _ _ _ Htry). simpl. by rewrite lookup_insert_eq.
  - rewrite (settled_of_throw _ _ _ _ e _ Htry). simpl. by rewrite lookup_insert_eq.
  - rewrite (settled_of_error _ _ _ _ _ _ Htry). simpl. by rewrite lookup_insert_eq.
Qed.

End Responses.

Section Verdicts.
Context `{Engine}.

(** ** Strings *)

Lemma append_empty_r s : s +:+ "" = s.
Proof.
  induction s as [|c s IH]; [done|].
  change (String c (s +:+ "") = String c s). by rewrite IH.
Qed.

Lemma append_assoc s1 s2 s3 : (s1 +:+ s2) +:+ s3 = s1 +:+ (s2 +:+ s3).
Proof.
  induction s1 as [|c s1 IH]; [done|].
  change (String c ((s1 +:+ s2) +:+ s3) = String c (s1 +:+ (s2 +:+ s3))).
  by rewrite IH.
Qed.

Lemma substring_all s : String.substring 0 (String.length s) s = s.
Proof. induction s as [|c s IH]; simpl; [done | by rewrite IH]. Qed.

(** ** Verdicts of the classifier *)

Lemma with_confidence_suffix aiAnalysis x expl :
  with_confidence aiAnalysis (JStr x) = Ok expl → ∃ suffix, expl = JStr (x +:+ suffix).
Proof.
  unfold with_confidence.
  destruct (prop aiAnalysis "confidence_score") as [score|]; simpl; [|discriminate].
  destruct (truthy score); [|intros [= <-]; exists ""; by rewrite append_empty_r].
  destruct (percent_toFixed0 score); simpl; [|discriminate].
  intros [= <-]. by eexists.
Qed.

Lemma with_threat_suffix aiAnalysis x expl :
  with_threat aiAnalysis (JStr x) = Ok expl → ∃ suffix, expl = JStr (x +:+ suffix).
Proof.
  unfold with_threat.
  destruct (prop aiAnalysis "primary_threat_type") as [threat|]; simpl; [|discriminate].
  destruct (truthy threat && _); [|intros [= <-]; exists ""; by rewrite append_empty_r].
  destruct (js_string threat); simpl; [|discriminate].
  intros [= <-]. by eexists.
Qed.

(** X8: A classifier output whose status is, up to case and surrounding blanks,
    one of SAFE, SUSPICIOUS and DANGEROUS and whose explanation is a string is
    recorded with that status; the recorded explanation starts with the
    classifier's and may carry the confidence and the threat type after it.
    DANGEROUS raises the notification with the two buttons, SUSPICIOUS the
    one without, SAFE none. *)
Theorem known_status_is_recorded
    w i pageData tabId resultText now resultJson output aiAnalysis s x expl1 expl2 :
  tasks w !! i = Some (AwaitFetch pageData tabId) →
  JSON_parse resultText = Some resultJson →
  candidate_text resultJson = Ok output → truthy output = true →
  JSON_parse_value output = Some aiAnalysis →
  prop aiAnalysis "status" = Ok (JStr s) → truthy (JStr s) = true →
  prop aiAnalysis "explanation" = Ok (JStr x) → truthy (JStr x) = true →
  includes KNOWN_STATUSES (trim (toUpperCase s)) = true →
  with_confidence aiAnalysis (JStr x) = Ok expl1 →
  with_threat aiAnalysis expl1 = Ok expl2 →
  let o := handle (FetchSettled i (HttpOk (Ok resultText)) now) w in
  let st := trim (toUpperCase s) in
  let r := record (pd_url pageData) st expl2 now in
  result o = Ok tt
  ∧ tabAnalysisResults (world o) !! tabId = Some (Rec r)
  ∧ (∃ suffix, expl2 = JStr (x +:+ suffix))
  ∧ ∃ details, truncated expl2 100 = Ok details
      ∧ emitted o
        = sendMessage_UPDATE_POPUP_DATA r
          :: if String.eqb st "DANGEROUS" then
               [ notifications_create tabId "_trinetra_danger"
                   "Trinetra Alert: DANGEROUS Site!"
                   (alert_message (pd_url pageData) st details)
                   2 ["Go Back"; "View Details"] ]
             else if String.eqb st "SUSPICIOUS" then
               [ notifications_create tabId "_trinetra_suspicious"
                   "Trinetra Warning: Suspicious Site"
                   (alert_message (pd_url pageData) st details) 1 [] ]
             else [].
Proof.
  intros Hi Hbody Hout Htruthy Hparse Hst Hs Hexpl Hx Hknown H1 H2.
  rewrite (FetchSettled_resumes w i pageData tabId) by done. cbv zeta.
  assert (truthy aiAnalysis = true) as Hai by (by eapply prop_truthy).
  assert (has_required_fields aiAnalysis = Ok true) as Hreq.
  { unfold has_required_fields. rewrite Hai, Hst. cbn [negb mbind Exc_bind exc_bind].
    rewrite Hs, Hexpl. cbn [negb mbind Exc_bind exc_bind]. by rewrite Hx. }
  assert (analyzeWithAI_try tabId (pd_url pageData) (HttpOk (Ok resultText)) now
          = updateTabStatus tabId (pd_url pageData) (trim (toUpperCase s)) expl2 now)
    as Htry.
  { unfold analyzeWithAI_try.
    rewrite lift_Ok_bind, Hbody, Hout, lift_Ok_bind, Htruthy.
    unfold validate.
    rewrite Hparse, Hreq, lift_Ok_bind, Hst, lift_Ok_bind.
    cbn [normalizedStatus]. rewrite lift_Ok_bind, Hknown.
    by rewrite Hexpl, lift_Ok_bind, H1, lift_Ok_bind, H2, lift_Ok_bind. }
  destruct (with_confidence_suffix _ _ _ H1) as [c ->].
  destruct (with_threat_suffix _ _ _ H2) as [t ->].
  destruct (truncated_string ((x +:+ c) +:+ t) 100) as [details Hd].
  unfold analyzeWithAI_settled. rewrite Htry.
  assert (∃ suffix, JStr ((x +:+ c) +:+ t) = JStr (x +:+ suffix)) as Hsuffix.
  { exists (c +:+ t). by rewrite append_assoc. }
  destruct (updateTabStatus_cases tabId (pd_url pageData) (trim (toUpperCase s))
              (JStr ((x +:+ c) +:+ t)) now (resume i w))
    as [(Hnd & Hns & Hu)|[(e & _ & Ht & _)|[(details' & Hdg & Ht & Hu)
        |(details' & Hsp & Ht & Hu)]]];
    [| congruence | |]; cbv zeta in Hu.
  - rewrite try_catch_ok by (by rewrite Hu). rewrite Hu. simpl.
    rewrite lookup_insert_eq.
    apply String.eqb_neq in Hnd, Hns. rewrite Hnd, Hns. eauto 10.
  - rewrite try_catch_ok by (by rewrite Hu). rewrite Hu. simpl.
    rewrite lookup_insert_eq, Hdg. simpl. eauto 10.
  - rewrite try_catch_ok by (by rewrite Hu). rewrite Hu. simpl.
    rewrite lookup_insert_eq, Hsp. simpl. eauto 10.
Qed.

Ltac by_cases_of_ApiKeyRead pageData tabId key now w' :=
  destruct (analyzeWithAI_key_cases pageData tabId key now w')
    as [[? ->]|[(? & ? & ->)|[(? & ? & ? & ->)
        |(? & ? & ? & [(? & ? & ->)|[(? & ? & ? & ? & ->)|(? & ? & ? & ? & ->)]])]]].

(** X9: How one turn of the event loop changes the store: page data, status
    queries and the Go Back message never write; the removal of a tab deletes
    its slot; a navigation writes null at its tab or nothing; every other
    event writes one record, at the tab it is about, or nothing. *)
Theorem store_frame ev w :
  let store := tabAnalysisResults w in
  let store' := tabAnalysisResults (step ev w) in
  match ev with
  | PAGE_DATA _ _ _ | GET_TAB_STATUS _ | GO_BACK_TAB _ => store' = store
  | tabs_onRemoved T => store' = delete T store
  | tabs_onUpdated T _ _ => store' = store ∨ store' = <[T := Null]> store
  | PROCEED_ANYWAY T _ => store' = store ∨ ∃ r, store' = <[T := Rec r]> store
  | ApiKeyRead i _ _ | FetchSettled i _ _ =>
      store' = store
      ∨ ∃ t r, tasks w !! i = Some t ∧ store' = <[task_tab t := Rec r]> store
  end.
Proof.
  unfold step. destruct ev as
    [[tabId|] data now|tabId|tabId|tabId now|tabId st tabUrl|tabId|i apiKey now
    |i outcome now]; simpl.
  - unfold on_PAGE_DATA. case_bool_decide; [|done].
    by destruct (cached w tabId (pd_url data) now).
  - done.
  - done.
  - unfold on_GO_BACK_TAB. by case_bool_decide.
  - destruct (decide (tabId = 0)) as [->|Hne];
      [left; by rewrite on_PROCEED_ANYWAY_not_found by auto|].
    destruct (tabAnalysisResults w !! tabId) as [[|existing]|] eqn:Hrec;
      [left; by rewrite on_PROCEED_ANYWAY_not_found by auto| |
       left; by rewrite on_PROCEED_ANYWAY_not_found by auto].
    rewrite (on_PROCEED_ANYWAY_found _ _ _ existing) by done. right. by eexists.
  - unfold on_tabs_onUpdated. destruct st as [st|], tabUrl as [u|]; try by left.
    destruct (_ && _ && _); [|by left].
    destruct (tabAnalysisResults w !! tabId) as [[|r]|]; try by left.
    case_bool_decide; [by right | by left].
  - done.
  - unfold on_ApiKeyRead.
    destruct (tasks w !! i) as [[pageData tabId|pageData tabId]|] eqn:Hi; try by left.
    rewrite bind_modify. destruct apiKey as [key|e]; [|by left].
    rewrite lift_Ok_bind.
    by_cases_of_ApiKeyRead pageData tabId key now (resume i w);
      try (by left); right; by eexists (AwaitApiKey pageData tabId), _.
  - unfold on_FetchSettled.
    destruct (tasks w !! i) as [[pageData tabId|pageData tabId]|] eqn:Hi; try by left.
    rewrite bind_modify.
    destruct (analyzeWithAI_settled_spec pageData tabId outcome now (resume i w))
      as (_ & _ & st & expl & _ & _ & ->).
    right. by eexists (AwaitFetch pageData tabId), _.
Qed.

(** X10: A SAFE record enters a slot in three ways only: the user proceeds; the
    page is whitelisted or was proceeded to, and a credential is present; or
    the classifier's output has the two required fields and a status that is
    SAFE up to case and surrounding blanks.  No failure ends in SAFE. *)
Theorem safe_record_provenance ev w T r :
  tabAnalysisResults (step ev w) !! T = Some (Rec r) →
  status r = "SAFE" →
  tabAnalysisResults w !! T = Some (Rec r)
  ∨ (∃ now existing, ev = PROCEED_ANYWAY T now
       ∧ tabAnalysisResults w !! T = Some (Rec existing)
       ∧ r = override_record (url existing) now)
  ∨ (∃ i pageData apiKey now, ev = ApiKeyRead i (Ok apiKey) now
       ∧ tasks w !! i = Some (AwaitApiKey pageData T)
       ∧ truthy apiKey = true
       ∧ (whitelisted (pd_url pageData) = true
          ∨ pd_url pageData ∈ sessionProceededUrls w)
       ∧ url r = pd_url pageData)
  ∨ (∃ i pageData resultText now, ev = FetchSettled i (HttpOk (Ok resultText)) now
       ∧ tasks w !! i = Some (AwaitFetch pageData T)
       ∧ classifier_says resultText "SAFE"
       ∧ url r = pd_url pageData).
Proof.
  intros Hslot Hsafe.
  assert (∀ tabId r' w0,
    tabAnalysisResults (set_result tabId (Rec r') w0) !! T = Some (Rec r) →
    tabAnalysisResults w0 !! T = Some (Rec r) ∨ (tabId = T ∧ r' = r)) as Hset.
  { intros tabId r' w0. simpl. rewrite lookup_insert.
    case_decide; [intros [= <-]; by right | by left]. }
  revert Hslot. unfold step. destruct ev as
    [[tabId|] data now|tabId|tabId|tabId now|tabId st tabUrl|tabId|i apiKey now
    |i outcome now]; simpl.
  - unfold on_PAGE_DATA. case_bool_decide; [|by left].
    destruct (cached w tabId (pd_url data) now); by left.
  - by left.
  - by left.
  - unfold on_GO_BACK_TAB. case_bool_decide; by left.
  - destruct (decide (tabId = 0)) as [->|Hne];
      [rewrite on_PROCEED_ANYWAY_not_found by auto; by left|].
    destruct (tabAnalysisResults w !! tabId) as [[|existing]|] eqn:Hrec;
      [rewrite on_PROCEED_ANYWAY_not_found by auto; by left| |
       rewrite on_PROCEED_ANYWAY_not_found by auto; by left].
    rewrite (on_PROCEED_ANYWAY_found _ _ _ existing) by done. cbn [world].
    intros [Hold|[-> <-]]%Hset; [by left|].
    right; left. by exists now, existing.
  - unfold on_tabs_onUpdated. destruct st as [st|], tabUrl as [u|]; try by left.
    destruct (_ && _ && _); [|by left].
    destruct (tabAnalysisResults w !! tabId) as [[|r0]|] eqn:Hr; try by left.
    case_bool_decide; [|by left]. simpl. rewrite lookup_insert.
    case_decide; [done | by left].
  - rewrite lookup_delete. case_decide; [done | by left].
  - unfold on_ApiKeyRead.
    destruct (tasks w !! i) as [[pageData tabId|pageData tabId]|] eqn:Hi; try by left.
    rewrite bind_modify. destruct apiKey as [key|e]; [|by left].
    rewrite lift_Ok_bind.
    destruct (analyzeWithAI_key_cases pageData tabId key now (resume i w))
      as [[Hk ->]|[(Hk & Hw & ->)|[(Hk & Hw & Hp & ->)
          |(_ & _ & _ & [(e & _ & ->)|[(p & e & _ & _ & ->)|(p & t & _ & _ & ->)]])]]];
      cbn [world recorded]; try by left.
    + intros [Hold|[-> <-]]%Hset; [by left|]. discriminate Hsafe.
    + intros [Hold|[-> <-]]%Hset; [by left|].
      right; right; left. exists i, pageData, key, now.
      do 3 (split; [done|]). split; [by left | done].
    + intros [Hold|[-> <-]]%Hset; [by left|].
      right; right; left. exists i, pageData, key, now.
      do 3 (split; [done|]). split; [right; exact Hp | done].
  - unfold on_FetchSettled.
    destruct (tasks w !! i) as [[pageData tabId|pageData tabId]|] eqn:Hi; try by left.
    rewrite bind_modify.
    destruct (analyzeWithAI_settled_cases pageData tabId outcome now (resume i w))
      as (d & _ & Horigin & _ & Hd). cbv zeta in Hd.
    destruct d as [e|st expl].
    + rewrite Hd. cbn [world recorded].
      intros [Hold|[-> <-]]%Hset; [by left|]. discriminate Hsafe.
    + destruct Hd as [[-> _]|(e & _ & _ & ->)].
      * rewrite updateTabStatus_world.
        intros [Hold|[-> <-]]%Hset; [by left|]. simpl in Hsafe. subst st.
        destruct Horigin as [[=]|(text & n & -> & Hsays & Hn)].
        right; right; right. exists i, pageData, text, now.
        destruct (includes KNOWN_STATUSES n); [by subst n | discriminate Hn].
      * cbn [world].
        intros [Hold|[-> <-]]%Hset; [by left|]. discriminate Hsafe.
Qed.

End Verdicts.

Section Notifications.
Context `{Engine}.

(** ** Notifications *)

Lemma recorded_no_notification tabId r w e :
  e ∈ emitted (recorded tabId r w) → is_notification e = false.
Proof. intros ->%list_elem_of_singleton. reflexivity. Qed.

(** X11: The three places where the program creates a notification.  Among
    the events of the coordinator, one is raised only when the answer of the
    classifier arrives and its verdict, as recorded, is DANGEROUS or
    SUSPICIOUS: it is for the tab and the page of the request, its message
    carries the explanation cut to 100 characters, the DANGEROUS one has
    priority 2 and the two buttons, the SUSPICIOUS one priority 1 and none;
    no failure, no whitelisted or proceeded page and no message from the
    popup raises one.  The button listener raises one only for the View
    Details button of a notification whose id names a tab: the one that
    points to the toolbar icon, of priority 0.  The downloads listener raises
    the download alert, of priority 2. *)
Theorem notification_matches_verdict (toString_unsafe : Z → string) :
  (∀ ev w tabId suffix title body priority buttons,
     notifications_create tabId suffix title body priority buttons ∈ effects_of ev w →
     ∃ i pageData resultText now r details n,
       ev = FetchSettled i (HttpOk (Ok resultText)) now
       ∧ tasks w !! i = Some (AwaitFetch pageData tabId)
       ∧ tabAnalysisResults (step ev w) !! tabId = Some (Rec r)
       ∧ url r = pd_url pageData
       ∧ classifier_says resultText n
       ∧ status r = (if includes KNOWN_STATUSES n then n else "SUSPICIOUS")
       ∧ truncated (explanation r) 100 = Ok details
       ∧ body = alert_message (url r) (status r) details
       ∧ ((status r = "DANGEROUS" ∧ suffix = "_trinetra_danger"
           ∧ title = "Trinetra Alert: DANGEROUS Site!"
           ∧ priority = 2 ∧ buttons = ["Go Back"; "View Details"])
          ∨ (status r = "SUSPICIOUS" ∧ suffix = "_trinetra_suspicious"
             ∧ title = "Trinetra Warning: Suspicious Site"
             ∧ priority = 1 ∧ buttons = [])))
  ∧ (∀ id buttonIndex n,
       notifications_create_basic n ∈ onButtonClicked toString_unsafe id buttonIndex →
       buttonIndex = 1
       ∧ ∃ tabId, parseInt (before_separator "_" id) = Some tabId
           ∧ n = popup_info toString_unsafe tabId
           ∧ n_id n = Z_toString toString_unsafe tabId +:+ "_trinetra_popup_info"
           ∧ n_priority n = 0)
  ∧ (∀ toLowerCase downloadItem alert,
       downloads_onCreated toString_unsafe toLowerCase downloadItem = Some alert →
       n_id alert
       = "trinetra_download_alert_" +:+ Z_toString toString_unsafe (di_id downloadItem)
       ∧ n_title alert = "Trinetra: Suspicious Download!"
       ∧ n_priority alert = 2).
Proof.
  split; [|split].
  { intros ev w tabId suffix title body priority buttons.
    set (e := notifications_create tabId suffix title body priority buttons).
    assert (is_notification e = true) as He by reflexivity.
    assert (∀ es, e ∈ es → forallb (λ x, negb (is_notification x)) es = true → False)
      as Hnone.
    { intros es Hin Hall. rewrite forallb_forall in Hall.
      apply list_elem_of_In, Hall in Hin. by rewrite He in Hin. }
    unfold step, effects_of. destruct ev as
      [[tabId'|] data now|tabId'|tabId'|tabId' now|tabId' st tabUrl|tabId'|i apiKey now
      |i outcome now]; simpl; intros Hin.
    - exfalso. apply (Hnone _ Hin). unfold on_PAGE_DATA. case_bool_decide; [|done].
      by destruct (cached w tabId' (pd_url data) now).
    - exfalso. by apply (Hnone _ Hin).
    - exfalso. by apply (Hnone _ Hin).
    - exfalso. apply (Hnone _ Hin). unfold on_GO_BACK_TAB. by case_bool_decide.
    - exfalso. apply (Hnone _ Hin). destruct (decide (tabId' = 0)) as [->|Hne];
        [by rewrite on_PROCEED_ANYWAY_not_found by auto|].
      destruct (tabAnalysisResults w !! tabId') as [[|existing]|] eqn:Hrec;
        [by rewrite on_PROCEED_ANYWAY_not_found by auto| |
         by rewrite on_PROCEED_ANYWAY_not_found by auto].
      by rewrite (on_PROCEED_ANYWAY_found _ _ _ existing) by done.
    - exfalso. apply (Hnone _ Hin). unfold on_tabs_onUpdated.
      destruct st as [st|], tabUrl as [u|]; try done.
      destruct (_ && _ && _); [|done].
      destruct (tabAnalysisResults w !! tabId') as [[|r]|]; try done.
      by case_bool_decide.
    - exfalso. by apply (Hnone _ Hin).
    - exfalso. apply (Hnone _ Hin). unfold on_ApiKeyRead.
      destruct (tasks w !! i) as [[pageData tabId'|pageData tabId']|]; try done.
      rewrite bind_modify. destruct apiKey as [key|e']; [|done].
      rewrite lift_Ok_bind.
      by destruct (analyzeWithAI_key_cases pageData tabId' key now (resume i w))
        as [[_ ->]|[(_ & _ & ->)|[(_ & _ & _ & ->)
            |(_ & _ & _ & [(e' & _ & ->)|[(p & e' & _ & _ & ->)|(p & t & _ & _ & ->)]])]]].
    - revert Hin. unfold on_FetchSettled.
      destruct (tasks w !! i) as [[pageData tabId'|pageData tabId']|] eqn:Hi;
        try (intros Hin; exfalso; by apply (Hnone _ Hin)).
      rewrite bind_modify.
      destruct (analyzeWithAI_settled_cases pageData tabId' outcome now (resume i w))
        as (d & _ & Horigin & _ & Hd). cbv zeta in Hd.
      destruct d as [e'|st expl];
        [rewrite Hd; intros Hin; exfalso; by apply (Hnone _ Hin)|].
      destruct Hd as [[-> _]|(e' & _ & _ & ->)];
        [|intros Hin; exfalso; by apply (Hnone _ Hin)].
      intros Hin.
      assert (st = "DANGEROUS" ∨ st = "SUSPICIOUS") as Hst.
      { destruct (updateTabStatus_cases tabId' (pd_url pageData) st expl now (resume i w))
          as [(_ & _ & Hu)|[(e' & _ & _ & Hu)|[(details & Hst & _)|(details & Hst & _)]]];
          [| |by left|by right]; cbv zeta in Hu; rewrite Hu in Hin;
          exfalso; by apply (Hnone _ Hin). }
      destruct Horigin as [->|(text & n & -> & Hsays & Hn)]; [by destruct Hst|].
      destruct (updateTabStatus_cases tabId' (pd_url pageData) st expl now (resume i w))
        as [(_ & _ & Hu)|[(e' & _ & _ & Hu)|[(details & Hs & Ht & Hu)|(details & Hs & Ht & Hu)]]];
        cbv zeta in Hu; rewrite Hu in Hin |- *; cbn [emitted world] in Hin |- *;
        [exfalso; by apply (Hnone _ Hin)..| |].
      + apply elem_of_cons in Hin as [[=]|Hin].
        apply list_elem_of_singleton in Hin. unfold e in Hin.
        injection Hin as -> -> -> -> -> ->.
        exists i, pageData, text, now, (record (pd_url pageData) st expl now), details, n.
        simpl. rewrite lookup_insert_eq. do 8 (split; [done|]). by left.
      + apply elem_of_cons in Hin as [[=]|Hin].
        apply list_elem_of_singleton in Hin. unfold e in Hin.
        injection Hin as -> -> -> -> -> ->.
        exists i, pageData, text, now, (record (pd_url pageData) st expl now), details, n.
        simpl. rewrite lookup_insert_eq. do 8 (split; [done|]). by right.
  }
  { intros id buttonIndex n Hin. unfold onButtonClicked in Hin.
    destruct (parseInt (before_separator "_" id)) as [tabId|] eqn:Hid.
    - destruct (Z.eqb_spec buttonIndex 0) as [->|H0].
      { repeat (apply elem_of_cons in Hin as [[=]|Hin]). by apply elem_of_nil in Hin. }
      destruct (Z.eqb_spec buttonIndex 1) as [->|H1].
      + apply elem_of_cons in Hin as [[=]|Hin].
        apply elem_of_cons in Hin as [[=]|Hin].
        apply list_elem_of_singleton in Hin. injection Hin as ->.
        split; [done|]. by exists tabId.
      + apply list_elem_of_singleton in Hin. discriminate Hin.
    - apply list_elem_of_singleton in Hin. discriminate Hin. }
  { intros toLowerCase downloadItem alert. unfold downloads_onCreated.
    destruct (existsb _ _); [|done]. by intros [= <-]. }
Qed.

(** ** Closed tabs and navigation *)

(** X12: Closing a tab deletes its slot but not the analysis in flight: when the
    answer arrives, a record for the closed tab is written again. *)
Theorem closed_tab_record_reappears w i pageData T outcome now :
  tasks w !! i = Some (AwaitFetch pageData T) →
  let w1 := step (tabs_onRemoved T) w in
  let w2 := step (FetchSettled i outcome now) w1 in
  tabAnalysisResults w1 !! T = None
  ∧ tasks w1 = tasks w
  ∧ ∃ st expl, In st VERDICTS
      ∧ tabAnalysisResults w2 !! T = Some (Rec (record (pd_url pageData) st expl now)).
Proof.
  intros Hi. cbv zeta.
  assert (step (tabs_onRemoved T) w = delete_result T w) as -> by reflexivity.
  split; [simpl; by rewrite lookup_delete_eq|]. split; [done|].
  unfold step.
  rewrite (FetchSettled_resumes (delete_result T w) i pageData T) by done.
  destruct (analyzeWithAI_settled_spec pageData T outcome now
              (resume i (delete_result T w)))
    as (_ & _ & st & expl & Hst & _ & ->).
  exists st, expl. split; [done|]. cbn. by rewrite lookup_insert_eq.
Qed.

(** X13: After a navigation to another domain has emptied the slot, the next page
    data of the tab always starts an analysis: no record is reused, not even
    for a page that was proceeded to, and the tab reads as pending until the
    analysis ends. *)
Theorem navigation_forces_fresh_analysis w T r u data now :
  T ≠ 0 →
  tabAnalysisResults w !! T = Some (Rec r) →
  startsWith u "http://" = true ∨ startsWith u "https://" = true →
  getDomain (url r) ≠ getDomain u →
  let w1 := step (tabs_onUpdated T (Some "complete") (Some u)) w in
  let w2 := step (PAGE_DATA (Some T) data now) w1 in
  getStatus w1 T = PENDING_PLACEHOLDER
  ∧ sessionProceededUrls w1 = sessionProceededUrls w
  ∧ effects_of (PAGE_DATA (Some T) data now) w1
    = [sendResponse (ReplyStatus "Trinetra analysis initiated with Gemini 1.5 Flash.")]
  ∧ tasks w2 = (tasks w ++ [AwaitApiKey data T])%list
  ∧ getStatus w2 T = PENDING_PLACEHOLDER.
Proof.
  intros HT Hr Hhttp Hdom.
  assert (step (tabs_onUpdated T (Some "complete") (Some u)) w = set_result T Null w)
    as ->.
  { unfold step. simpl. unfold on_tabs_onUpdated.
    assert (String.eqb u "" = false) as ->.
    { destruct u; [|done]. by destruct Hhttp. }
    assert (startsWith u "http://" || startsWith u "https://" = true) as ->.
    { destruct Hhttp as [-> | ->]; [done|by rewrite orb_true_r]. }
    simpl. by rewrite Hr, bool_decide_eq_true_2. }
  cbv zeta. unfold step, effects_of.
  rewrite PAGE_DATA_starts_analysis; [|done|].
  - unfold getStatus. simpl. by rewrite lookup_insert_eq.
  - unfold cached. simpl. by rewrite lookup_insert_eq.
Qed.

(** X14: A navigation within the domain of the record, the leading www. apart,
    leaves the record where it is: the tab keeps reading as the page it
    left, also while the page it went to is being analyzed. *)
Theorem same_domain_navigation_keeps_verdict w T r host changeStatus u data now :
  T ≠ 0 →
  tabAnalysisResults w !! T = Some (Rec r) →
  URL_hostname (url r) = Some ("www." +:+ host) →
  URL_hostname u = Some host → startsWith host "www." = false →
  pd_url data ≠ url r →
  let ev := tabs_onUpdated T changeStatus (Some u) in
  let w2 := step (PAGE_DATA (Some T) data now) (step ev w) in
  step ev w = w
  ∧ getStatus w2 T = Found r
  ∧ tasks w2 = (tasks w ++ [AwaitApiKey data T])%list.
Proof.
  intros HT Hr Hwww Hhost Hbare Hurl.
  assert (getDomain (url r) = getDomain u) as Hdom.
  { unfold getDomain. rewrite Hwww, Hhost. simpl. f_equal.
    unfold strip_www. rewrite Hbare.
    change (startsWith ("www." +:+ host) "www.") with (String.prefix "" host).
    assert (String.prefix "" host = true) as -> by (by destruct host).
    change (String.substring 4 (String.length ("www." +:+ host) - 4) ("www." +:+ host))
      with (String.substring 0 (String.length host - 0) host).
    by rewrite Nat.sub_0_r, substring_all. }
  assert (step (tabs_onUpdated T changeStatus (Some u)) w = w) as Hstep.
  { unfold step. simpl. unfold on_tabs_onUpdated.
    destruct changeStatus as [st|]; [|done].
    destruct (_ && _ && _); [|done].
    by rewrite Hr, bool_decide_eq_false_2 by (by intros ?). }
  cbv zeta. rewrite Hstep. split; [done|].
  unfold step. rewrite PAGE_DATA_starts_analysis; [|done|].
  - unfold getStatus. simpl. by rewrite Hr.
  - unfold cached. rewrite Hr.
    by rewrite (proj2 (String.eqb_neq _ _)) by (by intros ?).
Qed.

End Notifications.

(** * Properties of the string functions *)

Section Strings.
Context `{Engine}.

Lemma append_String c s t : String c s +:+ t = String c (s +:+ t).
Proof. reflexivity. Qed.

Lemma length_append s t :
  String.length (s +:+ t) = (String.length s + String.length t)%nat.
Proof.
  induction s as [|c s IH]; [done|]. rewrite append_String. simpl. by rewrite IH.
Qed.

Lemma substring_append_r p q m :
  String.substring (String.length p) m (p +:+ q) = String.substring 0 m q.
Proof. induction p as [|c p IH]; [done|]. rewrite append_String. exact IH. Qed.

Lemma substring_split s k :
  (k ≤ String.length s)%nat →
  s = String.substring 0 k s +:+ String.substring k (String.length s - k) s.
Proof.
  revert k. induction s as [|c s IH]; intros k Hk.
  - by destruct k.
  - destruct k as [|k].
    + change (String c s = String.substring 0 (String.length (String c s)) (String c s)).
      by rewrite substring_all.
    + simpl in Hk. simpl. rewrite append_String. f_equal. apply IH. lia.
Qed.


Lemma endsWith_spec s suf : endsWith s suf = true ↔ ∃ p, s = p +:+ suf.
Proof.
  unfold endsWith. split.
  - intros [Hle Heq]%andb_true_iff. apply Nat.leb_le in Hle.
    apply String.eqb_eq in Heq.
    exists (String.substring 0 (String.length s - String.length suf) s).
    pose proof (substring_split s (String.length s - String.length suf)) as Hs.
    replace (String.length s - (String.length s - String.length suf))%nat
      with (String.length suf) in Hs by lia.
    rewrite Heq in Hs. apply Hs. lia.
  - intros [p ->]. rewrite length_append. apply andb_true_iff. split.
    + apply Nat.leb_le. lia.
    + replace (String.length p + String.length suf - String.length suf)%nat
        with (String.length p) by lia.
      rewrite substring_append_r, substring_all. apply String.eqb_refl.
Qed.

(** ** truncateText *)


(** ** The whitelist test *)

(** X16: A page is treated as whitelisted exactly when its address parses and the
    hostname, a leading www. removed, ends with the characters of an entry:
    the entry itself, any subdomain of it, and any other name with that
    ending. *)
Theorem whitelisted_iff_suffix (u : string) :
  whitelisted u = true
  ↔ ∃ host entry front,
      URL_hostname u = Some host
      ∧ In entry WHITELISTED_DOMAINS
      ∧ strip_www host = front +:+ entry.
Proof.
  split.
  - unfold whitelisted, getDomain. destruct (URL_hostname u) as [host|]; [|done].
    cbn [fmap option_fmap option_map]. intros [_ Hsome]%andb_true_iff.
    apply existsb_exists in Hsome as (entry & Hin & [front Hends]%endsWith_spec).
    by exists host, entry, front.
  - intros (host & entry & front & Hhost & Hin & Hends).
    apply (whitelisted_intro u (strip_www host) entry); [|done|].
    + unfold getDomain. by rewrite Hhost.
    + apply endsWith_spec. by exists front.
Qed.

End Strings.

(** * Properties of the page data *)

Section PageLists.

Lemma extract_links_from origin hrefs (acc : list string) :
  (length acc ≤ 20)%nat →
  fold_left
    (λ (links : list string) href,
       if (List.length links <? 20)%nat && external_link origin href
       then (links ++ [href])%list else links)
    hrefs acc
  = (acc ++ take (20 - length acc) (List.filter (external_link origin) hrefs))%list.
Proof.
  revert acc. induction hrefs as [|href hrefs IH]; intros acc Hacc; simpl.
  - by rewrite take_nil, app_nil_r.
  - destruct (external_link origin href) eqn:Hext.
    + destruct (Nat.ltb_spec (length acc) 20) as [Hlt|Hge]; simpl.
      * rewrite IH by (rewrite length_app; simpl; lia).
        rewrite length_app. simpl.
        replace (20 - length acc)%nat with (S (20 - (length acc + 1))) by lia.
        simpl. by rewrite <- app_assoc.
      * rewrite IH by done.
        by replace (20 - length acc)%nat with 0%nat by lia.
    + rewrite andb_false_r. by apply IH.
Qed.

Lemma extract_links_take origin hrefs :
  extract_links origin hrefs = take 20 (List.filter (external_link origin) hrefs).
Proof. unfold extract_links. by rewrite extract_links_from by (simpl; lia). Qed.

Lemma extract_links_external origin hrefs :
  Forall (λ href, external_link origin href = true ∧ href ∈ hrefs)
    (extract_links origin hrefs).
Proof.
  rewrite extract_links_take.
  apply Forall_forall. intros href Hin%(subseteq_take 20).
  apply list_elem_of_In, filter_In in Hin as [Hin Hext].
  split; [done|]. by apply list_elem_of_In.
Qed.

(** X17: content.js sends the first twenty of the page's links that are not
    empty, start with http: or https:// and do not start with the page's
    origin, in document order. *)
Theorem extract_links_spec (origin : string) (hrefs : list string) :
  extract_links origin hrefs = take 20 (List.filter (external_link origin) hrefs)
  ∧ (length (extract_links origin hrefs) ≤ 20)%nat
  ∧ Forall (λ href, external_link origin href = true ∧ href ∈ hrefs)
      (extract_links origin hrefs).
Proof.
  split; [apply extract_links_take|]. split; [|apply extract_links_external].
  rewrite extract_links_take, length_take. lia.
Qed.

Lemma prefix_String a p b s :
  String.prefix (String a p) (String b s)
  = if ascii_dec a b then String.prefix p s else false.
Proof. reflexivity. Qed.

Lemma prefix_head a p s :
  String.prefix (String a p) s = true → ∃ s', s = String a s' ∧ String.prefix p s' = true.
Proof.
  destruct s as [|b s]; [done|]. rewrite prefix_String.
  destruct (ascii_dec a b) as [<-|]; [|done]. eauto.
Qed.

Lemma not_from_origin_h s : not_from_origin (String "h" s) = true.
Proof.
  unfold not_from_origin, startsWith. rewrite prefix_String.
  by destruct (ascii_dec "u" "h").
Qed.

Lemma http_not_from_origin s :
  startsWith s "http" = true → not_from_origin s = true.
Proof. intros (s' & -> & _)%prefix_head. apply not_from_origin_h. Qed.

Lemma filter_all {A} (p : A → bool) l :
  Forall (λ x, p x = true) l → List.filter p l = l.
Proof.
  induction 1 as [|x l Hx _ IH]; simpl; [done|]. by rewrite Hx, IH.
Qed.

(** X18: The test that should keep scripts of other origins only keeps every
    script: the page's address arrives as a string, which has no origin to
    compare with.  For script addresses as the page script reads them
    (absolute, http or https) the list sent to the classifier is the first
    fifteen scripts of the page, same origin or not. *)
Theorem script_filter_keeps_same_origin (pageData : PageData) :
  Forall (λ s, startsWith s "http" = true) (pd_scripts pageData) →
  external_script_urls pageData = take 15 (pd_scripts pageData).
Proof.
  intros Hall. unfold external_script_urls. f_equal. apply filter_all.
  eapply Forall_impl; [exact Hall|]. apply http_not_from_origin.
Qed.

(** X19: The links content.js collected pass the test of the payload unchanged:
    what the classifier is sent are the first fifteen of them. *)
Theorem links_sample_of_page (origin : string) (hrefs : list string)
    (pageData : PageData) :
  pd_links pageData = extract_links origin hrefs →
  external_links_sample pageData
  = take 15 (List.filter (external_link origin) hrefs).
Proof.
  intros Hlinks. unfold external_links_sample. rewrite Hlinks.
  pose proof (extract_links_external origin hrefs) as Hall.
  rewrite filter_all.
  - by rewrite extract_links_take, take_take.
  - eapply Forall_impl; [exact Hall|]. intros href [Hext _].
    unfold external_link in Hext.
    apply andb_true_iff in Hext as [[_ Hhttp]%andb_true_iff _].
    apply orb_true_iff in Hhttp as [(s' & -> & _)%prefix_head|(s' & -> & _)%prefix_head];
      apply not_from_origin_h.
Qed.

Section Resolution.
Variable URL_href : string → string → option string.

(** X20: One form action that [new URL] rejects makes the whole payload fail,
    wherever the form stands in the page, because every form is resolved
    before seven are kept; an iframe source can only do so among the first
    seven that are not empty.  Otherwise seven of each are sent at most. *)
Theorem form_details_all_or_nothing (pageData : PageData) :
  (form_details URL_href pageData = None
   ↔ ∃ f, f ∈ pd_forms pageData ∧ action f ≠ ""
          ∧ URL_href (action f) (pd_url pageData) = None)
  ∧ (iframe_sources URL_href pageData = None
     ↔ ∃ s, s ∈ take 7 (List.filter (λ s, negb (String.eqb s "")) (pd_iframes pageData))
            ∧ URL_href s (pd_url pageData) = None)
  ∧ (∀ l, form_details URL_href pageData = Some l →
          length l = Nat.min 7 (length (pd_forms pageData)))
  ∧ (∀ l, iframe_sources URL_href pageData = Some l → (length l ≤ 7)%nat).
Proof.
  unfold form_details, iframe_sources. repeat split.
  - intros Hnone. apply fmap_None, mapM_None, Exists_exists in Hnone
      as (f & Hin & Hf).
    exists f. split; [done|]. unfold form_detail in Hf.
    destruct (String.eqb_spec (action f) ""); [done|].
    split; [done|]. by destruct (URL_href (action f) (pd_url pageData)).
  - intros (f & Hin & Hne & Hf). apply fmap_None, mapM_None, Exists_exists.
    exists f. split; [done|]. unfold form_detail.
    by rewrite (proj2 (String.eqb_neq _ _)), Hf by done.
  - intros Hnone. by apply mapM_None, Exists_exists in Hnone.
  - intros Hex. by apply mapM_None, Exists_exists.
  - intros l Hsome. apply fmap_Some in Hsome as (k & Hk & ->).
    apply length_mapM in Hk. by rewrite length_take, Hk.
  - intros l Hsome. apply length_mapM in Hsome. rewrite <- Hsome, length_take. lia.
Qed.

End Resolution.
End PageLists.

(** * Properties of the notification buttons and of the download alert *)

Section Buttons.

Lemma decimal_digit_cases c :
  is_decimal_digit c = true →
  c ∈ ["0"; "1"; "2"; "3"; "4"; "5"; "6"; "7"; "8"; "9"]%char.
Proof.
  destruct c as [[] [] [] [] [] [] [] []]; intros Hc; try discriminate Hc;
    set_solver.
Qed.

Ltac each_digit H :=
  apply decimal_digit_cases in H;
  repeat (apply elem_of_cons in H as [->|H]); [..|by apply elem_of_nil in H].

Lemma pretty_N_char_decimal r : is_decimal_digit (pretty.pretty_N_char r) = true.
Proof. unfold pretty.pretty_N_char. by repeat case_match. Qed.

Lemma digit_value_pretty r :
  (r < 10)%N → digit_value 10 (pretty.pretty_N_char r) = Some (Z.of_N r).
Proof.
  intros Hr.
  assert (r = 0 ∨ r = 1 ∨ r = 2 ∨ r = 3 ∨ r = 4 ∨ r = 5 ∨ r = 6 ∨ r = 7 ∨ r = 8
          ∨ r = 9)%N as Hcases by lia.
  repeat (destruct Hcases as [->|Hcases]; [reflexivity|]). subst. reflexivity.
Qed.

Lemma pretty_N_go_decimal x s :
  all_chars is_decimal_digit s = true →
  all_chars is_decimal_digit (pretty.pretty_N_go x s) = true.
Proof.
  revert s. induction (N.lt_wf_0 x) as [x _ IH]; intros s Hs.
  assert (x = 0 ∨ 0 < x)%N as [->|Hx] by lia; [by rewrite pretty.pretty_N_go_0|].
  rewrite pretty.pretty_N_go_step by done.
  apply IH; [by apply N.div_lt|]. simpl. by rewrite pretty_N_char_decimal.
Qed.

Lemma pretty_N_go_extends x c s : ∃ c' s', pretty.pretty_N_go x (String c s) = String c' s'.
Proof.
  revert c s. induction (N.lt_wf_0 x) as [x _ IH]; intros c s.
  assert (x = 0 ∨ 0 < x)%N as [->|Hx] by lia; [rewrite pretty.pretty_N_go_0; eauto|].
  rewrite pretty.pretty_N_go_step by done. apply IH. by apply N.div_lt.
Qed.

Lemma parse_digits_pretty x s acc :
  (0 < x)%N →
  ∃ k, parse_digits 10 acc (pretty.pretty_N_go x s)
       = parse_digits 10 (Some (default 0 acc * 10 ^ Z.of_nat k + Z.of_N x)) s.
Proof.
  revert s acc. induction (N.lt_wf_0 x) as [x _ IH]; intros s acc Hx.
  rewrite pretty.pretty_N_go_step by done.
  assert (x `mod` 10 < 10)%N as Hmod by (by apply N.mod_lt).
  pose proof (N.div_mod x 10) as Hdiv.
  assert (x `div` 10 = 0 ∨ 0 < x `div` 10)%N as [Hq|Hq] by lia.
  - rewrite Hq, pretty.pretty_N_go_0. exists 1%nat. simpl.
    rewrite digit_value_pretty by done. do 2 f_equal. lia.
  - destruct (IH (x `div` 10)%N (N.div_lt x 10 Hx eq_refl)
                (String (pretty.pretty_N_char (x `mod` 10)) s) acc Hq) as [k ->].
    exists (S k). simpl parse_digits. rewrite digit_value_pretty by done.
    do 2 f_equal. simpl default. rewrite Nat2Z.inj_succ, Z.pow_succ_r by lia. lia.
Qed.

(** The decimal digits of a positive number: not empty, digits only, and
    read back as the number. *)
Lemma pretty_positive_spec (x : positive) :
  ∃ c s, pretty.pretty (N.pos x) = String c s
         ∧ all_chars is_decimal_digit (String c s) = true
         ∧ parse_digits 10 None (String c s) = Some (Z.pos x).
Proof.
  unfold pretty.pretty, pretty.pretty_N. rewrite decide_False by done.
  rewrite pretty.pretty_N_go_step by done.
  destruct (pretty_N_go_extends (N.pos x `div` 10)
              (pretty.pretty_N_char (N.pos x `mod` 10)) "") as (c & s & Heq).
  exists c, s. split; [done|].
  rewrite <- Heq, <- pretty.pretty_N_go_step by done. split.
  - by apply pretty_N_go_decimal.
  - destruct (parse_digits_pretty (N.pos x) "" None) as [k ->]; [done|].
    simpl. do 2 f_equal.
Qed.

Lemma parseInt_decimal c s :
  all_chars is_decimal_digit (String c s) = true →
  parseInt (String c s) = parse_digits 10 None (String c s)
  ∧ parseInt (String "-" (String c s))
    = (λ v, - v) <$> parse_digits 10 None (String c s).
Proof.
  intros Hdec. cbn [all_chars] in Hdec. apply andb_true_iff in Hdec as [Hc Hs].
  assert (startsWith (String c s) "0x" || startsWith (String c s) "0X" = false) as Hhex.
  { unfold startsWith. rewrite !prefix_String.
    destruct (ascii_dec "0" c) as [<-|]; [|done].
    destruct s as [|c2 s]; [done|]. simpl in Hs.
    apply andb_true_iff in Hs as [Hc2 _]. rewrite !prefix_String.
    each_digit Hc2; reflexivity. }
  split.
  - unfold parseInt.
    assert (skip_white_space (String c s) = String c s) as ->.
    { simpl. by each_digit Hc. }
    assert (match String c s with
            | String "-" r => (-1, r)
            | String "+" r => (1, r)
            | _ => (1, String c s)
            end = (1, String c s)) as -> by (by each_digit Hc).
    rewrite Hhex. cbv beta iota zeta.
    destruct (parse_digits 10 None (String c s)) as [v|]; [|done].
    simpl. f_equal. lia.
  - unfold parseInt.
    change (skip_white_space (String "-" (String c s))) with (String "-" (String c s)).
    cbv beta iota zeta. rewrite Hhex. cbv beta iota zeta.
    destruct (parse_digits 10 None (String c s)) as [v|]; [|done].
    simpl. f_equal. all: lia.
Qed.

Lemma parseInt_pretty (n : Z) : parseInt (pretty.pretty n) = Some n.
Proof.
  unfold pretty.pretty, pretty.pretty_Z. destruct n as [|x|x].
  - reflexivity.
  - destruct (pretty_positive_spec x) as (c & s & Heq & Hdec & Hval).
    change (pretty.pretty x) with (pretty.pretty (N.pos x)). rewrite Heq.
    destruct (parseInt_decimal c s Hdec) as [-> _]. done.
  - destruct (pretty_positive_spec x) as (c & s & Heq & Hdec & Hval).
    change (pretty.pretty x) with (pretty.pretty (N.pos x)). rewrite Heq.
    change ("-" +:+ String c s) with (String "-" (String c s)).
    destruct (parseInt_decimal c s Hdec) as [_ ->]. by rewrite Hval.
Qed.

Lemma before_separator_append sep d rest :
  all_chars (λ c, negb (Ascii.eqb c sep)) d = true →
  before_separator sep (d +:+ String sep rest) = d.
Proof.
  induction d as [|c d IH]; intros Hall.
  - change ("" +:+ String sep rest) with (String sep rest).
    cbn [before_separator]. by rewrite Ascii.eqb_refl.
  - cbn [all_chars] in Hall. apply andb_true_iff in Hall as [Hc Hd].
    rewrite append_String. cbn [before_separator].
    apply negb_true_iff in Hc. rewrite Hc. by rewrite IH.
Qed.

Lemma all_chars_impl (p q : ascii → bool) s :
  (∀ c, p c = true → q c = true) → all_chars p s = true → all_chars q s = true.
Proof.
  intros Hpq. induction s as [|c s IH]; simpl; [done|].
  intros [Hc Hs]%andb_true_iff. by rewrite (Hpq c Hc), IH.
Qed.

Lemma pretty_no_underscore (n : Z) :
  all_chars (λ c, negb (Ascii.eqb c "_")) (pretty.pretty n) = true.
Proof.
  assert (∀ c, is_decimal_digit c = true → negb (Ascii.eqb c "_") = true) as Hdigit.
  { intros c Hc. by each_digit Hc. }
  unfold pretty.pretty, pretty.pretty_Z. destruct n as [|x|x].
  - reflexivity.
  - destruct (pretty_positive_spec x) as (c & s & Heq & Hdec & _).
    change (pretty.pretty x) with (pretty.pretty (N.pos x)). rewrite Heq.
    by apply (all_chars_impl is_decimal_digit).
  - destruct (pretty_positive_spec x) as (c & s & Heq & Hdec & _).
    change (pretty.pretty x) with (pretty.pretty (N.pos x)). rewrite Heq.
    change ("-" +:+ String c s) with (String "-" (String c s)).
    change (all_chars (λ c, negb (Ascii.eqb c "_")) (String c s) = true).
    by apply (all_chars_impl is_decimal_digit).
Qed.

Section SafeIds.
Variable toString_unsafe : Z → string.

Lemma Z_toString_safe (n : Z) :
  Z.abs n < 2 ^ 53 → Z_toString toString_unsafe n = pretty.pretty n.
Proof. intros Hn. unfold Z_toString. by rewrite (proj2 (Z.ltb_lt _ _) Hn). Qed.

(** X21: The buttons of a notification act on the tab the notification was raised
    for, as long as the tab id is a safe integer (below 2^53 in magnitude):
    the id [updateTabStatus] builds from the tab id is read back to that tab
    id, so Go Back navigates that tab back and View Details brings it to the
    front and then raises the notification that points to the toolbar icon,
    under an id built from the same tab id; any other button index only
    clears the notification.  Beyond the safe integers this fails: where
    [toString] gives 1e+21, the buttons act on tab 1. *)
Theorem button_acts_on_notified_tab (tabId : Z) (rest : string) (buttonIndex : Z) :
  Z.abs tabId < 2 ^ 53 →
  let id := notificationId toString_unsafe tabId (String "_" rest) in
  (parseInt (before_separator "_" id) = Some tabId
   ∧ onButtonClicked toString_unsafe id 0 = [goBack tabId; notifications_clear id]
   ∧ onButtonClicked toString_unsafe id 1
     = [ activate tabId; notifications_clear id;
         notifications_create_basic (popup_info toString_unsafe tabId) ]
   ∧ n_id (popup_info toString_unsafe tabId)
     = notificationId toString_unsafe tabId "_trinetra_popup_info"
   ∧ (buttonIndex ≠ 0 → buttonIndex ≠ 1 →
      onButtonClicked toString_unsafe id buttonIndex = [notifications_clear id]))
  ∧ (∀ n, (2 ^ 53 ≤ Z.abs n)%Z → toString_unsafe n = "1e+21" →
       onButtonClicked toString_unsafe
         (notificationId toString_unsafe n (String "_" rest)) 0
       = [ goBack 1;
           notifications_clear (notificationId toString_unsafe n (String "_" rest)) ]).
Proof.
  intros Hsafe. cbv zeta. split.
  - assert (parseInt (before_separator "_"
                        (notificationId toString_unsafe tabId (String "_" rest)))
            = Some tabId) as Hid.
    { unfold notificationId. rewrite Z_toString_safe by done.
      rewrite before_separator_append by apply pretty_no_underscore.
      apply parseInt_pretty. }
    unfold onButtonClicked. rewrite Hid. split; [done|]. do 3 (split; [reflexivity|]).
    intros H0 H1. apply Z.eqb_neq in H0, H1. by rewrite H0, H1.
  - intros n Hn Hexp. unfold notificationId, Z_toString.
    rewrite (proj2 (Z.ltb_ge _ _) Hn), Hexp. reflexivity.
Qed.

End SafeIds.

End Buttons.

Section DownloadAlert.
Variable toString_unsafe : Z → string.
Variable toLowerCase : string → string.

Lemma lastIndexOf_from_absent c s i found :
  all_chars (λ a, negb (Ascii.eqb a c)) s = true →
  lastIndexOf_from c s i found = found.
Proof.
  revert i found. induction s as [|a s IH]; intros i found; simpl; [done|].
  intros [Ha Hs]%andb_true_iff. apply negb_true_iff in Ha. rewrite Ha. by apply IH.
Qed.

Lemma lastIndexOf_from_append c p rest i found :
  all_chars (λ a, negb (Ascii.eqb a c)) rest = true →
  lastIndexOf_from c (p +:+ String c rest) i found = i + Z.of_nat (String.length p).
Proof.
  intros Hrest. revert i found. induction p as [|a p IH]; intros i found.
  - change ("" +:+ String c rest) with (String c rest). simpl.
    rewrite Ascii.eqb_refl, lastIndexOf_from_absent by done. lia.
  - rewrite append_String. simpl lastIndexOf_from. rewrite IH.
    simpl String.length. lia.
Qed.

Lemma suspiciousExtensions_shape ext :
  In ext suspiciousExtensions →
  ∃ rest, ext = String "." rest
          ∧ all_chars (λ a, negb (Ascii.eqb a ".")) rest = true.
Proof.
  unfold suspiciousExtensions. simpl.
  intros Hin. repeat (destruct Hin as [<-|Hin]; [by eexists|]). done.
Qed.

(** X22: A download is alerted exactly when its file name, in lower case, ends
    with one of the sixteen extensions; the file type the alert names is that
    extension; and the alert's id names no tab, so a click on it could only
    clear it. *)
Theorem download_alert_names_extension (downloadItem : DownloadItem) :
  let filename := toLowerCase (di_filename downloadItem) in
  (downloads_onCreated toString_unsafe toLowerCase downloadItem = None
   ↔ ∀ ext, In ext suspiciousExtensions → endsWith filename ext = false)
  ∧ ∀ alert, downloads_onCreated toString_unsafe toLowerCase downloadItem = Some alert →
      ∃ ext, In ext suspiciousExtensions ∧ endsWith filename ext = true
        ∧ n_message alert
          = "File: " +:+ di_filename downloadItem +:+ nl
            +:+ "This file type (" +:+ ext
            +:+ ") can be dangerous. Verify the source before opening."
        ∧ n_id alert
          = "trinetra_download_alert_" +:+ Z_toString toString_unsafe (di_id downloadItem)
        ∧ ∀ buttonIndex,
            onButtonClicked toString_unsafe (n_id alert) buttonIndex
            = [notifications_clear (n_id alert)].
Proof.
  cbv zeta. unfold downloads_onCreated.
  destruct (existsb (endsWith (toLowerCase (di_filename downloadItem)))
              suspiciousExtensions) eqn:Hsome.
  - split.
    + split; [done|]. intros Hnone.
      apply existsb_exists in Hsome as (ext & Hin & Hends).
      by rewrite (Hnone ext Hin) in Hends.
    + intros alert [= <-].
      apply existsb_exists in Hsome as (ext & Hin & Hends).
      exists ext. do 2 (split; [done|]).
      destruct (suspiciousExtensions_shape ext Hin) as (rest & -> & Hrest).
      apply endsWith_spec in Hends as [p Hp]. cbn [n_message n_id]. rewrite Hp.
      split; [|split; [done|]].
      * unfold lastIndexOf. rewrite lastIndexOf_from_append by done.
        unfold substring_from.
        replace (Z.to_nat (Z.max 0 (0 + Z.of_nat (String.length p))))
          with (String.length p) by lia.
        rewrite length_append, substring_append_r.
        replace (String.length p + String.length (String "." rest) - String.length p)%nat
          with (String.length (String "." rest)) by lia.
        by rewrite substring_all.
      * intros buttonIndex. reflexivity.
  - split; [|done]. split; [|done]. intros _ ext Hin.
    destruct (endsWith _ ext) eqn:Hends; [|done].
    assert (existsb (endsWith (toLowerCase (di_filename downloadItem)))
              suspiciousExtensions = true) as Htrue
      by (apply existsb_exists; eauto).
    congruence.
Qed.

End DownloadAlert.

(** * Properties of the popup *)

Section PopupProperties.
Context `{Engine}.

Lemma updatePopupUI_verdict (r : VerdictRecord) (p : Popup) :
  complete r →
  let p' := updatePopupUI (Some (Found r)) p in
  currentTabId p' = currentTabId p
  ∧ currentTabUrl p' = Some (url r)
  ∧ explanationText p' = Some (explanation r)
  ∧ statusClass p' ≠ Some "status-pending"
  ∧ (actionsDisplay p' = Some "flex"
     ↔ status r = "SUSPICIOUS" ∨ status r = "DANGEROUS")
  ∧ (actionsDisplay p' = Some "none" ↔ status r = "SAFE" ∨ status r = "ERROR")
  ∧ (statusClass p' = Some "status-safe" ↔ status r = "SAFE").
Proof.
  intros [Hst Hexpl]. unfold updatePopupUI, data_status, data_explanation, data_url.
  rewrite Hexpl. unfold VERDICTS in Hst. simpl in Hst.
  destruct Hst as [<-|[<-|[<-|[<-|[]]]]]; cbn; repeat split; try done;
    try (intros [?|?]; done); try (intros _; by (left + right)).
Qed.

(** X23: For every record the coordinator can hold, the popup opened on the tab
    shows the record's explanation and never the pending state; it offers Go
    Back and Proceed Anyway exactly for SUSPICIOUS and DANGEROUS, and remembers
    the record's page as the one it displays. *)
Theorem popup_shows_stored_verdict w T r p :
  reachable w →
  tabAnalysisResults w !! T = Some (Rec r) →
  let p' := on_status_response (getStatus w T) p in
  currentTabUrl p' = Some (url r)
  ∧ explanationText p' = Some (explanation r)
  ∧ statusClass p' ≠ Some "status-pending"
  ∧ (actionsDisplay p' = Some "flex"
     ↔ status r = "SUSPICIOUS" ∨ status r = "DANGEROUS")
  ∧ (actionsDisplay p' = Some "none" ↔ status r = "SAFE" ∨ status r = "ERROR").
Proof.
  intros Hreach Hr. apply reachable_consistent in Hreach.
  pose proof (records_complete w Hreach T r Hr) as Hc.
  cbv zeta. unfold on_status_response, getStatus. rewrite Hr.
  destruct (updatePopupUI_verdict r p Hc) as (_ & H1 & H2 & H3 & H4 & H5 & _).
  done.
Qed.

(** X24: A popup opened on an http(s) tab that has no record yet asks for the
    status, shows the pending state and forgets which page it is about (the
    placeholder has no url); the next verdict the coordinator broadcasts is
    then displayed, for whatever page and whatever tab it was made. *)
Theorem pending_popup_takes_any_update w T u p r :
  tabAnalysisResults w !! T = None ∨ tabAnalysisResults w !! T = Some Null →
  startsWith u "http:" = true ∨ startsWith u "https://" = true →
  status r ≠ "" →
  let p0 := fst (on_tabs_query T (Some u) p) in
  let p1 := on_status_response (getStatus w T) p0 in
  let p2 := on_UPDATE_POPUP_DATA r p1 in
  snd (on_tabs_query T (Some u) p) = true
  ∧ currentTabUrl p0 = Some u
  ∧ statusClass p1 = Some "status-pending"
  ∧ actionsDisplay p1 = Some "none"
  ∧ currentTabUrl p1 = None
  ∧ p2 = updatePopupUI (Some (Found r)) p1
  ∧ currentTabUrl p2 = Some (url r)
  ∧ currentTabId p2 = Some T.
Proof.
  intros Hslot Hhttp Hst. cbv zeta.
  assert (getStatus w T = PENDING_PLACEHOLDER) as ->.
  { unfold getStatus. by destruct Hslot as [-> | ->]. }
  assert (on_tabs_query T (Some u) p
          = ({| currentTabId := Some T; currentTabUrl := Some u;
                statusClass := statusClass p; statusIcon := statusIcon p;
                statusLine := statusLine p; explanationText := explanationText p;
                actionsDisplay := actionsDisplay p |}, true)) as ->.
  { unfold on_tabs_query, no_url. change (default "" (Some u)) with u.
    assert (String.eqb u "" = false) as ->.
    { destruct u; [|done]. by destruct Hhttp. }
    by destruct Hhttp as [-> | ->]; rewrite ?andb_false_r. }
  cbn [fst snd]. do 5 (split; [reflexivity|]).
  assert (∀ p0, on_UPDATE_POPUP_DATA r (on_status_response PENDING_PLACEHOLDER p0)
                = updatePopupUI (Some (Found r))
                    (on_status_response PENDING_PLACEHOLDER p0)) as Hany
    by reflexivity.
  rewrite Hany. split; [done|].
  unfold updatePopupUI, data_status.
  rewrite (proj2 (String.eqb_neq _ _) Hst).
  repeat case_match; by split.
Qed.

(** X25: A popup that displays the record of a page ignores the verdicts of other
    pages and takes every verdict for that page, whichever tab it was made
    for: the message carries no tab id. *)
Theorem popup_filters_by_url w T r p r' :
  reachable w →
  tabAnalysisResults w !! T = Some (Rec r) →
  url r ≠ "" →
  let p1 := on_status_response (getStatus w T) p in
  (url r' ≠ url r → on_UPDATE_POPUP_DATA r' p1 = p1)
  ∧ (url r' = url r →
     on_UPDATE_POPUP_DATA r' p1 = updatePopupUI (Some (Found r')) p1).
Proof.
  intros Hreach Hr Hurl. apply reachable_consistent in Hreach.
  pose proof (records_complete w Hreach T r Hr) as Hc.
  cbv zeta. unfold on_status_response, getStatus. rewrite Hr.
  destruct (updatePopupUI_verdict r p Hc) as (_ & Hp & _).
  unfold on_UPDATE_POPUP_DATA. rewrite Hp. split.
  - intros Hne. rewrite bool_decide_eq_false_2 by congruence.
    unfold no_url. by rewrite (proj2 (String.eqb_neq _ _) Hurl).
  - intros Heq. by rewrite bool_decide_eq_true_2 by congruence.
Qed.

(** X26: Proceed Anyway, end to end: for a tab that holds a record, the button of
    the popup opened on that tab sends PROCEED_ANYWAY for it; the coordinator
    answers with the override record; the popup then shows the page as safe,
    without the two buttons, and the page is in the override set. *)
Theorem proceed_button_round_trip w T r p now :
  reachable w →
  tabAnalysisResults w !! T = Some (Rec r) →
  currentTabId p = Some T →
  let ev := PROCEED_ANYWAY T now in
  proceedAnywayButton_click p now = Some ev
  ∧ ∃ reply,
      effects_of ev w
      = [sendMessage_UPDATE_POPUP_DATA (override_record (url r) now); sendResponse reply]
      ∧ let p' := on_proceed_response reply p in
        statusClass p' = Some "status-safe"
        ∧ actionsDisplay p' = Some "none"
        ∧ currentTabUrl p' = Some (url r)
        ∧ explanationText p'
          = Some (JStr "You chose to proceed. Trinetra will trust this page for this session.")
        ∧ url r ∈ sessionProceededUrls (step ev w)
        ∧ getStatus (step ev w) T = Found (override_record (url r) now).
Proof.
  intros Hreach Hr Hp. apply reachable_consistent in Hreach.
  assert (T ≠ 0) as HT by (by eapply (tabs_nonzero w Hreach)).
  cbv zeta. split.
  { unfold proceedAnywayButton_click, button_tab.
    by rewrite Hp, bool_decide_eq_true_2. }
  unfold effects_of, step. cbn [handle].
  rewrite (on_PROCEED_ANYWAY_found T now w r) by done.
  eexists. split; [reflexivity|]. cbn.
  repeat split; [set_solver|]. unfold getStatus. cbn. by rewrite lookup_insert_eq.
Qed.

End PopupProperties.

(** * Closed examples of the further properties *)

Lemma reachable_proceeded : reachable proceeded.
Proof. apply reachable_run, reachable_flagged. Qed.

Lemma reachable_flagged_www : reachable flagged_www.
Proof. apply reachable_run, reachable_initial. Qed.

Lemma proceeded_url_witness :
  tasks revisit !! 0%nat = Some (AwaitApiKey (page bank_url) 2)
  ∧ truthy (JStr "key") = true
  ∧ bank_url ∈ sessionProceededUrls revisit
  ∧ tabAnalysisResults (step (ApiKeyRead 0 (Ok (JStr "key")) 5001) revisit) !! 2
    = Some (Rec (record bank_url "SAFE"
                   (JStr "You chose to proceed to this page earlier in this session.")
                   5001))
  ∧ no_fetch (effects_of (ApiKeyRead 0 (Ok (JStr "key")) 5001) revisit).
Proof.
  assert (tasks revisit !! 0%nat = Some (AwaitApiKey (page bank_url) 2))
    as Htask by reflexivity.
  assert (truthy (JStr "key") = true) as Hkey by reflexivity.
  assert (bank_url ∈ sessionProceededUrls revisit) as Hin.
  { change (sessionProceededUrls revisit) with ({[bank_url]} ∪ ∅ : gset string).
    set_solver. }
  pose proof (proceeded_url_skips_classifier revisit 0 (page bank_url) 2 (JStr "key")
                5001 Htask Hkey Hin) as (_ & Hrec & Hem & _).
  refine (conj Htask (conj Hkey (conj Hin (conj Hrec _)))).
  unfold effects_of. rewrite Hem. reflexivity.
Defined.

Lemma payload_failure_witness :
  tasks (@run payload_engine [PAGE_DATA (Some 1) page_with_form 1000] initial) !! 0%nat
  = Some (AwaitApiKey page_with_form 1)
  ∧ truthy (JStr "key") = true
  ∧ @whitelisted payload_engine bank_url = false
  ∧ form_details ref_href page_with_form = None
  ∧ @build_prompt payload_engine page_with_form = Throw (Rejected "Invalid URL")
  ∧ result (@handle payload_engine (ApiKeyRead 0 (Ok (JStr "key")) 1001)
              (@run payload_engine [PAGE_DATA (Some 1) page_with_form 1000] initial))
    = Throw (Rejected "Invalid URL")
  ∧ getStatus
      (world (@handle payload_engine (ApiKeyRead 0 (Ok (JStr "key")) 1001)
                (@run payload_engine [PAGE_DATA (Some 1) page_with_form 1000] initial)))
      1
    = PENDING_PLACEHOLDER.
Proof.
  set (w := @run payload_engine [PAGE_DATA (Some 1) page_with_form 1000] initial).
  assert (tasks w !! 0%nat = Some (AwaitApiKey page_with_form 1)) as Htask by reflexivity.
  assert (truthy (JStr "key") = true) as Hkey by reflexivity.
  assert (@whitelisted payload_engine (pd_url page_with_form) = false)
    as Hwhite by reflexivity.
  assert (pd_url page_with_form ∉ sessionProceededUrls w) as Hnotin.
  { change (sessionProceededUrls w) with (∅ : gset string). set_solver. }
  assert (@build_prompt payload_engine page_with_form = Throw (Rejected "Invalid URL"))
    as Hprompt by reflexivity.
  pose proof (@payload_failure_leaves_no_trace payload_engine w 0 page_with_form 1
                (JStr "key") 1001 (Rejected "Invalid URL")
                Htask Hkey Hwhite Hnotin Hprompt) as (Hres & _ & _ & Hstatus & _).
  exact (conj Htask (conj Hkey (conj Hwhite (conj eq_refl
           (conj Hprompt (conj Hres Hstatus)))))).
Defined.

Lemma transport_failure_witness :
  tasks (awaiting_fetch bank_url) !! 0%nat = Some (AwaitFetch (page bank_url) 1)
  ∧ transport_error (FetchRejected (Rejected "Failed to fetch"))
    = Some (Rejected "Failed to fetch")
  ∧ tabAnalysisResults
      (step (FetchSettled 0 (FetchRejected (Rejected "Failed to fetch")) 1002)
         (awaiting_fetch bank_url)) !! 1
    = Some (Rec (record bank_url "ERROR"
                   (JStr "Network error or issue calling Trinetra AI backend: Failed to fetch")
                   1002)).
Proof.
  assert (tasks (awaiting_fetch bank_url) !! 0%nat = Some (AwaitFetch (page bank_url) 1))
    as Htask by reflexivity.
  assert (transport_error (FetchRejected (Rejected "Failed to fetch"))
          = Some (Rejected "Failed to fetch")) as Herr by reflexivity.
  pose proof (transport_failure_is_error (awaiting_fetch bank_url) 0 (page bank_url) 1
                _ 1002 _ Htask Herr) as (_ & Hrec & _).
  exact (conj Htask (conj Herr Hrec)).
Defined.

Lemma http_failure_witness :
  tasks (awaiting_fetch bank_url) !! 0%nat = Some (AwaitFetch (page bank_url) 1)
  ∧ tabAnalysisResults
      (step (FetchSettled 0
               (HttpNotOk "Bad Request"
                  (Ok (JObj [("error", JObj [("message", JStr "API key not valid")])])))
               1002)
         (awaiting_fetch bank_url)) !! 1
    = Some (Rec (record bank_url "ERROR"
                   (JStr "Gemini API request failed: Bad Request - API key not valid")
                   1002)).
Proof.
  assert (tasks (awaiting_fetch bank_url) !! 0%nat = Some (AwaitFetch (page bank_url) 1))
    as Htask by reflexivity.
  pose proof (http_failure_is_error (awaiting_fetch bank_url) 0 (page bank_url) 1
                "Bad Request"
                (JObj [("error", JObj [("message", JStr "API key not valid")])])
                1002 Htask) as ((_ & Hrec & _) & _).
  exact (conj Htask Hrec).
Defined.

Lemma response_without_output_witness :
  tasks (awaiting_fetch bank_url) !! 0%nat = Some (AwaitFetch (page bank_url) 1)
  ∧ JSON_parse body_blocked
    = Some (JObj [("promptFeedback", JObj [("blockReason", JStr "SAFETY")])])
  ∧ candidate_text (JObj [("promptFeedback", JObj [("blockReason", JStr "SAFETY")])])
    = Ok JUndefined
  ∧ blocked_reason (JObj [("promptFeedback", JObj [("blockReason", JStr "SAFETY")])])
    = Ok (JStr "SAFETY")
  ∧ tabAnalysisResults
      (step (FetchSettled 0 (HttpOk (Ok body_blocked)) 1002) (awaiting_fetch bank_url))
      !! 1
    = Some (Rec (record bank_url "ERROR"
                   (JStr "Trinetra AI analysis blocked by content safety filter: SAFETY")
                   1002)).
Proof.
  assert (tasks (awaiting_fetch bank_url) !! 0%nat = Some (AwaitFetch (page bank_url) 1))
    as Htask by reflexivity.
  assert (JSON_parse body_blocked
          = Some (JObj [("promptFeedback", JObj [("blockReason", JStr "SAFETY")])]))
    as Hbody by reflexivity.
  assert (candidate_text (JObj [("promptFeedback", JObj [("blockReason", JStr "SAFETY")])])
          = Ok JUndefined) as Hout by reflexivity.
  assert (blocked_reason (JObj [("promptFeedback", JObj [("blockReason", JStr "SAFETY")])])
          = Ok (JStr "SAFETY")) as Hreason by reflexivity.
  pose proof (response_without_output_is_error (awaiting_fetch bank_url) 0
                (page bank_url) 1 body_blocked _ JUndefined (JStr "SAFETY") 1002
                Htask Hbody Hout eq_refl Hreason) as (_ & Hrec & _).
  exact (conj Htask (conj Hbody (conj Hout (conj Hreason Hrec)))).
Defined.

Lemma known_status_witness :
  tasks (awaiting_fetch bank_url) !! 0%nat = Some (AwaitFetch (page bank_url) 1)
  ∧ includes KNOWN_STATUSES (trim (toUpperCase "dangerous")) = true
  ∧ tabAnalysisResults
      (step (FetchSettled 0 (HttpOk (Ok body_dangerous)) 1002) (awaiting_fetch bank_url))
      !! 1
    = Some (Rec (record bank_url "DANGEROUS"
                   (JStr "mimics bank login (Confidence: 90%)") 1002)).
Proof.
  assert (tasks (awaiting_fetch bank_url) !! 0%nat = Some (AwaitFetch (page bank_url) 1))
    as Htask by reflexivity.
  destruct (JSON_parse body_dangerous) as [resultJson|] eqn:Hbody; [|discriminate Hbody].
  destruct (candidate_text resultJson) as [output|] eqn:Hout;
    [|injection Hbody as <-; discriminate Hout].
  assert (truthy output = true) as Htruthy.
  { injection Hbody as <-. injection Hout as <-. reflexivity. }
  destruct (JSON_parse_value output) as [aiAnalysis|] eqn:Hparse;
    [|injection Hbody as <-; injection Hout as <-; discriminate Hparse].
  assert (prop aiAnalysis "status" = Ok (JStr "dangerous")) as Hst.
  { injection Hbody as <-. injection Hout as <-. injection Hparse as <-. reflexivity. }
  assert (prop aiAnalysis "explanation" = Ok (JStr "mimics bank login")) as Hexpl.
  { injection Hbody as <-. injection Hout as <-. injection Hparse as <-. reflexivity. }
  assert (with_confidence aiAnalysis (JStr "mimics bank login")
          = Ok (JStr "mimics bank login (Confidence: 90%)")) as H1.
  { injection Hbody as <-. injection Hout as <-. injection Hparse as <-. reflexivity. }
  assert (with_threat aiAnalysis (JStr "mimics bank login (Confidence: 90%)")
          = Ok (JStr "mimics bank login (Confidence: 90%)")) as H2.
  { injection Hbody as <-. injection Hout as <-. injection Hparse as <-. reflexivity. }
  assert (includes KNOWN_STATUSES (trim (toUpperCase "dangerous")) = true)
    as Hknown by reflexivity.
  pose proof (known_status_is_recorded (awaiting_fetch bank_url) 0 (page bank_url) 1
                body_dangerous 1002 resultJson output aiAnalysis "dangerous"
                "mimics bank login" _ _
                Htask Hbody Hout Htruthy Hparse Hst eq_refl Hexpl eq_refl Hknown H1 H2)
    as (_ & Hrec & _).
  exact (conj Htask (conj Hknown Hrec)).
Defined.

Lemma safe_record_witness :
  tabAnalysisResults (step (ApiKeyRead 0 (Ok (JStr "key")) 1001) (awaiting_key github_url))
    !! 1
  = Some (Rec (record github_url "SAFE"
                 (JStr "This domain is on Trinetra's trusted whitelist.") 1001))
  ∧ whitelisted github_url = true
  ∧ ∃ i pageData apiKey now,
      ApiKeyRead 0 (Ok (JStr "key")) 1001 = ApiKeyRead i (Ok apiKey) now
      ∧ tasks (awaiting_key github_url) !! i = Some (AwaitApiKey pageData 1)
      ∧ truthy apiKey = true.
Proof.
  assert (tabAnalysisResults
            (step (ApiKeyRead 0 (Ok (JStr "key")) 1001) (awaiting_key github_url)) !! 1
          = Some (Rec (record github_url "SAFE"
                         (JStr "This domain is on Trinetra's trusted whitelist.") 1001)))
    as Hslot by reflexivity.
  split; [exact Hslot|]. split; [reflexivity|].
  destruct (safe_record_provenance _ _ _ _ Hslot eq_refl)
    as [Hold|[(now & existing & Hev & _)|[(i & pageData & apiKey & now & Hev & Hi & Hk & _)
        |(i & pageData & text & now & Hev & _)]]].
  - discriminate Hold.
  - discriminate Hev.
  - exists i, pageData, apiKey, now. by repeat split.
  - discriminate Hev.
Defined.

Lemma notification_witness :
  notifications_create 1 "_trinetra_danger" "Trinetra Alert: DANGEROUS Site!"
    (alert_message bank_url "DANGEROUS" "mimics bank login (Confidence: 90%)")
    2 ["Go Back"; "View Details"]
  ∈ effects_of (FetchSettled 0 (HttpOk (Ok body_dangerous)) 1002) (awaiting_fetch bank_url)
  ∧ (∃ r, tabAnalysisResults
            (step (FetchSettled 0 (HttpOk (Ok body_dangerous)) 1002)
               (awaiting_fetch bank_url)) !! 1
          = Some (Rec r)
          ∧ status r = "DANGEROUS")
  ∧ notifications_create_basic (popup_info exponent_1e21 1)
    ∈ onButtonClicked exponent_1e21 "1_trinetra_danger" 1
  ∧ n_priority (popup_info exponent_1e21 1) = 0.
Proof.
  assert (notifications_create 1 "_trinetra_danger" "Trinetra Alert: DANGEROUS Site!"
            (alert_message bank_url "DANGEROUS" "mimics bank login (Confidence: 90%)")
            2 ["Go Back"; "View Details"]
          ∈ effects_of (FetchSettled 0 (HttpOk (Ok body_dangerous)) 1002)
              (awaiting_fetch bank_url)) as Hin.
  { apply list_elem_of_further, list_elem_of_here. }
  assert (notifications_create_basic (popup_info exponent_1e21 1)
          ∈ onButtonClicked exponent_1e21 "1_trinetra_danger" 1) as Hclick.
  { do 2 apply list_elem_of_further. apply list_elem_of_here. }
  destruct (notification_matches_verdict exponent_1e21) as (Hverdict & Hbutton & _).
  destruct (Hbutton _ _ _ Hclick) as (_ & tabId & _ & _ & _ & Hprio).
  split; [exact Hin|]. split; [|exact (conj Hclick Hprio)].
  destruct (Hverdict _ _ _ _ _ _ _ _ Hin)
    as (i & pageData & text & now & r & details & n & _ & _ & Hr & _ & _ & _ & _ & _
        & [(Hst & _)|(_ & Hsuffix & _)]).
  - by exists r.
  - discriminate Hsuffix.
Defined.

Lemma button_witness :
  Z.abs 17 < 2 ^ 53
  ∧ notificationId exponent_1e21 17 "_trinetra_danger" = "17_trinetra_danger"
  ∧ onButtonClicked exponent_1e21 "17_trinetra_danger" 0
    = [goBack 17; notifications_clear "17_trinetra_danger"]
  ∧ (2 ^ 53 ≤ Z.abs (10 ^ 21))%Z
  ∧ onButtonClicked exponent_1e21
      (notificationId exponent_1e21 (10 ^ 21) "_trinetra_danger") 0
    = [goBack 1; notifications_clear "1e+21_trinetra_danger"].
Proof.
  assert (Z.abs 17 < 2 ^ 53) as Hsafe by reflexivity.
  assert (2 ^ 53 ≤ Z.abs (10 ^ 21))%Z as Hbig by (by vm_compute).
  pose proof (button_acts_on_notified_tab exponent_1e21 17 "trinetra_danger" 0 Hsafe)
    as [(_ & Hback & _) Hbeyond].
  exact (conj Hsafe (conj eq_refl (conj Hback
           (conj Hbig (Hbeyond (10 ^ 21) Hbig eq_refl))))).
Defined.

Lemma closed_tab_witness :
  tasks (awaiting_fetch bank_url) !! 0%nat = Some (AwaitFetch (page bank_url) 1)
  ∧ tabAnalysisResults (step (tabs_onRemoved 1) (awaiting_fetch bank_url)) !! 1 = None
  ∧ ∃ st expl,
      In st VERDICTS
      ∧ tabAnalysisResults
          (step (FetchSettled 0 (HttpOk (Ok body_dangerous)) 1002)
             (step (tabs_onRemoved 1) (awaiting_fetch bank_url))) !! 1
        = Some (Rec (record bank_url st expl 1002)).
Proof.
  assert (tasks (awaiting_fetch bank_url) !! 0%nat = Some (AwaitFetch (page bank_url) 1))
    as Htask by reflexivity.
  pose proof (closed_tab_record_reappears (awaiting_fetch bank_url) 0 (page bank_url) 1
                (HttpOk (Ok body_dangerous)) 1002 Htask) as (Hnone & _ & Hrec).
  exact (conj Htask (conj Hnone Hrec)).
Defined.

Lemma navigation_witness :
  tabAnalysisResults flagged !! 1
  = Some (Rec (record bank_url "DANGEROUS"
                 (JStr "mimics bank login (Confidence: 90%)") 1002))
  ∧ startsWith github_url "https://" = true
  ∧ getStatus (step (tabs_onUpdated 1 (Some "complete") (Some github_url)) flagged) 1
    = PENDING_PLACEHOLDER
  ∧ tasks (step (PAGE_DATA (Some 1) (page bank_url) 1003)
             (step (tabs_onUpdated 1 (Some "complete") (Some github_url)) flagged))
    = [AwaitApiKey (page bank_url) 1].
Proof.
  assert (tabAnalysisResults flagged !! 1
          = Some (Rec (record bank_url "DANGEROUS"
                         (JStr "mimics bank login (Confidence: 90%)") 1002)))
    as Hrec by reflexivity.
  assert (startsWith github_url "https://" = true) as Hhttp by reflexivity.
  assert ((1 : Z) ≠ 0) as Hne by done.
  assert (getDomain (url (record bank_url "DANGEROUS"
                            (JStr "mimics bank login (Confidence: 90%)") 1002))
          ≠ getDomain github_url) as Hdom by done.
  pose proof (navigation_forces_fresh_analysis flagged 1 _ github_url (page bank_url)
                1003 Hne Hrec (or_intror Hhttp) Hdom) as (Hpending & _ & _ & Htasks & _).
  exact (conj Hrec (conj Hhttp (conj Hpending Htasks))).
Defined.

Lemma same_domain_witness :
  tabAnalysisResults flagged_www !! 1
  = Some (Rec (record www_url "DANGEROUS"
                 (JStr "mimics bank login (Confidence: 90%)") 1002))
  ∧ URL_hostname www_url = Some ("www." +:+ "example.com")
  ∧ URL_hostname bare_url = Some "example.com"
  ∧ step (tabs_onUpdated 1 (Some "complete") (Some bare_url)) flagged_www = flagged_www
  ∧ getStatus
      (step (PAGE_DATA (Some 1) (page bare_url) 1003)
         (step (tabs_onUpdated 1 (Some "complete") (Some bare_url)) flagged_www)) 1
    = Found (record www_url "DANGEROUS"
               (JStr "mimics bank login (Confidence: 90%)") 1002).
Proof.
  assert (tabAnalysisResults flagged_www !! 1
          = Some (Rec (record www_url "DANGEROUS"
                         (JStr "mimics bank login (Confidence: 90%)") 1002)))
    as Hrec by reflexivity.
  assert (URL_hostname www_url = Some ("www." +:+ "example.com")) as Hwww by reflexivity.
  assert (URL_hostname bare_url = Some "example.com") as Hbare by reflexivity.
  assert ((1 : Z) ≠ 0) as Hne by done.
  assert (pd_url (page bare_url) ≠ www_url) as Hurl by done.
  pose proof (same_domain_navigation_keeps_verdict flagged_www 1 _ "example.com"
                (Some "complete") bare_url (page bare_url) 1003
                Hne Hrec Hwww Hbare eq_refl Hurl) as (Hstep & Hstatus & _).
  exact (conj Hrec (conj Hwww (conj Hbare (conj Hstep Hstatus)))).
Defined.


Lemma script_filter_witness :
  Forall (λ s, startsWith s "http" = true) (pd_scripts page_with_form)
  ∧ startsWith "https://example-bank-support.co/app.js" "https://example-bank-support.co"
    = true
  ∧ external_script_urls page_with_form
    = ["https://example-bank-support.co/app.js"; "https://cdn.example/x.js"].
Proof.
  assert (Forall (λ s, startsWith s "http" = true) (pd_scripts page_with_form)) as Hall.
  { repeat constructor. }
  pose proof (script_filter_keeps_same_origin page_with_form Hall) as Hscripts.
  exact (conj Hall (conj eq_refl Hscripts)).
Defined.

Lemma links_sample_witness :
  pd_links page_with_form
  = extract_links "https://example-bank-support.co"
      [ "https://example-bank-support.co/help";
        "https://other.example/";
        "mailto:support@example-bank-support.co" ]
  ∧ external_links_sample page_with_form = ["https://other.example/"].
Proof.
  assert (pd_links page_with_form
          = extract_links "https://example-bank-support.co"
              [ "https://example-bank-support.co/help";
                "https://other.example/";
                "mailto:support@example-bank-support.co" ]) as Hlinks by reflexivity.
  pose proof (links_sample_of_page _ _ page_with_form Hlinks) as Hsample.
  exact (conj Hlinks Hsample).
Defined.

Lemma popup_verdict_witness :
  reachable flagged
  ∧ tabAnalysisResults flagged !! 1
    = Some (Rec (record bank_url "DANGEROUS"
                   (JStr "mimics bank login (Confidence: 90%)") 1002))
  ∧ currentTabUrl (on_status_response (getStatus flagged 1) (popup_on_tab bank_url))
    = Some bank_url
  ∧ actionsDisplay (on_status_response (getStatus flagged 1) (popup_on_tab bank_url))
    = Some "flex".
Proof.
  assert (tabAnalysisResults flagged !! 1
          = Some (Rec (record bank_url "DANGEROUS"
                         (JStr "mimics bank login (Confidence: 90%)") 1002)))
    as Hrec by reflexivity.
  pose proof (popup_shows_stored_verdict flagged 1 _ (popup_on_tab bank_url)
                reachable_flagged Hrec) as (Hurl & _ & _ & [_ Hflex] & _).
  exact (conj reachable_flagged (conj Hrec (conj Hurl (Hflex (or_intror eq_refl))))).
Defined.

Lemma pending_popup_witness :
  tabAnalysisResults (awaiting_fetch bank_url) !! 1 = None
  ∧ startsWith bank_url "https://" = true
  ∧ String.eqb (status (record github_url "SAFE"
                          (JStr "This domain is on Trinetra's trusted whitelist.") 1001))
      "" = false
  ∧ currentTabUrl
      (on_status_response (getStatus (awaiting_fetch bank_url) 1) (popup_on_tab bank_url))
    = None
  ∧ currentTabUrl
      (on_UPDATE_POPUP_DATA
         (record github_url "SAFE"
            (JStr "This domain is on Trinetra's trusted whitelist.") 1001)
         (on_status_response (getStatus (awaiting_fetch bank_url) 1)
            (popup_on_tab bank_url)))
    = Some github_url.
Proof.
  assert (tabAnalysisResults (awaiting_fetch bank_url) !! 1 = None) as Hslot by reflexivity.
  assert (startsWith bank_url "https://" = true) as Hhttp by reflexivity.
  assert (status (record github_url "SAFE"
                    (JStr "This domain is on Trinetra's trusted whitelist.") 1001) ≠ "")
    as Hst by done.
  pose proof (pending_popup_takes_any_update (awaiting_fetch bank_url) 1 bank_url
                popup_loaded _ (or_introl Hslot) (or_intror Hhttp) Hst)
    as (_ & _ & _ & _ & Hnone & _ & Hurl & _).
  exact (conj Hslot (conj Hhttp (conj eq_refl (conj Hnone Hurl)))).
Defined.

Lemma popup_filter_witness :
  reachable flagged
  ∧ tabAnalysisResults flagged !! 1
    = Some (Rec (record bank_url "DANGEROUS"
                   (JStr "mimics bank login (Confidence: 90%)") 1002))
  ∧ on_UPDATE_POPUP_DATA
      (record github_url "SAFE"
         (JStr "This domain is on Trinetra's trusted whitelist.") 1001)
      (on_status_response (getStatus flagged 1) (popup_on_tab bank_url))
    = on_status_response (getStatus flagged 1) (popup_on_tab bank_url).
Proof.
  assert (tabAnalysisResults flagged !! 1
          = Some (Rec (record bank_url "DANGEROUS"
                         (JStr "mimics bank login (Confidence: 90%)") 1002)))
    as Hrec by reflexivity.
  assert (url (record bank_url "DANGEROUS"
                 (JStr "mimics bank login (Confidence: 90%)") 1002) ≠ "")
    as Hurl by done.
  pose proof (popup_filters_by_url flagged 1 _ (popup_on_tab bank_url)
                (record github_url "SAFE"
                   (JStr "This domain is on Trinetra's trusted whitelist.") 1001)
                reachable_flagged Hrec Hurl) as [Hother _].
  assert (url (record github_url "SAFE"
                 (JStr "This domain is on Trinetra's trusted whitelist.") 1001)
          ≠ url (record bank_url "DANGEROUS"
                   (JStr "mimics bank login (Confidence: 90%)") 1002))
    as Hne by done.
  exact (conj reachable_flagged (conj Hrec (Hother Hne))).
Defined.

Lemma proceed_button_witness :
  reachable flagged
  ∧ currentTabId (popup_on_tab bank_url) = Some 1
  ∧ proceedAnywayButton_click (popup_on_tab bank_url) 2000 = Some (PROCEED_ANYWAY 1 2000)
  ∧ ∃ reply,
      effects_of (PROCEED_ANYWAY 1 2000) flagged
      = [ sendMessage_UPDATE_POPUP_DATA (override_record bank_url 2000);
          sendResponse reply ]
      ∧ actionsDisplay (on_proceed_response reply (popup_on_tab bank_url)) = Some "none".
Proof.
  assert (tabAnalysisResults flagged !! 1
          = Some (Rec (record bank_url "DANGEROUS"
                         (JStr "mimics bank login (Confidence: 90%)") 1002)))
    as Hrec by reflexivity.
  assert (currentTabId (popup_on_tab bank_url) = Some 1) as Htab by reflexivity.
  pose proof (proceed_button_round_trip flagged 1 _ (popup_on_tab bank_url) 2000
                reachable_flagged Hrec Htab)
    as (Hclick & reply & Heffects & _ & Hnone & _).
  exact (conj reachable_flagged (conj Htab (conj Hclick
           (ex_intro _ reply (conj Heffects Hnone))))).
Defined.
